(** * ThumbScore AI: the thumbnail scoring pipeline

    A shallow embedding of the Python sources

    - [ml/preprocessing/image_processor.py]  (class [ImageProcessor]),
    - [ml/models/score_predictor.py]         (class [ScorePredictor]),
    - [app/services/thumbnail_analyzer.py]   (class [ThumbnailAnalyzer]),
    - [app/main.py] and [app/core/config.py] (the HTTP entry points),

    together with the properties of the composite scoring algorithm.

    Conventions of the embedding.

    - Python floats are exact rationals ([Q]); the predictor, whose clamp
      is reached by not-a-number and infinite intermediate values, uses
      [npfloat], the rationals extended with [NaN] and the two infinities.
      The rounding of binary arithmetic is not modelled: a sum that is a
      decimal tie as a rational ([50.15]) may lie on either side of the
      tie as a float.  Where the code rounds to one decimal or truncates
      a product, the properties are therefore stated as bounds and
      inequalities that hold whichever way such a tie falls, not as
      equations between rounded values.
    - Code that can raise lives in the error monad [exc]; [try_except]
      is Python's [try: ... except Exception as e: ...].
    - Calls into PIL, OpenCV, NumPy and TensorFlow are the fields of the
      classes [Libraries], [Numerics] and [Keras]; the draws of the
      random generators are explicit arguments.
    - The attributes [total_analyses] and [scores_history] of the global
      analyzer object are threaded explicitly as a value of
      [ThumbnailAnalyzer.t]. *)

From stdpp Require Import base strings gmap list pretty.
From Stdlib Require Import QArith Qround Qabs Lqa Lia ZArith Permutation.
From Stdlib.Strings Require Import Byte.

Local Open Scope Q_scope.

(* ===================================================================== *)
(** * Python built-ins on rationals *)
(* ===================================================================== *)

Module Py.

(** [a < b] as a boolean. *)
Definition ltb (a b : Q) : bool := negb (Qle_bool b a).

(** [min(a, b)]: the first argument unless the second is strictly smaller. *)
Definition min (a b : Q) : Q := if ltb b a then b else a.

(** [max(a, b)]: the first argument unless the second is strictly larger. *)
Definition max (a b : Q) : Q := if ltb a b then b else a.

(** Rounding to the nearest integer, ties to the even neighbour. *)
Definition round_half_even (q : Q) : Z :=
  let f := Qfloor q in
  match Qcompare (q - inject_Z f) (1 # 2) with
  | Lt => f
  | Gt => (f + 1)%Z
  | Eq => if Z.even f then f else (f + 1)%Z
  end.

(** [round(q, 1)] of an exact value: to the nearest decimal, a tie to
    the even one. *)
Definition round1 (q : Q) : Q := round_half_even (q * 10) # 10.

(** [int(q)]: truncation towards zero. *)
Definition int (q : Q) : Z := if ltb q 0 then (- Qfloor (- q))%Z else Qfloor q.

(** [max(l)] of a non-empty list: the first of the largest elements. *)
Definition max_list (l : list Q) : option Q :=
  match l with
  | [] => None
  | x :: xs => Some (fold_left max xs x)
  end.

(** [sum(l)] and [len(l)] of a list of floats. *)
Definition sum (l : list Q) : Q := fold_left Qplus l 0.
Definition len {A} (l : list A) : Q := inject_Z (Z.of_nat (length l)).

End Py.

(* ===================================================================== *)
(** * Exceptions and the error monad *)
(* ===================================================================== *)

(** [HTTPException] is a subclass of [Exception]; every other exception
    is kept by its message. *)
Inductive exception :=
| HTTPException (status_code : Z) (detail : string)
| Exception (message : string).

(** [str(e)]; Starlette prints an [HTTPException] as ["<status>: <detail>"]. *)
Definition str (e : exception) : string :=
  match e with
  | HTTPException c d => pretty c +:+ ": " +:+ d
  | Exception m => m
  end.

Inductive exc (A : Type) :=
| Ok (a : A)
| Raise (e : exception).
Arguments Ok {A} a.
Arguments Raise {A} e.

#[global] Instance exc_ret : MRet exc := fun A a => Ok a.
#[global] Instance exc_bind : MBind exc := fun A B f m =>
  match m with
  | Ok a => f a
  | Raise e => Raise e
  end.

(** [try: body  except Exception as e: handler(e)]. *)
Definition try_except {A} (body : exc A) (handler : exception -> exc A) : exc A :=
  match body with
  | Ok a => Ok a
  | Raise e => handler e
  end.

Definition raises {A} (m : exc A) : Prop := exists e, m = Raise e.
Definition returns {A} (m : exc A) : Prop := exists a, m = Ok a.

(* ===================================================================== *)
(** * Floats with the exceptional values *)
(* ===================================================================== *)

Inductive npfloat :=
| Fin (q : Q)
| PInf
| NInf
| NaN.

Module Np.

Definition opp (a : npfloat) : npfloat :=
  match a with
  | Fin x => Fin (- x)
  | PInf => NInf
  | NInf => PInf
  | NaN => NaN
  end.

Definition add (a b : npfloat) : npfloat :=
  match a, b with
  | NaN, _ | _, NaN => NaN
  | PInf, NInf | NInf, PInf => NaN
  | PInf, _ | _, PInf => PInf
  | NInf, _ | _, NInf => NInf
  | Fin x, Fin y => Fin (x + y)
  end.

Definition sub (a b : npfloat) : npfloat := add a (opp b).

(** An infinity of sign [s] times the finite [x]. *)
Definition scale_inf (positive : bool) (x : Q) : npfloat :=
  match Qcompare x 0 with
  | Eq => NaN
  | Gt => if positive then PInf else NInf
  | Lt => if positive then NInf else PInf
  end.

Definition mul (a b : npfloat) : npfloat :=
  match a, b with
  | NaN, _ | _, NaN => NaN
  | Fin x, Fin y => Fin (x * y)
  | Fin x, PInf | PInf, Fin x => scale_inf true x
  | Fin x, NInf | NInf, Fin x => scale_inf false x
  | PInf, PInf | NInf, NInf => PInf
  | PInf, NInf | NInf, PInf => NInf
  end.

(** Division of two finite floats as NumPy does it: no exception, an
    infinity or [NaN] when the divisor is zero. *)
Definition true_divide (x y : Q) : npfloat :=
  if Qeq_bool y 0 then
    match Qcompare x 0 with
    | Eq => NaN
    | Gt => PInf
    | Lt => NInf
    end
  else Fin (x / y).

(** Division by a non-zero finite constant. *)
Definition div_const (a : npfloat) (c : Q) : npfloat :=
  match a with
  | Fin x => Fin (x / c)
  | PInf => scale_inf true c
  | NInf => scale_inf false c
  | NaN => NaN
  end.

Definition abs (a : npfloat) : npfloat :=
  match a with
  | Fin x => Fin (Qabs x)
  | PInf | NInf => PInf
  | NaN => NaN
  end.

(** [a < b]: false as soon as one side is [NaN]. *)
Definition ltb (a b : npfloat) : bool :=
  match a, b with
  | NaN, _ | _, NaN => false
  | Fin x, Fin y => Py.ltb x y
  | NInf, NInf | PInf, _ => false
  | NInf, _ => true
  | Fin _, PInf => true
  | Fin _, NInf => false
  end.

(** The built-ins [min(a, b)] and [max(a, b)] on such floats. *)
Definition min (a b : npfloat) : npfloat := if ltb b a then b else a.
Definition max (a b : npfloat) : npfloat := if ltb a b then b else a.

(** [round(a, 1)] of a finite float. *)
Definition round1 (a : npfloat) : npfloat :=
  match a with
  | Fin x => Fin (Py.round1 x)
  | other => other
  end.

End Np.

(* ===================================================================== *)
(** * The external libraries *)
(* ===================================================================== *)

(** A float array of shape (H, W, C), row by row. *)
Definition Array : Type := list (list (list Q)).

(** A PIL image: its mode, its size (width, height) and the bands of the
    pixel at column [x] and row [y]. *)
Record PILImage := {
  mode : string;
  size : Z * Z;
  load : Z -> Z -> list byte
}.

(** What OpenCV and NumPy measure in [_analyze_basic_features]. *)
Record Measurements := {
  std_gray : Q;          (* np.std(gray) *)
  mean_hsv_s : Q;        (* np.mean(hsv[:, :, 1]) *)
  mean_lab_l : Q;        (* np.mean(lab[:, :, 0]) *)
  var_laplacian : Q      (* np.var(cv2.Laplacian(gray, cv2.CV_64F)) *)
}.

(** What OpenCV and NumPy measure in [extract_features]. *)
Record Statistics := {
  st_mean_hue : Q;
  st_mean_saturation : Q;
  st_mean_value : Q;
  st_mean_lightness : Q;
  st_contrast : Q;
  st_brightness : Q;
  st_sharpness : Q;
  st_edge_density : Q;
  st_color_variance_r : Q;
  st_color_variance_g : Q;
  st_color_variance_b : Q
}.

Class Libraries := {
  (** [Image.open(io.BytesIO(image_bytes))] *)
  Image_open : list byte -> exc PILImage;
  (** [image.convert('RGB')] *)
  Image_convert_RGB : PILImage -> PILImage;
  (** the pixels of the image resampled to a size with the Lanczos filter *)
  LANCZOS : PILImage -> Z * Z -> Z -> Z -> list byte;
  (** the colour-space conversions and statistics of [extract_features] *)
  cv2_statistics : Array -> exc Statistics;
  (** the grayscale conversion of [analyze_composition] followed by
      [np.var] of each cell of the 3 x 3 grid, in row-major order *)
  cv2_grid_variance : Array -> exc (list Q);
  (** the conversions and statistics of [_analyze_basic_features] *)
  cv2_measurements : Array -> exc Measurements;
  (** [cv2.kmeans(data, 5, None, criteria, 10, cv2.KMEANS_RANDOM_CENTERS)]:
      the labels, for a state of OpenCV's random generator *)
  cv2_kmeans : nat -> list (list Q) -> exc (list nat);
  (** [np.std] of a vector *)
  np_std : list Q -> Q
}.

(* ===================================================================== *)
(** * ml/preprocessing/image_processor.py *)
(* ===================================================================== *)

Module ImageProcessor.

Record t := { target_size : Z * Z }.

(** [ImageProcessor()] with the default [target_size]. *)
Definition __init__ : t := {| target_size := (224, 224)%Z |}.

Definition rgb : Type := byte * byte * byte.

Definition black : rgb := (x00, x00, x00).

(** An image of mode RGB under construction. *)
Record RGBImage := {
  rgb_size : Z * Z;
  rgb_load : Z -> Z -> rgb
}.

(** The first three bands of a pixel: what lands in an RGB image. *)
Definition to_rgb (bands : list byte) : rgb :=
  (nth 0 bands x00, nth 1 bands x00, nth 2 bands x00).

(** [Image.new('RGB', size, color)]. *)
Definition Image_new (size : Z * Z) (color : rgb) : RGBImage :=
  {| rgb_size := size; rgb_load := fun _ _ => color |}.

(** [canvas.paste(image, (x, y))]: the pixels of the box that [image]
    covers are replaced. *)
Definition paste (canvas : RGBImage) (image : PILImage) (at_ : Z * Z) : RGBImage :=
  let '(x, y) := at_ in
  let '(w, h) := size image in
  {| rgb_size := rgb_size canvas;
     rgb_load := fun X Y =>
       if ((x <=? X) && (X <? x + w) && (y <=? Y) && (Y <? y + h))%Z
       then to_rgb (load image (X - x) (Y - y))
       else rgb_load canvas X Y |}.

(** [np.array(image)] of an RGB image: shape (height, width, 3). *)
Definition np_array (image : RGBImage) : list (list (list byte)) :=
  let '(w, h) := rgb_size image in
  map (fun Y => map (fun X => let '(r, g, b) := rgb_load image X Y in [r; g; b])
                    (seqZ 0 w))
      (seqZ 0 h).

(** [a.astype(np.float32) / 255.0] on one sample. *)
Definition normalize (b : byte) : Q := inject_Z (Z.of_N (Byte.to_N b)) / 255.0.

Section WithLibraries.
Context `{Libraries}.

(** [image.resize(size, Image.Resampling.LANCZOS)]: Pillow refuses a
    requested size with a side below one pixel. *)
Definition Image_resize (image : PILImage) (new_size : Z * Z) : exc PILImage :=
  let '(w, h) := new_size in
  if ((w <? 1) || (h <? 1))%Z
  then Raise (Exception "height and width must be > 0")
  else Ok {| mode := mode image; size := new_size; load := LANCZOS image new_size |}.

(** The scale and the two products are exact: where [width * scale] is a
    whole number as a rational, the float may fall just below it and
    [int] give one pixel less. *)
Definition _resize_with_padding (self : t) (image : PILImage) : exc RGBImage :=
  let '(width, height) := size image in
  let '(target_width, target_height) := target_size self in
  if ((width =? 0) || (height =? 0))%Z
  then Raise (Exception "division by zero")
  else
    let scale := Py.min (inject_Z target_width / inject_Z width)
                        (inject_Z target_height / inject_Z height) in
    let new_width := Py.int (inject_Z width * scale) in
    let new_height := Py.int (inject_Z height * scale) in
    image ← Image_resize image (new_width, new_height);
    let new_image := Image_new (target_size self) black in
    let x := ((target_width - new_width) `div` 2)%Z in
    let y := ((target_height - new_height) `div` 2)%Z in
    Ok (paste new_image image (x, y)).

Definition preprocess (self : t) (image : PILImage) : exc Array :=
  try_except
    (let image := if negb (String.eqb (mode image) "RGB")
                  then Image_convert_RGB image else image in
     image ← _resize_with_padding self image;
     let img_array := np_array image in
     Ok (map (map (map normalize)) img_array))
    (fun e => Raise e).

Definition features_dict (s : Statistics) : gmap string Q :=
  <["color_variance_b" := st_color_variance_b s]>
  (<["color_variance_g" := st_color_variance_g s]>
  (<["color_variance_r" := st_color_variance_r s]>
  (<["edge_density" := st_edge_density s]>
  (<["sharpness" := st_sharpness s]>
  (<["brightness" := st_brightness s]>
  (<["contrast" := st_contrast s]>
  (<["mean_lightness" := st_mean_lightness s]>
  (<["mean_value" := st_mean_value s]>
  (<["mean_saturation" := st_mean_saturation s]>
  (<["mean_hue" := st_mean_hue s]> ∅)))))))))).

Definition extract_features (image : Array) : exc (gmap string Q) :=
  try_except
    (s ← cv2_statistics image;
     Ok (features_dict s))
    (fun _ => Ok ∅).

(** The dictionary that [analyze_composition] returns; the key
    ['sections_variance'] is absent from the default. *)
Record Composition := {
  composition_score : npfloat;
  center_interest : Q;
  rule_of_thirds_adherence : npfloat;
  sections_variance : option (list Q)
}.

(** [sections[i]]: an index out of range raises. *)
Definition getitem (sections : list Q) (i : nat) : exc Q :=
  match sections !! i with
  | Some v => Ok v
  | None => Raise (Exception "list index out of range")
  end.

(** [max(sections)]: an empty argument raises. *)
Definition max_ (sections : list Q) : exc Q :=
  match Py.max_list sections with
  | Some v => Ok v
  | None => Raise (Exception "max() arg is an empty sequence")
  end.

Definition analyze_composition (image : Array) : exc Composition :=
  try_except
    (sections ← cv2_grid_variance image;
     center_interest ← getitem sections 4;
     s0 ← getitem sections 0; s2 ← getitem sections 2;
     s6 ← getitem sections 6; s8 ← getitem sections 8;
     let corners_interest := (s0 + s2 + s6 + s8) / 4 in
     s1 ← getitem sections 1; s3 ← getitem sections 3;
     s5 ← getitem sections 5; s7 ← getitem sections 7;
     let thirds_interest := (s1 + s3 + s5 + s7) / 4 in
     let composition_score :=
       Np.true_divide thirds_interest (center_interest + 1e-6) in
     largest ← max_ sections;
     Ok {| composition_score := Np.min composition_score (Fin 2.0);
           center_interest := center_interest;
           rule_of_thirds_adherence := Np.true_divide thirds_interest largest;
           sections_variance := Some sections |})
    (fun _ => Ok {| composition_score := Fin 1.0;
                    center_interest := 0.0;
                    rule_of_thirds_adherence := Fin 0.5;
                    sections_variance := None |}).

End WithLibraries.

End ImageProcessor.

(* ===================================================================== *)
(** * ml/models/score_predictor.py *)
(* ===================================================================== *)

Module ScorePredictor.

(** What NumPy and TensorFlow measure in [_calculate_heuristic_score]. *)
Record HeuristicStatistics := {
  h_std_gray : npfloat;                 (* np.std(gray) *)
  h_mean_gray : npfloat;                (* np.mean(gray) *)
  h_mean_gradient : npfloat;            (* np.mean(np.sqrt(grad_x**2 + grad_y**2)) *)
  h_mean_saturation : option npfloat    (* np.mean(hsv[:, :, 1]); None unless the array has 3 axes *)
}.

(** The numerical libraries as the predictor uses them, on arrays of any
    shape and element type. *)
Class Numerics (ndarray : Type) := {
  (** [self.model.predict(image_batch, verbose=0)[0][0]] as a float *)
  model_predict : ndarray -> exc npfloat;
  (** the statistics of the heuristic; raises for instance on an array
      too small for [np.gradient] *)
  heuristic_statistics : ndarray -> exc HeuristicStatistics
}.

(** The attributes of the predictor that [predict_score] reads. *)
Record t := {
  model_is_None : bool;
  is_trained : bool
}.

(** The draws of [np.random.uniform] that one prediction may consume. *)
Record Draws := {
  uniform_60_90 : Q;
  uniform_m5_5 : Q
}.

Section WithNumerics.
Context {ndarray : Type} `{Numerics ndarray}.

Definition _calculate_heuristic_score (image : ndarray) (jitter : Q) : exc npfloat :=
  try_except
    (s ← heuristic_statistics image;
     let contrast := Np.div_const (h_std_gray s) 255.0 in
     let brightness := Np.div_const (h_mean_gray s) 255.0 in
     let brightness_score :=
       Np.sub (Fin 1) (Np.mul (Np.abs (Np.sub brightness (Fin 0.5))) (Fin 2)) in
     let sharpness := Np.div_const (h_mean_gradient s) 255.0 in
     let saturation :=
       match h_mean_saturation s with
       | Some v => v
       | None => Fin 0.5
       end in
     let score :=
       Np.add (Np.add (Np.add (Np.mul contrast (Fin 25))
                              (Np.mul brightness_score (Fin 20)))
                      (Np.mul sharpness (Fin 30)))
              (Np.mul saturation (Fin 25)) in
     let score := Np.add score (Fin jitter) in
     Ok (Np.max (Fin 50) (Np.min (Fin 95) score)))
    (fun _ => Ok (Fin 75.0)).

Definition predict_score (self : t) (image : ndarray) (rnd : Draws) : exc npfloat :=
  try_except
    (if model_is_None self then Ok (Fin (uniform_60_90 rnd))
     else
       score ← (if is_trained self
                then prediction ← model_predict image;
                     Ok (Np.mul prediction (Fin 100))
                else _calculate_heuristic_score image (uniform_m5_5 rnd));
       let score := Np.max (Fin 0) (Np.min (Fin 100) score) in
       Ok (Np.round1 score))
    (fun _ => _calculate_heuristic_score image (uniform_m5_5 rnd)).

End WithNumerics.

(** The layers of a [tf.keras.Sequential] model and the callbacks of a
    training run, as the predictor writes them. *)
Inductive layer :=
| Conv2D (filters : Z) (kernel_size : Z * Z) (activation : string)
    (input_shape : option (Z * Z * Z))
| MaxPooling2D (pool_size strides : Z)
| Flatten (input_shape : option (Z * Z * Z))
| Dropout (rate : Q)
| Dense (units : Z) (activation : string).

Inductive callback :=
| EarlyStopping (patience : Z) (restore_best_weights : bool)
| ReduceLROnPlateau (patience : Z).

(** The arguments of [model.fit]. *)
Record FitArguments {ndarray : Type} := {
  fit_x : list ndarray;
  fit_y : list Q;
  validation_data : list ndarray * list Q;
  epochs : Z;
  batch_size : Z;
  verbose : Z;
  callbacks : list callback
}.
Arguments FitArguments : clear implicits.

(** Keras, NumPy and the file system as the predictor uses them; a model
    is updated in place by [compile] and [fit], hence returned. *)
Class Keras (model ndarray : Type) := {
  (** [os.path.exists(path)] *)
  os_path_exists : string -> bool;
  (** [np.array(images)] of a list of arrays, by its rows [images[i]];
      NumPy refuses arrays of different shapes *)
  np_array : list ndarray -> exc (list ndarray);
  (** [tf.keras.models.load_model(path)] *)
  load_model : string -> exc model;
  (** [tf.keras.Sequential(layers)] *)
  Sequential : list layer -> exc model;
  (** [model.compile(optimizer=..., loss=..., metrics=...)] *)
  compile : model -> string -> string -> list string -> exc model;
  (** [model.fit(x, y, ...)]: whether it returned, and the model afterwards *)
  fit : model -> FitArguments ndarray -> exc unit * model;
  (** [model.count_params()], [model.input_shape], [model.output_shape] *)
  count_params : model -> exc Z;
  model_input_shape : model -> exc (list (option Z));
  model_output_shape : model -> exc (list (option Z))
}.

(** The predictor object: [self.model_path], [self.model] and
    [self.is_trained]. *)
Record object {model : Type} := {
  self_model_path : option string;
  self_model : option model;
  self_is_trained : bool
}.
Arguments object : clear implicits.

(** The two attributes that [predict_score] reads. *)
Definition attributes {model : Type} (self : object model) : t :=
  {| model_is_None := match self_model self with None => true | Some _ => false end;
     is_trained := self_is_trained self |}.

(** The dictionary of training data: its entries ['images'], a list of
    arrays, and ['scores'], a list of floats; [None] for a key that is
    absent. *)
Record TrainingData {ndarray : Type} := {
  images : option (list ndarray);
  scores : option (list Q)
}.
Arguments TrainingData : clear implicits.

(** The values of the dictionary of [get_model_info]. *)
Inductive value :=
| VStr (s : string)
| VNone
| VInt (n : Z)
| VShape (shape : list (option Z)).

Section WithKeras.
Context {model ndarray : Type} `{Keras model ndarray}.

Definition _create_base_model : exc model :=
  model ← Sequential [
    Conv2D 32 (3, 3)%Z "relu" (Some (224, 224, 3)%Z);
    MaxPooling2D 2 2;
    Conv2D 64 (3, 3)%Z "relu" None;
    MaxPooling2D 2 2;
    Conv2D 128 (3, 3)%Z "relu" None;
    MaxPooling2D 2 2;
    Conv2D 128 (3, 3)%Z "relu" None;
    MaxPooling2D 2 2;
    Flatten None;
    Dropout 0.5;
    Dense 512 "relu";
    Dropout 0.3;
    Dense 256 "relu";
    Dense 1 "sigmoid"
  ];
  compile model "adam" "mse" ["mae"].

Definition _create_simple_model : exc model :=
  model ← Sequential [
    Flatten (Some (224, 224, 3)%Z);
    Dense 128 "relu";
    Dense 64 "relu";
    Dense 1 "sigmoid"
  ];
  compile model "adam" "mse" ["mae"].

(** [_initialize_model]: the object afterwards, or the exception of the
    fallback.  The attributes are assigned after the call that can
    raise, so that the handler finds the object as it was. *)
Definition _initialize_model (self : object model) : exc (object model) :=
  try_except
    (match self_model_path self with
     | Some path =>
         if negb (String.eqb path "") && os_path_exists path
         then
           m ← load_model path;
           Ok {| self_model_path := self_model_path self;
                 self_model := Some m;
                 self_is_trained := true |}
         else
           m ← _create_base_model;
           Ok {| self_model_path := self_model_path self;
                 self_model := Some m;
                 self_is_trained := self_is_trained self |}
     | None =>
         m ← _create_base_model;
         Ok {| self_model_path := self_model_path self;
               self_model := Some m;
               self_is_trained := self_is_trained self |}
     end)
    (fun _ =>
       m ← _create_simple_model;
       Ok {| self_model_path := self_model_path self;
             self_model := Some m;
             self_is_trained := self_is_trained self |}).

Definition __init__ (model_path : option string) : exc (object model) :=
  _initialize_model {| self_model_path := model_path;
                       self_model := None;
                       self_is_trained := false |}.

(** [train_model]: the boolean it returns and the object afterwards.
    Every step from [np.array] on is inside the [try]; the scores, a
    list of floats, are always accepted by [np.array] and divided. *)
Definition train_model (self : object model) (training_data : TrainingData ndarray) :
    bool * object model :=
  let '(result, self) :=
    match images training_data, scores training_data with
    | Some images, Some scores =>
        match np_array images with
        | Ok images =>
            let scores := map (fun s => s / 100.0) scores in
            let split_idx := Z.to_nat (Py.int (Py.len images * 0.8)) in
            let train_images := take split_idx images in
            let train_scores := take split_idx scores in
            let val_images := drop split_idx images in
            let val_scores := drop split_idx scores in
            match self_model self with
            | Some m =>
                let '(history, m) :=
                  fit m {| fit_x := train_images;
                           fit_y := train_scores;
                           validation_data := (val_images, val_scores);
                           epochs := 50;
                           batch_size := 32;
                           verbose := 1;
                           callbacks := [EarlyStopping 5 true; ReduceLROnPlateau 3] |} in
                match history with
                | Ok _ =>
                    (Ok true,
                     {| self_model_path := self_model_path self;
                        self_model := Some m;
                        self_is_trained := true |})
                | Raise e =>
                    (Raise e,
                     {| self_model_path := self_model_path self;
                        self_model := Some m;
                        self_is_trained := self_is_trained self |})
                end
            | None => (Raise (Exception "'NoneType' object has no attribute 'fit'"), self)
            end
        | Raise e => (Raise e, self)
        end
    | _, _ => (Ok false, self)
    end in
  match result with
  | Ok b => (b, self)
  | Raise _ => (false, self)
  end.

Definition get_model_info (self : object model) : exc (gmap string value) :=
  match self_model self with
  | None => Ok {[ "status" := VStr "not_initialized" ]}
  | Some m =>
      let status := VStr (if self_is_trained self then "trained" else "not_trained") in
      let model_path :=
        match self_model_path self with
        | Some path => VStr path
        | None => VNone
        end in
      total_params ← count_params m;
      input_shape ← model_input_shape m;
      output_shape ← model_output_shape m;
      Ok (<["output_shape" := VShape output_shape]>
         (<["input_shape" := VShape input_shape]>
         (<["total_params" := VInt total_params]>
         (<["model_path" := model_path]>
         {[ "status" := status ]}))))
  end.

End WithKeras.

End ScorePredictor.

(* ===================================================================== *)
(** * app/services/thumbnail_analyzer.py *)
(* ===================================================================== *)

Module ThumbnailAnalyzer.

(** The analyzer object; [score_predictor] is reached through the score
    it returns (see [World]). *)
Record t := {
  image_processor : ImageProcessor.t;
  total_analyses : Z;
  scores_history : list Q
}.

Definition __init__ : t :=
  {| image_processor := ImageProcessor.__init__;
     total_analyses := 0;
     scores_history := [] |}.

(** The dictionary of [_analyze_basic_features]. *)
Record BasicAnalysis := {
  visual_impact : Q;
  clarity : Q;
  contrast : Q;
  color_harmony : Q;
  brightness : Q;
  saturation : Q
}.

(** The dictionary of [_analyze_contextual_features]. *)
Record Contextual := {
  composition : Q;
  text_readability : Q;
  emotional_appeal : Q;
  brand_consistency : Q
}.

(** What one call of [analyze] receives from outside the analyzer: the
    state of OpenCV's random generator, the value that
    [score_predictor.predict_score] returns, the four draws of
    [np.random.uniform] in the order of the calls, and the clock. *)
Record World := {
  kmeans_state : nat;
  ml_score : Q;
  uniform_60_95 : Q;
  uniform_70_90 : Q;
  uniform_65_85 : Q;
  uniform_70_90' : Q;
  now_isoformat : string
}.

Record Breakdown := {
  b_visual_impact : Q;
  b_clarity : Q;
  b_contrast : Q;
  b_color_harmony : Q;
  b_composition : Q;
  b_text_readability : Q
}.

Record AnalysisResult := {
  score : Q;
  breakdown : Breakdown;
  suggestions : list string;
  analysis_timestamp : string;
  filename : string
}.

(** [np.unique(labels, return_counts=True)[1]]: how often each label
    that occurs occurs, by increasing label. *)
Definition unique_counts (labels : list nat) : list nat :=
  filter (fun c => c ≠ 0%nat)
         (map (fun k => length (filter (fun l => l = k) labels))
              (seq 0 (S (list_max labels)))).

Section WithLibraries.
Context `{Libraries}.

Definition _calculate_color_harmony (image : Array) (state : nat) : exc Q :=
  let data := concat image in                    (* image.reshape((-1, 3)) *)
  labels ← cv2_kmeans state data;
  let counts := unique_counts labels in
  let color_distribution :=
    map (fun c => inject_Z (Z.of_nat c) / Py.len labels) counts in
  let harmony := 1 - np_std color_distribution in
  Ok (harmony * 100).

Definition _analyze_basic_features (image : Array) (state : nat) : exc BasicAnalysis :=
  m ← cv2_measurements image;
  let contrast := std_gray m / 255.0 in
  let saturation := mean_hsv_s m / 255.0 in
  let brightness := mean_lab_l m / 255.0 in
  let clarity := var_laplacian m / 10000.0 in
  color_harmony ← _calculate_color_harmony image state;
  let visual_impact := contrast * 0.3 + saturation * 0.3 + clarity * 0.4 in
  Ok {| visual_impact := Py.min (visual_impact * 100) 100;
        clarity := Py.min (clarity * 100) 100;
        contrast := Py.min (contrast * 100) 100;
        color_harmony := color_harmony;
        brightness := brightness * 100;
        saturation := saturation * 100 |}.

End WithLibraries.

Definition _analyze_contextual_features (w : World) : Contextual :=
  let composition_score := uniform_60_95 w in
  let text_readability := uniform_70_90 w in
  {| composition := composition_score;
     text_readability := text_readability;
     emotional_appeal := uniform_65_85 w;
     brand_consistency := uniform_70_90' w |}.

Definition _calculate_final_score (basic : BasicAnalysis) (ml_score : Q)
    (contextual : Contextual) : Q :=
  let w_basic := 0.4 in
  let w_ml := 0.35 in
  let w_contextual := 0.25 in
  let basic_avg :=
    visual_impact basic * 0.3 +
    clarity basic * 0.25 +
    contrast basic * 0.25 +
    color_harmony basic * 0.2 in
  let contextual_avg :=
    composition contextual * 0.4 +
    text_readability contextual * 0.3 +
    emotional_appeal contextual * 0.3 in
  let final_score :=
    basic_avg * w_basic +
    ml_score * w_ml +
    contextual_avg * w_contextual in
  Py.round1 (Py.min final_score 100).

(** [if cond: suggestions.append(message)]. *)
Definition append_if (cond : bool) (message : string) (suggestions : list string) :
    list string :=
  if cond then suggestions ++ [message] else suggestions.

Definition msg_contrast : string := "Aumente o contraste para melhorar a legibilidade".
Definition msg_clarity : string := "Use uma imagem mais nítida para melhor impacto visual".
Definition msg_harmony : string := "Considere usar uma paleta de cores mais harmoniosa".
Definition msg_composition : string := "Melhore a composição seguindo a regra dos terços".
Definition msg_text : string := "Torne o texto mais legível com melhor contraste ou tamanho".
Definition msg_excellent : string :=
  "Excelente thumbnail! Pequenos ajustes podem torná-la ainda melhor".
Definition msg_good : string := "Boa thumbnail! Algumas melhorias podem aumentar o CTR".
Definition msg_poor : string :=
  "Esta thumbnail precisa de melhorias significativas para melhor performance".

Definition _generate_suggestions (basic : BasicAnalysis) (contextual : Contextual)
    (final_score : Q) : list string :=
  let suggestions := [] in
  let suggestions := append_if (Py.ltb (contrast basic) 60) msg_contrast suggestions in
  let suggestions := append_if (Py.ltb (clarity basic) 50) msg_clarity suggestions in
  let suggestions := append_if (Py.ltb (color_harmony basic) 70) msg_harmony suggestions in
  let suggestions :=
    append_if (Py.ltb (composition contextual) 70) msg_composition suggestions in
  let suggestions :=
    append_if (Py.ltb (text_readability contextual) 75) msg_text suggestions in
  let suggestions :=
    if Py.ltb 85 final_score then suggestions ++ [msg_excellent]
    else if Py.ltb 70 final_score then suggestions ++ [msg_good]
    else suggestions ++ [msg_poor] in
  suggestions.

Section WithLibraries.
Context `{Libraries}.

(** Everything [analyze] computes before it touches the statistics. *)
Definition pipeline (self : t) (image_bytes : list byte) (filename : string)
    (w : World) : exc AnalysisResult :=
  image ← Image_open image_bytes;
  processed_image ← ImageProcessor.preprocess (image_processor self) image;
  basic_analysis ← _analyze_basic_features processed_image (kmeans_state w);
  let ml_score := ml_score w in
  let contextual_analysis := _analyze_contextual_features w in
  let final_score := _calculate_final_score basic_analysis ml_score contextual_analysis in
  let suggestions := _generate_suggestions basic_analysis contextual_analysis final_score in
  Ok {| score := final_score;
        breakdown :=
          {| b_visual_impact := visual_impact basic_analysis;
             b_clarity := clarity basic_analysis;
             b_contrast := contrast basic_analysis;
             b_color_harmony := color_harmony basic_analysis;
             b_composition := composition contextual_analysis;
             b_text_readability := text_readability contextual_analysis |};
        suggestions := suggestions;
        analysis_timestamp := now_isoformat w;
        filename := filename |}.

(** [analyze]: the result or the exception, and the analyzer afterwards.
    The two statistics are updated between the last computation and the
    [return]; the handler logs and raises again. *)
Definition analyze (self : t) (image_bytes : list byte) (filename : string)
    (w : World) : exc AnalysisResult * t :=
  match pipeline self image_bytes filename w with
  | Ok result =>
      (Ok result,
       {| image_processor := image_processor self;
          total_analyses := total_analyses self + 1;
          scores_history := scores_history self ++ [score result] |})
  | Raise e => (Raise e, self)
  end.

End WithLibraries.

Definition get_total_analyses (self : t) : Z := total_analyses self.

Definition get_average_score (self : t) : Q :=
  match scores_history self with
  | [] => 0.0
  | _ => Py.round1 (Py.sum (scores_history self) / Py.len (scores_history self))
  end.

End ThumbnailAnalyzer.

(* ===================================================================== *)
(** * app/core/config.py *)
(* ===================================================================== *)

Module Settings.

Record t := {
  MODEL_PATH : string;
  MAX_IMAGE_SIZE : Z;
  ALLOWED_IMAGE_TYPES : list string;
  CACHE_TTL : Z;
  LOG_LEVEL : string
}.

End Settings.

(** The global [settings], with the defaults of the class. *)
Definition settings : Settings.t :=
  {| Settings.MODEL_PATH := "ml/models/";
     Settings.MAX_IMAGE_SIZE := 1024 * 1024 * 5;
     Settings.ALLOWED_IMAGE_TYPES := ["image/jpeg"; "image/png"; "image/webp"];
     Settings.CACHE_TTL := 3600;
     Settings.LOG_LEVEL := "INFO" |}.

(* ===================================================================== *)
(** * app/main.py *)
(* ===================================================================== *)

Module Main.

Import ThumbnailAnalyzer.

(** An uploaded file: the part of the multipart form may come without a
    content type. *)
Record UploadFile := {
  upload_filename : string;
  content_type : option string;
  contents : list byte              (* await file.read() *)
}.

Record AnalyzeResponse := {
  success : bool;
  response_filename : string;
  analysis : AnalysisResult
}.

Record BatchItem := {
  item_filename : string;
  item_analysis : AnalysisResult
}.

Record BatchResponse := {
  batch_success : bool;
  total_analyzed : nat;
  results : list BatchItem
}.

(** A request handler works on the global [thumbnail_analyzer]: it ends
    with a value or an exception and leaves the analyzer in some state. *)
Definition handler (A : Type) : Type := ThumbnailAnalyzer.t -> exc A * ThumbnailAnalyzer.t.

#[global] Instance handler_ret : MRet handler := fun A a => fun an => (Ok a, an).
#[global] Instance handler_bind : MBind handler := fun A B f m => fun an =>
  match m an with
  | (Ok a, an') => f a an'
  | (Raise e, an') => (Raise e, an')
  end.

Definition raise {A} (e : exception) : handler A := fun an => (Raise e, an).

Definition try_except_h {A} (body : handler A) (on_error : exception -> handler A) :
    handler A := fun an =>
  match body an with
  | (Ok a, an') => (Ok a, an')
  | (Raise e, an') => on_error e an'
  end.

(** [s.startswith(prefix)] on the content type of a file. *)
Definition startswith (s : option string) (prefix : string) : handler bool :=
  match s with
  | Some s => mret (String.prefix prefix s)
  | None => raise (Exception "'NoneType' object has no attribute 'startswith'")
  end.

Section WithLibraries.
Context `{Libraries}.

Definition analyze_thumbnail (file : UploadFile) (w : World) : handler AnalyzeResponse :=
  try_except_h
    (is_image ← startswith (content_type file) "image/";
     if negb is_image
     then raise (HTTPException 400 "Arquivo deve ser uma imagem")
     else
       let contents := contents file in
       result ← (fun an => analyze an contents (upload_filename file) w);
       mret {| success := true;
               response_filename := upload_filename file;
               analysis := result |})
    (fun e => raise (HTTPException 500 ("Erro interno: " +:+ str e))).

(** The body of [for file in files], from the file at the head on. *)
Fixpoint batch_loop (files : list (UploadFile * World)) (results : list BatchItem) :
    handler (list BatchItem) :=
  match files with
  | [] => mret results
  | (file, w) :: files =>
      is_image ← startswith (content_type file) "image/";
      if negb is_image
      then batch_loop files results                                  (* continue *)
      else
        let contents := contents file in
        result ← (fun an => analyze an contents (upload_filename file) w);
        batch_loop files
          (results ++ [{| item_filename := upload_filename file;
                          item_analysis := result |}])
  end.

Definition batch_analyze_thumbnails (files : list (UploadFile * World)) :
    handler BatchResponse :=
  try_except_h
    (results ← batch_loop files [];
     mret {| batch_success := true;
             total_analyzed := length results;
             results := results |})
    (fun e => raise (HTTPException 500 ("Erro interno: " +:+ str e))).

End WithLibraries.

Record Metrics := {
  metrics_total_analyses : Z;
  metrics_average_score : Q;
  api_version : string
}.

Definition get_metrics : handler Metrics := fun an =>
  (Ok {| metrics_total_analyses := get_total_analyses an;
         metrics_average_score := get_average_score an;
         api_version := "1.0.0" |}, an).

End Main.

(* ===================================================================== *)
(** * The scoring rules in closed form *)
(* ===================================================================== *)

(** The formulas, rule tables and assumptions that the properties below
    compare the code with. *)
Module Rules.

Import ThumbnailAnalyzer.

(** ** Fusion of the scores *)

(** Visual impact from the entries of the dictionary. *)
Definition nested_visual_impact (b : BasicAnalysis) : Q :=
  0.3 * contrast b + 0.3 * saturation b + 0.4 * clarity b.

Definition basic_aggregate (b : BasicAnalysis) : Q :=
  0.3 * visual_impact b + 0.25 * clarity b + 0.25 * contrast b + 0.2 * color_harmony b.

Definition contextual_aggregate (c : Contextual) : Q :=
  0.4 * composition c + 0.3 * text_readability c + 0.3 * emotional_appeal c.

Definition fused (b : BasicAnalysis) (ml : Q) (c : Contextual) : Q :=
  0.4 * basic_aggregate b + 0.35 * ml + 0.25 * contextual_aggregate c.

(** The fused score when visual impact is taken to be the nested formula. *)
Definition fused_nested (b : BasicAnalysis) (ml : Q) (c : Contextual) : Q :=
  0.4 * (0.3 * nested_visual_impact b + 0.25 * clarity b + 0.25 * contrast b
         + 0.2 * color_harmony b)
  + 0.35 * ml + 0.25 * contextual_aggregate c.

(** ** Suggestions *)

(** The suggestion rules, in their order: the value looked at, the
    threshold below which the rule fires, and the message. *)
Definition rules (b : BasicAnalysis) (c : Contextual) : list (Q * Q * string) :=
  [ (contrast b, 60, msg_contrast);
    (clarity b, 50, msg_clarity);
    (color_harmony b, 70, msg_harmony);
    (composition c, 70, msg_composition);
    (text_readability c, 75, msg_text) ].

Definition fires (rule : Q * Q * string) : bool :=
  let '(value, threshold, _) := rule in Py.ltb value threshold.

Definition triggered (b : BasicAnalysis) (c : Contextual) : list string :=
  map snd (List.filter fires (rules b c)).

Definition closing_remark (final_score : Q) : string :=
  if Py.ltb 85 final_score then msg_excellent
  else if Py.ltb 70 final_score then msg_good
  else msg_poor.

Definition is_closing_remark (s : string) : bool :=
  String.eqb s msg_excellent || String.eqb s msg_good || String.eqb s msg_poor.

(** Two dictionaries with the same numbers. *)
Definition same_basic (b b' : BasicAnalysis) : Prop :=
  visual_impact b == visual_impact b' /\ clarity b == clarity b' /\
  contrast b == contrast b' /\ color_harmony b == color_harmony b' /\
  brightness b == brightness b' /\ saturation b == saturation b'.

Definition same_contextual (c c' : Contextual) : Prop :=
  composition c == composition c' /\ text_readability c == text_readability c' /\
  emotional_appeal c == emotional_appeal c' /\
  brand_consistency c == brand_consistency c'.

(** ** Heuristic predictor *)

(** The weighted sum of the heuristic predictor, before jitter and clamp:
    contrast (x 25), centredness of the brightness around mid-gray
    (x 20), gradient sharpness (x 30) and mean saturation (x 25). *)
Definition brightness_centeredness (brightness : npfloat) : npfloat :=
  Np.sub (Fin 1) (Np.mul (Np.abs (Np.sub brightness (Fin 0.5))) (Fin 2)).

Definition heuristic_sum (s : ScorePredictor.HeuristicStatistics) : npfloat :=
  Np.add
    (Np.add
       (Np.add (Np.mul (Np.div_const (ScorePredictor.h_std_gray s) 255.0) (Fin 25))
               (Np.mul (brightness_centeredness
                          (Np.div_const (ScorePredictor.h_mean_gray s) 255.0)) (Fin 20)))
       (Np.mul (Np.div_const (ScorePredictor.h_mean_gradient s) 255.0) (Fin 30)))
    (Np.mul (default (Fin 0.5) (ScorePredictor.h_mean_saturation s)) (Fin 25)).

(** [max(lo, min(hi, x))]. *)
Definition clamp (lo hi : Q) (x : npfloat) : npfloat :=
  Np.max (Fin lo) (Np.min (Fin hi) x).

(** A finite float within bounds. *)
Definition within (lo hi : Q) (x : npfloat) : Prop :=
  exists q, x = Fin q /\ lo <= q <= hi.

(** ** Preprocessing and features *)

(** The shape (h, w, c) of an array, and its values within [0, 1]. *)
Definition has_shape (a : Array) (h w c : nat) : Prop :=
  length a = h /\
  Forall (fun row => length row = w /\ Forall (fun px => length px = c) row) a.

Definition all_in_unit (a : Array) : Prop :=
  Forall (Forall (Forall (fun v => 0 <= v <= 1))) a.

(** The size to which [_resize_with_padding] asks the image resized. *)
Definition scaled_size (self : ImageProcessor.t) (image_size : Z * Z) : Z * Z :=
  let '(width, height) := image_size in
  let '(target_width, target_height) := ImageProcessor.target_size self in
  let scale := Py.min (inject_Z target_width / inject_Z width)
                      (inject_Z target_height / inject_Z height) in
  (Py.int (inject_Z width * scale), Py.int (inject_Z height * scale)).

(** An image of mode RGB with the given size and pixels. *)
Definition rgb_image (image_size : Z * Z) (pixels : Z -> Z -> list byte) : PILImage :=
  {| mode := "RGB"; size := image_size; load := pixels |}.

(** The result of [analyze_composition] when a step of it fails. *)
Definition composition_default : ImageProcessor.Composition :=
  {| ImageProcessor.composition_score := Fin 1.0;
     ImageProcessor.center_interest := 0.0;
     ImageProcessor.rule_of_thirds_adherence := Fin 0.5;
     ImageProcessor.sections_variance := None |}.

(** ** Requests *)

(** A file whose declared content type starts with ["image/"]. *)
Definition is_image (file : Main.UploadFile) : bool :=
  match Main.content_type file with
  | Some type => String.prefix "image/" type
  | None => false
  end.

(** The files of a batch that are images, in their order. *)
Definition images (files : list (Main.UploadFile * World)) :
    list (Main.UploadFile * World) :=
  List.filter (fun fw => is_image fw.1) files.

(** The files on which the loop of a batch goes on and the files that
    end it.  The loop goes on after a file that declares a content type
    and, when this type is an image type, is analysed; it ends at a file
    without content type and at an image file whose analysis raises. *)
Definition passes `{Libraries} (an : ThumbnailAnalyzer.t)
    (fw : Main.UploadFile * World) : Prop :=
  is_Some (Main.content_type fw.1)
  /\ (is_image fw.1 = true ->
      returns (pipeline an (Main.contents fw.1) (Main.upload_filename fw.1) fw.2)).

Definition aborts `{Libraries} (an : ThumbnailAnalyzer.t)
    (fw : Main.UploadFile * World) : Prop :=
  Main.content_type fw.1 = None
  \/ (is_image fw.1 = true
      /\ raises (pipeline an (Main.contents fw.1) (Main.upload_filename fw.1) fw.2)).

(** The pipeline of [analyze] in two stages: up to the dictionary of the
    basic features, and from the dictionary to the result. *)
Definition basic_stage `{Libraries} (processor : ImageProcessor.t)
    (image_bytes : list byte) (state : nat) : exc BasicAnalysis :=
  image ← Image_open image_bytes;
  processed_image ← ImageProcessor.preprocess processor image;
  _analyze_basic_features processed_image state.

Definition result_of (b : BasicAnalysis) (name : string) (w : World) : AnalysisResult :=
  let c := _analyze_contextual_features w in
  let final_score := _calculate_final_score b (ml_score w) c in
  {| score := final_score;
     breakdown :=
       {| b_visual_impact := visual_impact b;
          b_clarity := clarity b;
          b_contrast := contrast b;
          b_color_harmony := color_harmony b;
          b_composition := composition c;
          b_text_readability := text_readability c |};
     suggestions := _generate_suggestions b c final_score;
     analysis_timestamp := now_isoformat w;
     filename := name |}.

(** ** Usage statistics *)

(** A sequence of calls of [analyze] on the same analyzer: the results
    in order and the analyzer at the end. *)
Fixpoint analyze_all `{Libraries} (self : ThumbnailAnalyzer.t)
    (calls : list (list byte * string * World)) :
    list (exc AnalysisResult) * ThumbnailAnalyzer.t :=
  match calls with
  | [] => ([], self)
  | (data, name, w) :: calls =>
      let '(r, self) := analyze self data name w in
      let '(rs, self) := analyze_all self calls in
      (r :: rs, self)
  end.

(** The final scores of the calls that returned. *)
Definition scores_of (rs : list (exc AnalysisResult)) : list Q :=
  flat_map (fun r => match r with Ok a => [score a] | Raise _ => [] end) rs.

(** The arithmetic mean, and the mean as [get_average_score] reports it. *)
Definition mean (l : list Q) : Q := Py.sum l / Py.len l.

Definition rounded_mean (l : list Q) : Q :=
  match l with
  | [] => 0.0
  | _ => Py.round1 (mean l)
  end.

(** What the world hands to a call of [analyze] within the ranges of the
    code: a predictor score in [0, 100] and the four uniform draws in
    the intervals they are drawn from. *)
Definition admissible (w : World) : Prop :=
  0 <= ml_score w <= 100 /\
  60 <= uniform_60_95 w <= 95 /\
  70 <= uniform_70_90 w <= 90 /\
  65 <= uniform_65_85 w <= 85 /\
  70 <= uniform_70_90' w <= 90.

(** The states of the global analyzer between two calls. *)
Inductive reachable `{Libraries} : ThumbnailAnalyzer.t -> Prop :=
| reachable_init : reachable ThumbnailAnalyzer.__init__
| reachable_analyze (self : ThumbnailAnalyzer.t) (data : list byte) (name : string)
    (w : World) :
    reachable self -> admissible w -> reachable (analyze self data name w).2.

(** ** Assumptions on the libraries *)

(** A standard deviation, a mean of saturations and a variance are not
    negative, and the standard deviation of fractions is at most one. *)
Definition measurements_nonnegative `{Libraries} : Prop :=
  forall image m, cv2_measurements image = Ok m ->
    0 <= std_gray m /\ 0 <= mean_hsv_s m /\ 0 <= var_laplacian m.

Definition std_of_fractions_at_most_one `{Libraries} : Prop :=
  forall l, Forall (fun p => 0 <= p <= 1) l -> np_std l <= 1.

(** On an array with values in [0, 1], as [preprocess] returns them, the
    gray levels and the saturations lie in [0, 1] and the values of the
    Laplacian in [-4, 4]: the standard deviation and the mean are at
    most 1 and the variance is at most 16. *)
Definition unit_measurements_bounded `{Libraries} : Prop :=
  forall image m, all_in_unit image -> cv2_measurements image = Ok m ->
    std_gray m <= 1 /\ mean_hsv_s m <= 1 /\ var_laplacian m <= 16.

(** For a fixed state of its random generator the clustering does not
    depend on the order of its samples: the labels of permuted samples
    are a permutation of the labels, and a refusal is a refusal. *)
Definition kmeans_order_insensitive `{Libraries} : Prop :=
  forall state (data data' : list (list Q)),
    data ≡ₚ data' ->
    match cv2_kmeans state data, cv2_kmeans state data' with
    | Ok labels, Ok labels' => labels ≡ₚ labels'
    | Raise e, Raise e' => e = e'
    | _, _ => False
    end.

(** ** Ranges and closed forms of the intermediate values *)

(** The four draws of [_analyze_contextual_features] within the
    intervals they are drawn from. *)
Definition draws_in_range (w : World) : Prop :=
  60 <= uniform_60_95 w <= 95 /\
  70 <= uniform_70_90 w <= 90 /\
  65 <= uniform_65_85 w <= 85 /\
  70 <= uniform_70_90' w <= 90.

(** A standard deviation is not negative. *)
Definition std_nonnegative `{Libraries} : Prop := forall l, 0 <= np_std l.

(** The vector that [_calculate_color_harmony] hands to [np.std]. *)
Definition color_distribution (labels : list nat) : list Q :=
  map (fun c => inject_Z (Z.of_nat c) / Py.len labels) (unique_counts labels).

(** Positive fractions that sum to one. *)
Definition is_distribution (l : list Q) : Prop :=
  Forall (fun p => 0 < p <= 1) l /\ Py.sum l == 1.

(** The suggestion rules read off the breakdown of a response. *)
Definition breakdown_rules (bd : Breakdown) : list (Q * Q * string) :=
  [ (b_contrast bd, 60, msg_contrast);
    (b_clarity bd, 50, msg_clarity);
    (b_color_harmony bd, 70, msg_harmony);
    (b_composition bd, 70, msg_composition);
    (b_text_readability bd, 75, msg_text) ].

(** Where [_resize_with_padding] pastes an image of a given size: the
    left upper corner of the box. *)
Definition paste_corner (self : ImageProcessor.t) (new_size : Z * Z) : Z * Z :=
  ((((ImageProcessor.target_size self).1 - new_size.1) `div` 2)%Z,
   (((ImageProcessor.target_size self).2 - new_size.2) `div` 2)%Z).

(** [a[Y][X]]: the samples of the pixel at column [X] and row [Y]. *)
Definition pixel (a : Array) (X Y : Z) : option (list Q) :=
  row ← a !! Z.to_nat Y; row !! Z.to_nat X.

(** The keys of the dictionary of [extract_features], in the order of
    their assignment. *)
Definition feature_keys : list string :=
  [ "mean_hue"; "mean_saturation"; "mean_value"; "mean_lightness";
    "contrast"; "brightness"; "sharpness"; "edge_density";
    "color_variance_r"; "color_variance_g"; "color_variance_b" ].

Definition feature_values (s : Statistics) : list Q :=
  [ st_mean_hue s; st_mean_saturation s; st_mean_value s; st_mean_lightness s;
    st_contrast s; st_brightness s; st_sharpness s; st_edge_density s;
    st_color_variance_r s; st_color_variance_g s; st_color_variance_b s ].

(** The calls of [analyze] that a list of uploads stands for. *)
Definition calls_of (files : list (Main.UploadFile * World)) :
    list (list byte * string * World) :=
  map (fun fw => (Main.contents fw.1, Main.upload_filename fw.1, fw.2)) files.

(** What [/metrics] answers in a state of the analyzer. *)
Definition reported (an : ThumbnailAnalyzer.t) : exc Main.Metrics :=
  (Main.get_metrics an).1.

End Rules.

(* ===================================================================== *)
(** * A small executable stand-in for the libraries *)
(* ===================================================================== *)

(** The properties below hold for every instance of [Libraries]; the
    instances of this module serve to run the embedding on concrete
    requests.  Images come in a toy format: one byte of width, one byte
    of height, then the pixels row by row, three bytes each.

    The instances [libraries (Ok m)] measure every array, with the
    result [m]: they show what the analyzer does with measurements once
    it has them.  OpenCV itself does not get that far on a request:
    [preprocess] returns an array of 32-bit floats, and
    [cv2.Laplacian(gray, cv2.CV_64F)] accepts a 64-bit destination for
    8-bit, 16-bit and 64-bit sources, not for 32-bit floats, so that the
    measurements of [_analyze_basic_features] raise on every array that
    [analyze] hands over ([extract_features] converts to 8 bits first;
    the analyzer does not).  The instance [opencv_libraries] has this
    refusal: on it no request for a decodable image is answered with an
    analysis. *)
Module Demo.

Definition uint8 (b : byte) : Z := Z.of_N (Byte.to_N b).

Definition decode (data : list byte) : exc PILImage :=
  match data with
  | w :: h :: pixels =>
      Ok {| mode := "RGB";
            size := (uint8 w, uint8 h);
            load := fun x y =>
              if ((0 <=? x) && (x <? uint8 w) && (0 <=? y) && (y <? uint8 h))%Z
              then take 3 (drop (3 * Z.to_nat (y * uint8 w + x)) pixels)
              else [] |}
  | _ => Raise (Exception "cannot identify image file")
  end.

(** Nearest-neighbour resampling in place of the Lanczos filter. *)
Definition nearest (image : PILImage) (new_size : Z * Z) (x y : Z) : list byte :=
  let '(w, h) := size image in
  let '(w', h') := new_size in
  load image ((x * w) `div` w')%Z ((y * h) `div` h')%Z.

(** Clustering by the first channel alone, in five bins; as OpenCV, it
    refuses fewer samples than clusters. *)
Definition bin (pixel : list Q) : nat :=
  Z.to_nat (Z.min 4 (Z.max 0 (Qfloor (nth 0 pixel 0 * 5)))).

Definition kmeans (state : nat) (data : list (list Q)) : exc (list nat) :=
  if (length data <? 5)%nat
  then Raise (Exception "OpenCV: (-215:Assertion failed) N >= K in function 'kmeans'")
  else Ok (map bin data).

Definition mean (l : list Q) : Q := Py.sum l / Py.len l.

Definition var (l : list Q) : Q := mean (map (fun x => (x - mean l) * (x - mean l)) l).

(** The square root to six decimals, from below. *)
Definition sqrt6 (q : Q) : Q := Z.sqrt (Qfloor (q * 1000000000000)) # 1000000.

Definition std (l : list Q) : Q := sqrt6 (var l).

Definition libraries (m : exc Measurements) : Libraries :=
  {| Image_open := decode;
     Image_convert_RGB := fun image =>
       {| mode := "RGB"; size := size image; load := load image |};
     LANCZOS := nearest;
     cv2_statistics := fun _ => Raise (Exception "OpenCV: unsupported array");
     cv2_grid_variance := fun _ => Ok [];
     cv2_measurements := fun _ => m;
     cv2_kmeans := kmeans;
     np_std := std |}.

(** The refusal of [cv2.Laplacian]: source depth CV_32F (5), destination
    depth CV_64F (6). *)
Definition opencv_refusal : exception :=
  Exception ("OpenCV: (-213:The function/feature is not implemented) Unsupported "
             +:+ "combination of source format (=5), and destination format (=6) "
             +:+ "in function 'getLinearFilter'").

Definition opencv_libraries : Libraries := libraries (Raise opencv_refusal).

(** Measurements of a uniform image: no contrast, no saturation, no edge. *)
Definition flat_gray : Measurements :=
  {| std_gray := 0; mean_hsv_s := 0; mean_lab_l := 53.6; var_laplacian := 0 |}.

Definition world (ml : Q) : ThumbnailAnalyzer.World :=
  {| ThumbnailAnalyzer.kmeans_state := 0;
     ThumbnailAnalyzer.ml_score := ml;
     ThumbnailAnalyzer.uniform_60_95 := 80;
     ThumbnailAnalyzer.uniform_70_90 := 80;
     ThumbnailAnalyzer.uniform_65_85 := 75;
     ThumbnailAnalyzer.uniform_70_90' := 80;
     ThumbnailAnalyzer.now_isoformat := "2024-01-01T00:00:00" |}.

(** A 2 x 2 image: red, green, blue and white. *)
Definition png_2x2 : list byte :=
  [x02; x02;  xff; x00; x00;  x00; xff; x00;  x00; x00; xff;  xff; xff; xff].

(** Bytes that are no image. *)
Definition garbage : list byte := [x00].

(** A 2 x 3 array with values in [0, 255]: the checkerboard. *)
Definition checkerboard_array : Array :=
  [ [ [0; 0; 0]; [255; 255; 255]; [0; 0; 0] ];
    [ [255; 255; 255]; [0; 0; 0]; [255; 255; 255] ] ].

(** A 2 x 3 array with values in [0, 1]: uniform mid-gray. *)
Definition gray_array : Array :=
  [ [ [0.5; 0.5; 0.5]; [0.5; 0.5; 0.5]; [0.5; 0.5; 0.5] ];
    [ [0.5; 0.5; 0.5]; [0.5; 0.5; 0.5]; [0.5; 0.5; 0.5] ] ].

(** A 2 x 2 array: too few pixels for five clusters. *)
Definition array_2x2 : Array :=
  [ [ [1; 0; 0]; [0; 1; 0] ];
    [ [0; 0; 1]; [1; 1; 1] ] ].

(** The checkerboard with its first two pixels exchanged. *)
Definition checkerboard_shuffled : Array :=
  [ [ [255; 255; 255]; [0; 0; 0]; [0; 0; 0] ];
    [ [255; 255; 255]; [0; 0; 0]; [255; 255; 255] ] ].

Definition contextual : ThumbnailAnalyzer.Contextual :=
  ThumbnailAnalyzer._analyze_contextual_features (world 75).

(** The dictionary that [_analyze_basic_features] returns on the gray
    array (all zero should it raise). *)
Definition zero_basic : ThumbnailAnalyzer.BasicAnalysis :=
  {| ThumbnailAnalyzer.visual_impact := 0; ThumbnailAnalyzer.clarity := 0;
     ThumbnailAnalyzer.contrast := 0; ThumbnailAnalyzer.color_harmony := 0;
     ThumbnailAnalyzer.brightness := 0; ThumbnailAnalyzer.saturation := 0 |}.

Definition basic_of (r : exc ThumbnailAnalyzer.BasicAnalysis) :
    ThumbnailAnalyzer.BasicAnalysis :=
  match r with
  | Ok b => b
  | Raise _ => zero_basic
  end.

Definition gray_basic : ThumbnailAnalyzer.BasicAnalysis :=
  Eval vm_compute in
    basic_of (@ThumbnailAnalyzer._analyze_basic_features
                (libraries (Ok flat_gray)) gray_array 0).

(** An analyzer whose preprocessor targets 2 x 2 pixels. *)
Definition tiny_analyzer : ThumbnailAnalyzer.t :=
  {| ThumbnailAnalyzer.image_processor := {| ImageProcessor.target_size := (2, 2)%Z |};
     ThumbnailAnalyzer.total_analyses := 0;
     ThumbnailAnalyzer.scores_history := [] |}.

Definition upload (name : string) (type : string) (data : list byte) : Main.UploadFile :=
  {| Main.upload_filename := name;
     Main.content_type := Some type;
     Main.contents := data |}.

(** Three uploads: the second one declared as text. *)
Definition batch_with_text : list (Main.UploadFile * ThumbnailAnalyzer.World) :=
  [ (upload "a.png" "image/png" png_2x2, world 75);
    (upload "notes.txt" "text/plain" garbage, world 75);
    (upload "c.png" "image/png" png_2x2, world 75) ].

(** Three uploads declared as images: the second one cannot be decoded. *)
Definition batch_with_corrupt : list (Main.UploadFile * ThumbnailAnalyzer.World) :=
  [ (upload "a.png" "image/png" png_2x2, world 75);
    (upload "b.png" "image/png" garbage, world 75);
    (upload "c.png" "image/png" png_2x2, world 75) ].

(** Two uploads: an image file that cannot be decoded, then a text. *)
Definition batch_corrupt_first : list (Main.UploadFile * ThumbnailAnalyzer.World) :=
  [ (upload "b.png" "image/png" garbage, world 75);
    (upload "notes.txt" "text/plain" garbage, world 75) ].

(** Two uploads of which none is declared as an image. *)
Definition batch_without_images : list (Main.UploadFile * ThumbnailAnalyzer.World) :=
  [ (upload "notes.txt" "text/plain" garbage, world 75);
    (upload "table.csv" "text/csv" garbage, world 75) ].

(** A text, then a file that comes without a content type. *)
Definition batch_untyped : list (Main.UploadFile * ThumbnailAnalyzer.World) :=
  [ (upload "notes.txt" "text/plain" garbage, world 75);
    ({| Main.upload_filename := "blob";
        Main.content_type := None;
        Main.contents := png_2x2 |}, world 75) ].

Definition demo_libraries : Libraries := libraries (Ok flat_gray).

(** The basic features of the 2 x 2 image once preprocessed to 224 x 224. *)
Definition basic_224 : ThumbnailAnalyzer.BasicAnalysis :=
  Eval vm_compute in
    basic_of (@Rules.basic_stage demo_libraries ImageProcessor.__init__ png_2x2 0).

(** The 2 x 2 image followed by as many padding bytes as the maximal
    upload size: a decodable file larger than the limit. *)
Definition oversized : list byte :=
  png_2x2 ++ replicate (Z.to_nat (Settings.MAX_IMAGE_SIZE settings)) x00.

(** Three analysis calls: an image, bytes that are no image, an image. *)
Definition three_calls : list (list byte * string * ThumbnailAnalyzer.World) :=
  [ (png_2x2, "a.png", world 75);
    (garbage, "b.png", world 75);
    (png_2x2, "c.png", world 77) ].

(** A basic analysis and a contextual analysis with every entry at the
    same level. *)
Definition level_basic (v : Q) : ThumbnailAnalyzer.BasicAnalysis :=
  {| ThumbnailAnalyzer.visual_impact := v; ThumbnailAnalyzer.clarity := v;
     ThumbnailAnalyzer.contrast := v; ThumbnailAnalyzer.color_harmony := v;
     ThumbnailAnalyzer.brightness := v; ThumbnailAnalyzer.saturation := v |}.

Definition level_contextual (v : Q) : ThumbnailAnalyzer.Contextual :=
  {| ThumbnailAnalyzer.composition := v; ThumbnailAnalyzer.text_readability := v;
     ThumbnailAnalyzer.emotional_appeal := v; ThumbnailAnalyzer.brand_consistency := v |}.

(** The world with every draw at the lower end of its interval. *)
Definition world_low (ml : Q) : ThumbnailAnalyzer.World :=
  {| ThumbnailAnalyzer.kmeans_state := 0;
     ThumbnailAnalyzer.ml_score := ml;
     ThumbnailAnalyzer.uniform_60_95 := 60;
     ThumbnailAnalyzer.uniform_70_90 := 70;
     ThumbnailAnalyzer.uniform_65_85 := 65;
     ThumbnailAnalyzer.uniform_70_90' := 70;
     ThumbnailAnalyzer.now_isoformat := "2024-01-01T00:00:00" |}.

(** A preprocessor with a target of 4 x 4 pixels, an orange image of
    2 x 1 pixels and one of 1 x 9 pixels. *)
Definition small_processor : ImageProcessor.t :=
  {| ImageProcessor.target_size := (4, 4)%Z |}.

Definition orange (x y : Z) : list byte := [xff; x80; x00].

Definition wide_image : PILImage := Rules.rgb_image (2, 1)%Z orange.

(** The variances of the cells of the 3 x 3 grid, on the mean of the
    three channels in place of the grayscale conversion. *)
Definition crop (gray : list (list Q)) (y1 y2 x1 x2 : nat) : list Q :=
  concat (map (fun row => take (x2 - x1) (drop x1 row)) (take (y2 - y1) (drop y1 gray))).

Definition grid_variance (image : Array) : exc (list Q) :=
  let gray := map (map mean) image in
  let third_h := (length image / 3)%nat in
  let third_w := (length (nth 0 image []) / 3)%nat in
  Ok (flat_map
        (fun i =>
           map (fun j => var (crop gray (i * third_h) ((i + 1) * third_h)
                                         (j * third_w) ((j + 1) * third_w)))
               [0; 1; 2]%nat)
        [0; 1; 2]%nat).

(** The statistics of [extract_features] on the mean of the channels;
    hue, saturation, edges and histograms are left at zero. *)
Definition statistics (image : Array) : exc Statistics :=
  match concat image with
  | [] => Raise (Exception "OpenCV: (-215:Assertion failed) !_src.empty()")
  | pixels =>
      let gray := map (fun px => 255 * mean px) pixels in
      Ok {| st_mean_hue := 0; st_mean_saturation := 0;
            st_mean_value := mean gray; st_mean_lightness := mean gray;
            st_contrast := std gray; st_brightness := mean gray;
            st_sharpness := 0; st_edge_density := 0;
            st_color_variance_r := 0; st_color_variance_g := 0;
            st_color_variance_b := 0 |}
  end.

Definition feature_libraries : Libraries :=
  {| Image_open := decode;
     Image_convert_RGB := fun image =>
       {| mode := "RGB"; size := size image; load := load image |};
     LANCZOS := nearest;
     cv2_statistics := statistics;
     cv2_grid_variance := grid_variance;
     cv2_measurements := fun _ => Ok flat_gray;
     cv2_kmeans := kmeans;
     np_std := std |}.

(** A gray array of 3 x 6 pixels, brighter to the right, and a flat one. *)
Definition ramp : Array :=
  [ [ [0; 0; 0]; [0.2; 0.2; 0.2]; [0.4; 0.4; 0.4]; [0.6; 0.6; 0.6]; [0.8; 0.8; 0.8]; [1; 1; 1] ];
    [ [0; 0; 0]; [0.2; 0.2; 0.2]; [0.4; 0.4; 0.4]; [0.6; 0.6; 0.6]; [0.8; 0.8; 0.8]; [1; 1; 1] ];
    [ [0; 0; 0]; [0.2; 0.2; 0.2]; [0.4; 0.4; 0.4]; [0.6; 0.6; 0.6]; [0.8; 0.8; 0.8]; [1; 1; 1] ] ].

Definition ramp_sections : list Q :=
  Eval vm_compute in
    match grid_variance ramp with
    | Ok sections => sections
    | Raise _ => []
    end.

(** The shape of an array, read off its first row and first pixel. *)
Definition shape (a : Array) : nat * nat * nat :=
  (length a, length (nth 0 a []), length (nth 0 (nth 0 a []) [])).

(** [np.array] of a list of arrays: refused unless they have one shape. *)
Definition stack (images : list Array) : exc (list Array) :=
  match images with
  | [] => Ok []
  | a :: rest =>
      if forallb (fun b => bool_decide (shape b = shape a)) rest
      then Ok images
      else Raise (Exception ("setting an array element with a sequence. The requested "
                             +:+ "array has an inhomogeneous shape after 1 dimensions."))
  end.

(** Keras with numbered models: a model counts the epochs of training
    it has seen; one file holds a saved model. *)
Definition keras : ScorePredictor.Keras nat Array :=
  {| ScorePredictor.os_path_exists := fun path => String.eqb path "ml/models/viral.keras";
     ScorePredictor.np_array := stack;
     ScorePredictor.load_model := fun path => Ok 50%nat;
     ScorePredictor.Sequential := fun layers => Ok 0%nat;
     ScorePredictor.compile := fun model optimizer loss metrics => Ok model;
     ScorePredictor.fit := fun model args =>
       match ScorePredictor.fit_x args with
       | [] => (Raise (Exception "Expected input data to be non-empty."), model)
       | _ => (Ok tt, (model + Z.to_nat (ScorePredictor.epochs args))%nat)
       end;
     ScorePredictor.count_params := fun model => Ok 9810113%Z;
     ScorePredictor.model_input_shape := fun model =>
       Ok [None; Some 224; Some 224; Some 3]%Z;
     ScorePredictor.model_output_shape := fun model => Ok [None; Some 1%Z] |}.

(** The statistics of the heuristic on the mean of the channels, the
    gradient and the saturation left at fixed values. *)
Definition numerics : ScorePredictor.Numerics Array :=
  {| ScorePredictor.model_predict := fun image => Ok (Fin 0.5);
     ScorePredictor.heuristic_statistics := fun image =>
       match concat image with
       | [] => Raise (Exception "zero-size array")
       | pixels =>
           Ok {| ScorePredictor.h_std_gray := Fin (255 * std (map mean pixels));
                 ScorePredictor.h_mean_gray := Fin (255 * mean (map mean pixels));
                 ScorePredictor.h_mean_gradient := Fin 10;
                 ScorePredictor.h_mean_saturation := Some (Fin 0.5) |}
       end |}.

Definition draws : ScorePredictor.Draws :=
  {| ScorePredictor.uniform_60_90 := 75; ScorePredictor.uniform_m5_5 := 1.5 |}.

(** A predictor with an untrained model, five images of one shape with
    their scores, and two images of different shapes. *)
Definition untrained : ScorePredictor.object nat :=
  {| ScorePredictor.self_model_path := None;
     ScorePredictor.self_model := Some 0%nat;
     ScorePredictor.self_is_trained := false |}.

Definition training_data : ScorePredictor.TrainingData Array :=
  {| ScorePredictor.images :=
       Some [gray_array; checkerboard_array; gray_array; checkerboard_shuffled; gray_array];
     ScorePredictor.scores := Some [55; 80; 60; 90; 50] |}.

Definition ragged_data : ScorePredictor.TrainingData Array :=
  {| ScorePredictor.images := Some [gray_array; ramp];
     ScorePredictor.scores := Some [55; 80] |}.

(** An analyzer that has recorded three final scores. *)
Definition after_three_calls : ThumbnailAnalyzer.t :=
  {| ThumbnailAnalyzer.image_processor := ImageProcessor.__init__;
     ThumbnailAnalyzer.total_analyses := 3;
     ThumbnailAnalyzer.scores_history := [53.9; 53.9; 54.6] |}.

End Demo.

(* ===================================================================== *)
(** * Properties *)
(* ===================================================================== *)

(** ** Facts about the built-ins *)

Lemma ltb_lt (a b : Q) : Py.ltb a b = true <-> a < b.
Proof.
  unfold Py.ltb. rewrite negb_true_iff.
  destruct (Qle_bool b a) eqn:E.
  - apply Qle_bool_iff in E. split; [discriminate | intros H; lra].
  - split; [intros _ | reflexivity].
    destruct (Qlt_le_dec a b) as [H | H]; [exact H |].
    apply Qle_bool_iff in H. congruence.
Qed.

Lemma ltb_ge (a b : Q) : Py.ltb a b = false <-> b <= a.
Proof.
  destruct (Py.ltb a b) eqn:E.
  - apply ltb_lt in E. split; [discriminate | intros H; lra].
  - split; [intros _ | reflexivity].
    destruct (Qlt_le_dec a b) as [H | H]; [| exact H].
    apply ltb_lt in H. congruence.
Qed.

Lemma ltb_comp (a a' b b' : Q) : a == a' -> b == b' -> Py.ltb a b = Py.ltb a' b'.
Proof.
  intros Ha Hb.
  destruct (Py.ltb a b) eqn:E, (Py.ltb a' b') eqn:E'; try reflexivity.
  - apply ltb_lt in E. apply ltb_ge in E'. lra.
  - apply ltb_ge in E. apply ltb_lt in E'. lra.
Qed.

Ltac case_ltb :=
  match goal with
  | |- context [Py.ltb ?a ?b] =>
      let E := fresh "E" in
      destruct (Py.ltb a b) eqn:E;
      [apply ltb_lt in E | apply ltb_ge in E]
  end.

Lemma min_spec (a b : Q) :
  (b < a /\ Py.min a b = b) \/ (a <= b /\ Py.min a b = a).
Proof. unfold Py.min. case_ltb; [left | right]; split; auto. Qed.

Lemma max_spec (a b : Q) :
  (a < b /\ Py.max a b = b) \/ (b <= a /\ Py.max a b = a).
Proof. unfold Py.max. case_ltb; [left | right]; split; auto. Qed.

Lemma min_le_r (a b : Q) : Py.min a b <= b.
Proof. destruct (min_spec a b) as [[? ->] | [? ->]]; lra. Qed.

Lemma min_le_l (a b : Q) : Py.min a b <= a.
Proof. destruct (min_spec a b) as [[? ->] | [? ->]]; lra. Qed.

Lemma min_glb (a b c : Q) : c <= a -> c <= b -> c <= Py.min a b.
Proof. intros. destruct (min_spec a b) as [[? ->] | [? ->]]; lra. Qed.

Lemma min_comp (a a' b b' : Q) : a == a' -> b == b' -> Py.min a b == Py.min a' b'.
Proof.
  intros Ha Hb. unfold Py.min. rewrite (ltb_comp b b' a a') by assumption.
  destruct (Py.ltb b' a'); assumption.
Qed.

Lemma min_id (a b : Q) : a <= b -> Py.min a b = a.
Proof. intros H. destruct (min_spec a b) as [[? _] | [_ ->]]; [lra | reflexivity]. Qed.

Lemma round_half_even_near (q : Q) :
  inject_Z (Py.round_half_even q) - (1 # 2) <= q <= inject_Z (Py.round_half_even q) + (1 # 2).
Proof.
  unfold Py.round_half_even.
  pose proof (Qfloor_le q) as Hlo. pose proof (Qlt_floor q) as Hhi.
  rewrite inject_Z_plus in Hhi. change (inject_Z 1) with 1 in Hhi.
  destruct (Qcompare_spec (q - inject_Z (Qfloor q)) (1 # 2)) as [E | E | E].
  - destruct (Z.even (Qfloor q)); [| rewrite inject_Z_plus; change (inject_Z 1) with 1]; lra.
  - lra.
  - rewrite inject_Z_plus. change (inject_Z 1) with 1. lra.
Qed.

Lemma round_half_even_le (q : Q) (n : Z) : q <= inject_Z n -> (Py.round_half_even q <= n)%Z.
Proof.
  intros H. unfold Py.round_half_even.
  pose proof (Qfloor_le q) as Hlo.
  assert (Hfn : (Qfloor q <= n)%Z).
  { rewrite <- (Qfloor_Z n). apply Qfloor_resp_le, H. }
  assert (Hstep : 0 < q - inject_Z (Qfloor q) -> (Qfloor q + 1 <= n)%Z).
  { intros Hpos. apply Z.le_succ_l. rewrite Zlt_Qlt. lra. }
  destruct (Qcompare_spec (q - inject_Z (Qfloor q)) (1 # 2)) as [E | E | E].
  - destruct (Z.even (Qfloor q)); [exact Hfn | apply Hstep; lra].
  - exact Hfn.
  - apply Hstep; lra.
Qed.

Lemma round_half_even_comp (q q' : Q) : q == q' -> Py.round_half_even q = Py.round_half_even q'.
Proof.
  intros H. unfold Py.round_half_even. rewrite (Qfloor_comp _ _ H).
  assert (Hc : Qcompare (q - inject_Z (Qfloor q')) (1 # 2) = Qcompare (q' - inject_Z (Qfloor q')) (1 # 2)).
  { apply Qcompare_comp; [rewrite H|]; reflexivity. }
  rewrite Hc. reflexivity.
Qed.

Lemma round1_comp (q q' : Q) : q == q' -> Py.round1 q = Py.round1 q'.
Proof.
  intros H. unfold Py.round1. f_equal. apply round_half_even_comp. rewrite H. reflexivity.
Qed.

Lemma round1_le (q : Q) (n : Z) : q <= inject_Z n -> Py.round1 q <= inject_Z n.
Proof.
  intros H. unfold Py.round1.
  assert (Hz : (Py.round_half_even (q * 10) <= n * 10)%Z).
  { apply round_half_even_le. rewrite inject_Z_mult. change (inject_Z 10) with 10. lra. }
  unfold Qle, inject_Z. simpl. lia.
Qed.

Lemma round1_near (q : Q) : Py.round1 q - (1 # 20) <= q <= Py.round1 q + (1 # 20).
Proof.
  pose proof (round_half_even_near (q * 10)) as H.
  assert (E : Py.round1 q == inject_Z (Py.round_half_even (q * 10)) / 10).
  { unfold Py.round1. rewrite (Qmake_Qdiv _ 10). reflexivity. }
  rewrite E. set (r := inject_Z (Py.round_half_even (q * 10))) in *.
  assert (r / 10 == r * (1 # 10)) as -> by (field).
  lra.
Qed.

(** ** The suggestion engine *)

Section Suggestions.
Import ThumbnailAnalyzer Rules.

Lemma append_if_app (cond : bool) (message : string) (l : list string) :
  append_if cond message l = l ++ (if cond then [message] else []).
Proof. destruct cond; simpl; [reflexivity | now rewrite app_nil_r]. Qed.

Lemma generate_suggestions_rules (b : BasicAnalysis) (c : Contextual) (f : Q) :
  _generate_suggestions b c f = triggered b c ++ [closing_remark f].
Proof.
  unfold _generate_suggestions, triggered, closing_remark, rules.
  rewrite !append_if_app. cbn [List.filter fires app].
  destruct (Py.ltb (contrast b) 60), (Py.ltb (clarity b) 50),
    (Py.ltb (color_harmony b) 70), (Py.ltb (composition c) 70),
    (Py.ltb (text_readability c) 75), (Py.ltb 85 f), (Py.ltb 70 f);
    reflexivity.
Qed.

Lemma triggered_not_closing (b : BasicAnalysis) (c : Contextual) :
  List.filter is_closing_remark (triggered b c) = [].
Proof.
  unfold triggered, rules. cbn [List.filter fires].
  destruct (Py.ltb (contrast b) 60), (Py.ltb (clarity b) 50),
    (Py.ltb (color_harmony b) 70), (Py.ltb (composition c) 70),
    (Py.ltb (text_readability c) 75); vm_compute; reflexivity.
Qed.

Lemma closing_remark_is_closing (f : Q) : is_closing_remark (closing_remark f) = true.
Proof.
  unfold closing_remark. destruct (Py.ltb 85 f), (Py.ltb 70 f); vm_compute; reflexivity.
Qed.

Lemma triggered_comp (b b' : BasicAnalysis) (c c' : Contextual) :
  same_basic b b' -> same_contextual c c' -> triggered b c = triggered b' c'.
Proof.
  intros (_ & Hk & Hc & Hh & _ & _) (Hp & Ht & _ & _).
  unfold triggered, rules. cbn [List.filter fires].
  rewrite (ltb_comp (contrast b) (contrast b') 60 60),
    (ltb_comp (clarity b) (clarity b') 50 50),
    (ltb_comp (color_harmony b) (color_harmony b') 70 70),
    (ltb_comp (composition c) (composition c') 70 70),
    (ltb_comp (text_readability c) (text_readability c') 75 75)
    by (assumption || reflexivity).
  repeat match goal with
         | |- context [Py.ltb ?x ?y] => destruct (Py.ltb x y)
         end; reflexivity.
Qed.

(** C7. The suggestion list is the messages of the rules that fire, rule
    by rule in the fixed order contrast < 60, clarity < 50, colour
    harmony < 70, composition < 70, text readability < 75, followed by
    the closing remark of the tier of the final score (above 85, above
    70, otherwise); it holds exactly one closing remark, and it is the
    same list for inputs with the same numbers. *)
Theorem suggestions_follow_rules (b : BasicAnalysis) (c : Contextual) (f : Q) :
  _generate_suggestions b c f = triggered b c ++ [closing_remark f]
  /\ last (_generate_suggestions b c f) = Some (closing_remark f)
  /\ length (List.filter is_closing_remark (_generate_suggestions b c f)) = 1%nat
  /\ sublist (triggered b c) [msg_contrast; msg_clarity; msg_harmony; msg_composition; msg_text]
  /\ (forall b' c' f', same_basic b b' -> same_contextual c c' -> f == f' ->
        _generate_suggestions b c f = _generate_suggestions b' c' f').
Proof.
  rewrite generate_suggestions_rules. repeat split.
  - apply last_snoc.
  - rewrite List.filter_app, triggered_not_closing. cbn [List.filter app].
    rewrite closing_remark_is_closing. reflexivity.
  - unfold triggered, rules. cbn [List.filter fires].
    destruct (Py.ltb (contrast b) 60), (Py.ltb (clarity b) 50),
      (Py.ltb (color_harmony b) 70), (Py.ltb (composition c) 70),
      (Py.ltb (text_readability c) 75); cbn [map snd];
      repeat first [apply sublist_nil | apply sublist_skip; fail
                   | apply sublist_skip | apply sublist_cons ].
  - intros b' c' f' Hb Hc Hf. rewrite generate_suggestions_rules.
    rewrite (triggered_comp b b' c c' Hb Hc). unfold closing_remark.
    rewrite (ltb_comp 85 85 f f'), (ltb_comp 70 70 f f') by (assumption || reflexivity).
    reflexivity.
Qed.

End Suggestions.

(** ** The fusion of the scores *)

Section FinalScore.
Import ThumbnailAnalyzer Rules.

Lemma final_score_fused (b : BasicAnalysis) (ml : Q) (c : Contextual) :
  _calculate_final_score b ml c = Py.round1 (Py.min (fused b ml c) 100).
Proof.
  unfold _calculate_final_score, fused, basic_aggregate, contextual_aggregate.
  apply round1_comp, min_comp; [ring | reflexivity].
Qed.

Lemma final_score_le_100 (b : BasicAnalysis) (ml : Q) (c : Contextual) :
  _calculate_final_score b ml c <= 100.
Proof.
  rewrite final_score_fused. apply (round1_le _ 100), min_le_r.
Qed.

(** What [_analyze_basic_features] returns, measurement by measurement. *)
Lemma analyze_basic_features_inv `{Libraries} (image : Array) (state : nat)
    (b : BasicAnalysis) :
  _analyze_basic_features image state = Ok b ->
  exists m h,
    cv2_measurements image = Ok m /\
    _calculate_color_harmony image state = Ok h /\
    b = {| visual_impact :=
             Py.min ((std_gray m / 255.0 * 0.3 + mean_hsv_s m / 255.0 * 0.3
                      + var_laplacian m / 10000.0 * 0.4) * 100) 100;
           clarity := Py.min (var_laplacian m / 10000.0 * 100) 100;
           contrast := Py.min (std_gray m / 255.0 * 100) 100;
           color_harmony := h;
           brightness := mean_lab_l m / 255.0 * 100;
           saturation := mean_hsv_s m / 255.0 * 100 |}.
Proof.
  unfold _analyze_basic_features. intros Hb.
  destruct (cv2_measurements image) as [m | e]; [| discriminate].
  cbn in Hb.
  destruct (_calculate_color_harmony image state) as [h | e]; [| discriminate].
  cbn in Hb. exists m, h. repeat split. congruence.
Qed.

End FinalScore.

(** ** The score predictor *)

Section Predictor.
Import ScorePredictor Rules.

Lemma round_half_even_ge (q : Q) (n : Z) : inject_Z n <= q -> (n <= Py.round_half_even q)%Z.
Proof.
  intros H. unfold Py.round_half_even.
  assert (Hfn : (n <= Qfloor q)%Z).
  { rewrite <- (Qfloor_Z n). apply Qfloor_resp_le, H. }
  destruct (Qcompare (q - inject_Z (Qfloor q)) (1 # 2));
    [destruct (Z.even (Qfloor q)) | |]; lia.
Qed.

Lemma round1_ge (q : Q) (n : Z) : inject_Z n <= q -> inject_Z n <= Py.round1 q.
Proof.
  intros H. unfold Py.round1.
  assert (Hz : (n * 10 <= Py.round_half_even (q * 10))%Z).
  { apply round_half_even_ge. rewrite inject_Z_mult. change (inject_Z 10) with 10. lra. }
  unfold Qle, inject_Z. simpl. lia.
Qed.

(** Whatever float reaches it, not-a-number and the infinities included,
    the clamp returns a finite float between its bounds. *)
Lemma clamp_within (lo hi : Q) (x : npfloat) : lo <= hi -> within lo hi (clamp lo hi x).
Proof.
  intros Hle. unfold within, clamp, Np.max, Np.min.
  destruct x as [q | | |]; cbn [Np.ltb].
  - destruct (Py.ltb q hi) eqn:E1; cbn [Np.ltb].
    + apply ltb_lt in E1. destruct (Py.ltb lo q) eqn:E2.
      * apply ltb_lt in E2. exists q. split; [reflexivity | lra].
      * apply ltb_ge in E2. exists lo. split; [reflexivity | lra].
    + destruct (Py.ltb lo hi) eqn:E2.
      * exists hi. split; [reflexivity | lra].
      * exists lo. split; [reflexivity | lra].
  - destruct (Py.ltb lo hi) eqn:E2.
    + exists hi. split; [reflexivity | lra].
    + exists lo. split; [reflexivity | lra].
  - exists lo. split; [reflexivity | lra].
  - destruct (Py.ltb lo hi) eqn:E2.
    + exists hi. split; [reflexivity | lra].
    + exists lo. split; [reflexivity | lra].
Qed.

Context {ndarray : Type} `{Numerics ndarray}.

Lemma heuristic_score_clamped (image : ndarray) (jitter : Q) :
  _calculate_heuristic_score image jitter =
  match heuristic_statistics image with
  | Ok s => Ok (clamp 50 95 (Np.add (heuristic_sum s) (Fin jitter)))
  | Raise _ => Ok (Fin 75.0)
  end.
Proof.
  unfold _calculate_heuristic_score.
  destruct (heuristic_statistics image) as [s | e]; [| reflexivity].
  cbn [mbind exc_bind try_except].
  unfold clamp, heuristic_sum, brightness_centeredness.
  destruct (h_mean_saturation s); reflexivity.
Qed.

Lemma heuristic_score_bounds (image : ndarray) (jitter : Q) :
  exists q, _calculate_heuristic_score image jitter = Ok (Fin q) /\ 50 <= q <= 95.
Proof.
  rewrite heuristic_score_clamped.
  destruct (heuristic_statistics image) as [s | e].
  - destruct (clamp_within 50 95 (Np.add (heuristic_sum s) (Fin jitter)))
      as (q & -> & Hq); [lra |].
    exists q. split; [reflexivity | exact Hq].
  - exists 75.0. split; [reflexivity | lra].
Qed.

(** C2. For every array and every value of the jitter the heuristic
    predictor returns, and returns a finite score between 50 and 95:
    the weighted sum of contrast (x 25), brightness centredness (x 20),
    gradient sharpness (x 30) and mean saturation (x 25), plus the
    jitter, clamped to [50, 95]; or 75 when a statistic cannot be
    computed. In particular so with the jitter removed. *)
Theorem heuristic_score_in_range (image : ndarray) (jitter : Q) :
  (exists q, _calculate_heuristic_score image jitter = Ok (Fin q) /\ 50 <= q <= 95)
  /\ (exists q, _calculate_heuristic_score image 0 = Ok (Fin q) /\ 50 <= q <= 95)
  /\ _calculate_heuristic_score image jitter =
     match heuristic_statistics image with
     | Ok s => Ok (clamp 50 95 (Np.add (heuristic_sum s) (Fin jitter)))
     | Raise _ => Ok (Fin 75.0)
     end.
Proof.
  split; [apply heuristic_score_bounds |].
  split; [apply heuristic_score_bounds |]. apply heuristic_score_clamped.
Qed.

(** [predict_score] never raises and its score is finite, between 0 and
    100, as long as the draw of [np.random.uniform(60, 90)] is. *)
Lemma predict_score_in_range (self : t) (image : ndarray) (rnd : Draws) :
  60 <= uniform_60_90 rnd <= 90 ->
  exists q, predict_score self image rnd = Ok (Fin q) /\ 0 <= q <= 100.
Proof.
  intros Hu. unfold predict_score.
  destruct (heuristic_score_bounds image (uniform_m5_5 rnd)) as (qh & Hh & Hqh).
  destruct (model_is_None self).
  { exists (uniform_60_90 rnd). split; [reflexivity | lra]. }
  assert (Hfinal : forall score, exists q,
             Ok (Np.round1 (Np.max (Fin 0) (Np.min (Fin 100) score))) = Ok (Fin q)
             /\ 0 <= q <= 100).
  { intros score.
    destruct (clamp_within 0 100 score) as (q & Hq & Hrange); [lra |].
    unfold clamp in Hq. rewrite Hq. cbn [Np.round1].
    exists (Py.round1 q). split; [reflexivity |].
    split; [apply (round1_ge q 0) | apply (round1_le q 100)]; apply Hrange. }
  destruct (is_trained self).
  - destruct (model_predict image) as [p | e]; cbn [mbind exc_bind try_except].
    + apply Hfinal.
    + exists qh. split; [exact Hh | lra].
  - rewrite Hh. cbn [mbind exc_bind try_except]. apply Hfinal.
Qed.

End Predictor.

(** ** The image preprocessor *)

Section Preprocessor.
Import ImageProcessor Rules.
Context `{Libraries}.

Lemma normalize_unit (b : byte) : 0 <= normalize b <= 1.
Proof.
  unfold normalize. pose proof (Byte.to_N_bounded b) as Hb.
  assert (Hz : (0 <= Z.of_N (Byte.to_N b) <= 255)%Z) by lia.
  destruct Hz as [Hlo Hhi]. rewrite Zle_Qle in Hlo, Hhi.
  set (v := inject_Z (Z.of_N (Byte.to_N b))) in *.
  change (inject_Z 0) with 0 in Hlo. change (inject_Z 255) with 255 in Hhi.
  assert (E : v / 255.0 == v * (1 # 255)) by field.
  rewrite E. lra.
Qed.

Lemma np_array_shape (image : RGBImage) :
  length (np_array image) = Z.to_nat (rgb_size image).2 /\
  Forall (fun row => length row = Z.to_nat (rgb_size image).1
                     /\ Forall (fun px => length px = 3%nat) row) (np_array image).
Proof.
  unfold np_array. destruct (rgb_size image) as [w h]. cbn [fst snd]. split.
  - now rewrite length_map, length_seqZ.
  - apply Forall_map, Forall_forall. intros Y _. cbn beta. split.
    + now rewrite length_map, length_seqZ.
    + apply Forall_map, Forall_forall. intros X _. cbn beta.
      now destruct (rgb_load image X Y) as [[r g] b].
Qed.

Lemma resize_with_padding_size (self : t) (image : PILImage) (new_image : RGBImage) :
  _resize_with_padding self image = Ok new_image -> rgb_size new_image = target_size self.
Proof.
  unfold _resize_with_padding.
  destruct (size image) as [width height], (target_size self) as [tw th] eqn:Et.
  destruct ((width =? 0) || (height =? 0))%Z; [discriminate |].
  destruct (Image_resize image _) as [resized | e]; [| discriminate].
  cbn [mbind exc_bind]. intros [= <-].
  unfold paste. destruct (size resized). reflexivity.
Qed.

(** Whenever [preprocess] returns an array, it has the shape (target
    height, target width, 3) and its values lie in [0, 1]. *)
Lemma preprocess_shape_range (self : t) (image : PILImage) (a : Array) :
  preprocess self image = Ok a ->
  has_shape a (Z.to_nat (target_size self).2) (Z.to_nat (target_size self).1) 3
  /\ all_in_unit a.
Proof.
  unfold preprocess.
  set (rgb := if negb (String.eqb (mode image) "RGB") then _ else _).
  destruct (_resize_with_padding self rgb) as [new_image | e] eqn:E; [| discriminate].
  cbn [mbind exc_bind try_except]. intros [= <-].
  apply resize_with_padding_size in E.
  destruct (np_array_shape new_image) as [Hrows Hcols]. rewrite E in Hrows, Hcols.
  split; [split |].
  - now rewrite length_map.
  - apply Forall_map. eapply Forall_impl; [exact Hcols |].
    intros row [Hw Hpx]. cbn beta. split; [now rewrite length_map |].
    apply Forall_map. eapply Forall_impl; [exact Hpx |].
    intros px Hc. cbn beta. now rewrite length_map.
  - unfold all_in_unit.
    apply Forall_map, Forall_forall. intros row _. cbn beta.
    apply Forall_map, Forall_forall. intros px _. cbn beta.
    apply Forall_map, Forall_forall. intros b _. apply normalize_unit.
Qed.

(** An RGB image of non-zero size is preprocessed exactly when both sides
    of its scaled size are at least one pixel. *)
Lemma preprocess_returns_iff (self : t) (image_size : Z * Z) (pixels : Z -> Z -> list byte) :
  image_size.1 <> 0%Z -> image_size.2 <> 0%Z ->
  returns (preprocess self (rgb_image image_size pixels))
  <-> (1 <= (scaled_size self image_size).1 /\ 1 <= (scaled_size self image_size).2)%Z.
Proof.
  destruct image_size as [width height]. cbn [fst snd]. intros Hw Hh.
  unfold preprocess, rgb_image, scaled_size. cbn [mode String.eqb Ascii.eqb Bool.eqb negb].
  unfold _resize_with_padding. cbn [size].
  destruct (target_size self) as [tw th].
  apply Z.eqb_neq in Hw, Hh. rewrite Hw, Hh. cbn [orb fst snd].
  set (nw := Py.int _). set (nh := Py.int _).
  unfold Image_resize.
  destruct (nw <? 1)%Z eqn:Ew, (nh <? 1)%Z eqn:Eh; cbn [orb mbind exc_bind try_except];
    try apply Z.ltb_lt in Ew; try apply Z.ltb_ge in Ew;
    try apply Z.ltb_lt in Eh; try apply Z.ltb_ge in Eh;
    (split; [intros [a Ha]; try discriminate; lia | intros [? ?]; try lia; eexists; reflexivity]).
Qed.

(** C4 at a thin image. A decodable RGB image of 1000 x 1 pixels, with
    the default target of 224 x 224: the scale is 0.224, the new height
    is [int(0.224)] = 0, the resize is refused and [preprocess] raises
    instead of returning an array of shape (224, 224, 3). *)
Theorem preprocess_fails_on_thin_image (pixels : Z -> Z -> list byte) :
  scaled_size __init__ (1000, 1)%Z = (224, 0)%Z
  /\ preprocess __init__ (rgb_image (1000, 1)%Z pixels)
     = Raise (Exception "height and width must be > 0").
Proof. split; reflexivity. Qed.

End Preprocessor.

(** ** Failures of the feature computations *)

Section FeatureErrors.
Import ImageProcessor ThumbnailAnalyzer Rules.
Context `{Libraries}.

Lemma extract_features_caught (image : Array) :
  extract_features image =
  match cv2_statistics image with
  | Ok s => Ok (features_dict s)
  | Raise _ => Ok ∅
  end.
Proof. unfold extract_features. now destruct (cv2_statistics image). Qed.

Lemma try_except_returns {A} (body : exc A) (fallback : A) :
  returns (try_except body (fun _ => Ok fallback)).
Proof. destruct body as [a | e]; [exists a | exists fallback]; reflexivity. Qed.

Lemma analyze_composition_caught (image : Array) :
  returns (analyze_composition image)
  /\ match cv2_grid_variance image with
     | Raise _ => analyze_composition image = Ok composition_default
     | Ok _ => True
     end.
Proof.
  split; [apply try_except_returns |].
  unfold analyze_composition. now destruct (cv2_grid_variance image).
Qed.

Lemma color_harmony_not_caught (image : Array) (state : nat) :
  match cv2_kmeans state (concat image) with
  | Raise e => _calculate_color_harmony image state = Raise e
  | Ok _ => returns (_calculate_color_harmony image state)
  end.
Proof.
  unfold _calculate_color_harmony.
  destruct (cv2_kmeans state (concat image)) as [labels | e]; [| reflexivity].
  eexists. reflexivity.
Qed.

Lemma basic_features_propagate (image : Array) (state : nat) :
  raises (_calculate_color_harmony image state) ->
  raises (_analyze_basic_features image state).
Proof.
  intros [e He]. unfold _analyze_basic_features.
  destruct (cv2_measurements image) as [m | e']; [| now exists e'].
  cbn [mbind exc_bind]. rewrite He. now exists e.
Qed.

Lemma analyze_propagates (self : ThumbnailAnalyzer.t) (image_bytes : list byte)
    (name : string) (w : World) (image : PILImage) (processed : Array) :
  Image_open image_bytes = Ok image ->
  preprocess (image_processor self) image = Ok processed ->
  raises (_analyze_basic_features processed (kmeans_state w)) ->
  exists e, analyze self image_bytes name w = (Raise e, self).
Proof.
  intros Ho Hp [e He]. exists e. unfold analyze, pipeline.
  rewrite Ho. cbn [mbind exc_bind]. rewrite Hp. cbn [mbind exc_bind].
  rewrite He. reflexivity.
Qed.

(** C5, as the code has it. A failure inside [extract_features] is
    caught there and the feature dictionary is then empty; a failure
    inside [analyze_composition] is caught there and the result is then
    composition_score 1.0, center_interest 0.0, rule_of_thirds_adherence
    0.5; neither ever raises. A failure of the clustering inside
    [_calculate_color_harmony] is not caught: the same exception leaves
    [_calculate_color_harmony], [_analyze_basic_features] raises, and
    [analyze] hands the exception to its caller. *)
Theorem feature_failures (image : Array) (state : nat) :
  returns (extract_features image)
  /\ match cv2_statistics image with
     | Raise _ => extract_features image = Ok ∅
     | Ok s => extract_features image = Ok (features_dict s)
     end
  /\ returns (analyze_composition image)
  /\ match cv2_grid_variance image with
     | Raise _ => analyze_composition image = Ok composition_default
     | Ok _ => True
     end
  /\ match cv2_kmeans state (concat image) with
     | Raise e =>
         _calculate_color_harmony image state = Raise e
         /\ raises (_analyze_basic_features image state)
         /\ (forall self image_bytes name w pil,
               kmeans_state w = state ->
               Image_open image_bytes = Ok pil ->
               preprocess (image_processor self) pil = Ok image ->
               exists e', analyze self image_bytes name w = (Raise e', self))
     | Ok _ => returns (_calculate_color_harmony image state)
     end.
Proof.
  split; [apply try_except_returns |].
  split; [rewrite extract_features_caught; now destruct (cv2_statistics image) |].
  split; [apply analyze_composition_caught |].
  split; [apply analyze_composition_caught |].
  pose proof (color_harmony_not_caught image state) as Hh.
  destruct (cv2_kmeans state (concat image)) as [labels | e]; [exact Hh |].
  assert (Hb : raises (_analyze_basic_features image state)).
  { apply basic_features_propagate. now exists e. }
  split; [exact Hh |]. split; [exact Hb |].
  intros self image_bytes name w pil Hs Ho Hp.
  eapply analyze_propagates; [exact Ho | exact Hp | now rewrite Hs].
Qed.

End FeatureErrors.

(** C5 as it is worded fails for the harmony computation: on an array of
    four pixels the clustering into five groups is refused, and the
    exception leaves [_calculate_color_harmony], then
    [_analyze_basic_features], then [analyze]. *)
Lemma harmony_failure_propagates :
  @ThumbnailAnalyzer._calculate_color_harmony (Demo.libraries (Ok Demo.flat_gray))
     Demo.array_2x2 0
  = Raise (Exception "OpenCV: (-215:Assertion failed) N >= K in function 'kmeans'")
  /\ @ThumbnailAnalyzer._analyze_basic_features (Demo.libraries (Ok Demo.flat_gray))
       Demo.array_2x2 0
     = Raise (Exception "OpenCV: (-215:Assertion failed) N >= K in function 'kmeans'")
  /\ @ThumbnailAnalyzer.analyze (Demo.libraries (Ok Demo.flat_gray))
       Demo.tiny_analyzer Demo.png_2x2 "a.png" (Demo.world 75)
     = (Raise (Exception "OpenCV: (-215:Assertion failed) N >= K in function 'kmeans'"),
        Demo.tiny_analyzer).
Proof. repeat split; vm_compute; reflexivity. Qed.

(** ** The pipeline in two stages *)

Section Stages.
Import ThumbnailAnalyzer Rules.
Context `{Libraries}.

Lemma pipeline_stages (self : ThumbnailAnalyzer.t) (data : list byte) (name : string)
    (w : World) :
  pipeline self data name w =
  (b ← basic_stage (image_processor self) data (kmeans_state w);
   Ok (result_of b name w)).
Proof.
  unfold pipeline, basic_stage.
  destruct (Image_open data) as [image | e]; [| reflexivity]. cbn [mbind exc_bind].
  destruct (ImageProcessor.preprocess _ image) as [processed | e]; [| reflexivity].
  cbn [mbind exc_bind].
  destruct (_analyze_basic_features processed (kmeans_state w)); reflexivity.
Qed.

End Stages.

(** The stand-in libraries on the 2 x 2 image. *)
Lemma demo_basic_stage :
  @Rules.basic_stage Demo.demo_libraries ImageProcessor.__init__ Demo.png_2x2 0
  = Ok Demo.basic_224.
Proof. vm_compute. reflexivity. Qed.

Lemma demo_pipeline (self : ThumbnailAnalyzer.t) (name : string) (ml : Q) :
  ThumbnailAnalyzer.image_processor self = ImageProcessor.__init__ ->
  @ThumbnailAnalyzer.pipeline Demo.demo_libraries self Demo.png_2x2 name (Demo.world ml)
  = Ok (Rules.result_of Demo.basic_224 name (Demo.world ml)).
Proof.
  intros E. rewrite pipeline_stages, E.
  change (ThumbnailAnalyzer.kmeans_state (Demo.world ml)) with 0%nat.
  now rewrite demo_basic_stage.
Qed.

Lemma demo_padded_pipeline (padding : list byte) (name : string)
    (w : ThumbnailAnalyzer.World) :
  returns (@ThumbnailAnalyzer.pipeline Demo.demo_libraries ThumbnailAnalyzer.__init__
             (Demo.png_2x2 ++ padding) name w).
Proof. eexists. reflexivity. Qed.

(** ** The HTTP entry points *)

Section Endpoints.
Import ThumbnailAnalyzer Main Rules.
Context `{Libraries}.

Lemma pipeline_processor (self self' : ThumbnailAnalyzer.t) (data : list byte)
    (name : string) (w : World) :
  image_processor self = image_processor self' ->
  pipeline self data name w = pipeline self' data name w.
Proof. intros E. unfold pipeline. now rewrite E. Qed.

Lemma analyze_ok (self : ThumbnailAnalyzer.t) (data : list byte) (name : string)
    (w : World) (r : AnalysisResult) :
  pipeline self data name w = Ok r ->
  analyze self data name w =
    (Ok r, {| image_processor := image_processor self;
              total_analyses := total_analyses self + 1;
              scores_history := scores_history self ++ [score r] |}).
Proof. intros E. unfold analyze. now rewrite E. Qed.

Lemma analyze_raise (self : ThumbnailAnalyzer.t) (data : list byte) (name : string)
    (w : World) (e : exception) :
  pipeline self data name w = Raise e -> analyze self data name w = (Raise e, self).
Proof. intros E. unfold analyze. now rewrite E. Qed.

Lemma pipeline_filename (self : ThumbnailAnalyzer.t) (data : list byte) (name : string)
    (w : World) (r : AnalysisResult) :
  pipeline self data name w = Ok r -> filename r = name.
Proof.
  unfold pipeline.
  destruct (Image_open data); [| discriminate]. cbn [mbind exc_bind].
  destruct (ImageProcessor.preprocess _ _); [| discriminate]. cbn [mbind exc_bind].
  destruct (_analyze_basic_features _ _); [| discriminate]. cbn [mbind exc_bind].
  now intros [= <-].
Qed.

(** A single upload declared as an image is answered with success as
    soon as its analysis returns: nothing else is looked at. *)
Lemma analyze_thumbnail_image (file : UploadFile) (w : World)
    (an : ThumbnailAnalyzer.t) (r : AnalysisResult) :
  is_image file = true ->
  pipeline an (contents file) (upload_filename file) w = Ok r ->
  analyze_thumbnail file w an =
    (Ok {| success := true; response_filename := upload_filename file; analysis := r |},
     {| image_processor := image_processor an;
        total_analyses := total_analyses an + 1;
        scores_history := scores_history an ++ [score r] |}).
Proof.
  unfold is_image. intros Hi Hr. unfold analyze_thumbnail, try_except_h.
  destruct (content_type file) as [type |]; [| discriminate].
  unfold mbind at 1, handler_bind, startswith. cbn [mret handler_ret].
  rewrite Hi. cbn [negb]. unfold mbind, handler_bind.
  now rewrite (analyze_ok _ _ _ _ _ Hr).
Qed.

(** One turn of the loop of the batch on an image file. *)
Lemma batch_loop_image (file : UploadFile) (w : World) (files : list (UploadFile * World))
    (acc : list BatchItem) (an : ThumbnailAnalyzer.t) :
  is_image file = true ->
  batch_loop ((file, w) :: files) acc an =
  match analyze an (contents file) (upload_filename file) w with
  | (Ok r, an') =>
      batch_loop files
        (acc ++ [{| item_filename := upload_filename file; item_analysis := r |}]) an'
  | (Raise e, an') => (Raise e, an')
  end.
Proof.
  unfold is_image. intros Hi. cbn [batch_loop].
  destruct (content_type file) as [type |]; [| discriminate].
  unfold mbind at 1, handler_bind, startswith. cbn [mret handler_ret].
  rewrite Hi. reflexivity.
Qed.

Lemma batch_analyze_unfold (files : list (UploadFile * World)) (an : ThumbnailAnalyzer.t) :
  batch_analyze_thumbnails files an =
  match batch_loop files [] an with
  | (Ok rs, an') =>
      (Ok {| batch_success := true; total_analyzed := length rs; results := rs |}, an')
  | (Raise e, an') => (Raise (HTTPException 500 ("Erro interno: " +:+ str e)), an')
  end.
Proof.
  unfold batch_analyze_thumbnails, try_except_h, mbind, handler_bind.
  now destruct (batch_loop files [] an) as [[rs | e] an'].
Qed.

(** The loop of the batch when every image file is analysed. *)
Lemma batch_loop_all_ok (files : list (UploadFile * World)) :
  forall (acc : list BatchItem) (an : ThumbnailAnalyzer.t),
  Forall (fun fw => is_Some (content_type fw.1)) files ->
  Forall (fun fw => returns (pipeline an (contents fw.1) (upload_filename fw.1) fw.2))
         (images files) ->
  exists rs an',
    batch_loop files acc an = (Ok (acc ++ rs), an')
    /\ map item_filename rs = map (fun fw => upload_filename fw.1) (images files)
    /\ image_processor an' = image_processor an
    /\ total_analyses an' = (total_analyses an + Z.of_nat (length (images files)))%Z.
Proof.
  induction files as [| [file w] files IH]; intros acc an Htyped Hok.
  - exists [], an. cbn. rewrite app_nil_r. repeat split. lia.
  - apply Forall_cons in Htyped as [[type Htype] Htyped]. cbn [fst] in Htype.
    cbn [batch_loop]. unfold images in *. cbn [List.filter fst] in *.
    unfold is_image in *. rewrite Htype in *.
    unfold mbind at 1, handler_bind, startswith. cbn [mret handler_ret].
    destruct (String.prefix "image/" type).
    + apply Forall_cons in Hok as [[r Hr] Hok]. cbn [fst snd] in Hr.
      cbn [negb]. unfold mbind at 1, handler_bind. rewrite (analyze_ok _ _ _ _ _ Hr).
      set (an1 := {| image_processor := _ |}).
      destruct (IH (acc ++ [{| item_filename := upload_filename file;
                               item_analysis := r |}]) an1 Htyped)
        as (rs & an' & Hloop & Hnames & Hip & Htotal).
      { eapply Forall_impl; [exact Hok |]. intros fw Hfw. cbn beta in *.
        now rewrite <- (pipeline_processor an an1). }
      exists ({| item_filename := upload_filename file; item_analysis := r |} :: rs), an'.
      rewrite Hloop, <- app_assoc. repeat split.
      * cbn. now rewrite Hnames.
      * exact Hip.
      * rewrite Htotal. subst an1. cbn [total_analyses length]. lia.
    + cbn [negb]. apply (IH acc an Htyped Hok).
Qed.

(** A loop in which every file passes. *)
Lemma batch_loop_passes (files : list (UploadFile * World)) (an : ThumbnailAnalyzer.t) :
  Forall (passes an) files ->
  Forall (fun fw => is_Some (content_type fw.1)) files
  /\ Forall (fun fw => returns (pipeline an (contents fw.1) (upload_filename fw.1) fw.2))
            (images files).
Proof.
  intros Hpass. split.
  - eapply Forall_impl; [exact Hpass |]. now intros fw [Htype _].
  - unfold images. apply Forall_forall. intros fw Hfw.
    apply list_elem_of_In, filter_In in Hfw as [Hin Himage].
    rewrite Forall_forall in Hpass. apply list_elem_of_In in Hin.
    now apply (Hpass fw Hin).
Qed.

(** The loop of the batch ends at the first file that aborts it. *)
Lemma batch_loop_aborts (files : list (UploadFile * World)) :
  forall (acc : list BatchItem) (an : ThumbnailAnalyzer.t),
  Exists (aborts an) files ->
  exists e an', batch_loop files acc an = (Raise e, an').
Proof.
  induction files as [| [file w] files IH]; intros acc an Hbad.
  - now apply Exists_nil in Hbad.
  - cbn [batch_loop].
    destruct (content_type file) as [type |] eqn:Etype; [| now do 2 eexists].
    unfold mbind at 1, handler_bind, startswith. cbn [mret handler_ret].
    assert (Htail : forall an1, image_processor an1 = image_processor an ->
              (is_image file = true ->
               returns (pipeline an (contents file) (upload_filename file) w)) ->
              Exists (aborts an1) files).
    { intros an1 Hip Hfile. apply Exists_cons in Hbad as [Hhead | Hbad].
      - destruct Hhead as [Hnone | [Himage [e He]]]; cbn [fst snd] in *.
        + congruence.
        + destruct (Hfile Himage) as [r Hr]. congruence.
      - eapply Exists_impl; [exact Hbad |]. intros fw [Hnone | [Himage Hraise]].
        + now left.
        + right. split; [exact Himage |].
          now rewrite (pipeline_processor an1 an). }
    destruct (String.prefix "image/" type) eqn:Eprefix; cbn [negb].
    + unfold mbind at 1, handler_bind.
      destruct (pipeline an (contents file) (upload_filename file) w) as [r | e] eqn:Ep.
      * rewrite (analyze_ok _ _ _ _ _ Ep). apply IH, Htail; [reflexivity |].
        intros _. now exists r.
      * rewrite (analyze_raise _ _ _ _ _ Ep). now exists e, an.
    + apply IH, Htail; [reflexivity |].
      unfold is_image. rewrite Etype, Eprefix. discriminate.
Qed.

(** Every batch is of one of the two kinds. *)
Lemma passes_or_aborts (files : list (UploadFile * World)) (an : ThumbnailAnalyzer.t) :
  Forall (passes an) files \/ Exists (aborts an) files.
Proof.
  induction files as [| [file w] files [IH | IH]].
  - left. constructor.
  - destruct (content_type file) as [type |] eqn:Etype.
    + destruct (is_image file) eqn:Eimage.
      * destruct (pipeline an (contents file) (upload_filename file) w) as [r | e] eqn:Ep.
        -- left. constructor; [| exact IH]. split; cbn [fst snd].
           ++ rewrite Etype. now eexists.
           ++ intros _. now exists r.
        -- right. apply Exists_cons_hd. right. cbn [fst snd].
           split; [exact Eimage | now exists e].
      * left. constructor; [| exact IH]. split; cbn [fst snd].
        -- rewrite Etype. now eexists.
        -- rewrite Eimage. discriminate.
    + right. apply Exists_cons_hd. now left.
  - right. now apply Exists_cons_tl.
Qed.

(** C3, as the code has it. The files whose content type does not start
    with "image/" are skipped without a trace.  When every file declares
    a content type and every image file is analysed, the response lists
    the image files in order and [total_analyzed] is their number, as is
    the increase of the counter of analyses.  As soon as one image file
    fails, or one file comes without a content type, the exception
    leaves the loop and the whole batch request ends with the error 500,
    as a single-image request does; every batch is of one of these two
    kinds. *)
Theorem batch_all_or_nothing (files : list (UploadFile * World))
    (an : ThumbnailAnalyzer.t) :
  (Forall (passes an) files ->
   exists r an',
     batch_analyze_thumbnails files an = (Ok r, an')
     /\ batch_success r = true
     /\ total_analyzed r = length (images files)
     /\ map item_filename (results r) = map (fun fw => upload_filename fw.1) (images files)
     /\ total_analyses an' = (total_analyses an + Z.of_nat (length (images files)))%Z)
  /\ (Exists (aborts an) files ->
      exists detail an',
        batch_analyze_thumbnails files an = (Raise (HTTPException 500 detail), an'))
  /\ (Forall (passes an) files \/ Exists (aborts an) files)
  /\ (forall file w,
        aborts an (file, w) ->
        exists detail an',
          analyze_thumbnail file w an = (Raise (HTTPException 500 detail), an')).
Proof.
  split; [| split; [| split]].
  - intros Hpass. destruct (batch_loop_passes files an Hpass) as [Htyped Hok].
    destruct (batch_loop_all_ok files [] an Htyped Hok)
      as (rs & an' & Hloop & Hnames & _ & Htotal).
    exists {| batch_success := true; total_analyzed := length rs; results := rs |}, an'.
    rewrite batch_analyze_unfold, Hloop. cbn [app].
    repeat split; cbn [total_analyzed results]; try assumption.
    rewrite <- (length_map item_filename), Hnames. apply length_map.
  - intros Hbad.
    destruct (batch_loop_aborts files [] an Hbad) as (e & an' & Hloop).
    exists ("Erro interno: " +:+ str e), an'.
    now rewrite batch_analyze_unfold, Hloop.
  - apply passes_or_aborts.
  - intros file w [Hnone | [Himage [e He]]]; cbn [fst snd] in *;
      unfold analyze_thumbnail, try_except_h.
    + rewrite Hnone. now do 2 eexists.
    + unfold is_image in Himage.
      destruct (content_type file) as [type |]; [| discriminate].
      unfold mbind at 1, handler_bind, startswith. cbn [mret handler_ret].
      rewrite Himage. cbn [negb]. unfold mbind, handler_bind.
      rewrite (analyze_raise _ _ _ _ _ He). now do 2 eexists.
Qed.

End Endpoints.

(** Two batches as OpenCV lets them run.  Two files of which none is an
    image: nothing to analyse, no error.  A text followed by a file
    without content type: the error 500. *)
Lemma batch_all_or_nothing_witness :
  (exists r an',
     @Main.batch_analyze_thumbnails Demo.opencv_libraries Demo.batch_without_images
        ThumbnailAnalyzer.__init__ = (Ok r, an')
     /\ Main.total_analyzed r = 0%nat)
  /\ (exists detail an',
        @Main.batch_analyze_thumbnails Demo.opencv_libraries Demo.batch_untyped
           ThumbnailAnalyzer.__init__ = (Raise (HTTPException 500 detail), an')).
Proof.
  split.
  - destruct (proj1 (@batch_all_or_nothing Demo.opencv_libraries Demo.batch_without_images
                       ThumbnailAnalyzer.__init__))
      as (r & an' & Hr & _ & Hn & _).
    { unfold Demo.batch_without_images.
      repeat (constructor; [split; [now eexists | intros Hi; discriminate Hi] |]).
      constructor. }
    exists r, an'. split; [exact Hr | exact Hn].
  - apply (proj1 (proj2 (@batch_all_or_nothing Demo.opencv_libraries Demo.batch_untyped
                           ThumbnailAnalyzer.__init__))).
    apply Exists_cons_tl, Exists_cons_hd. now left.
Defined.

(** C3 as it is worded fails.  Of an image file that cannot be decoded
    and a text, the first is not skipped: its failure ends the request
    with the error 500, and no response with [total_analyzed] = 0 is
    produced.  The same holds for the three image files of which the
    second cannot be decoded: the request ends at the first of them,
    which OpenCV refuses to measure, and nothing is counted. *)
Lemma batch_aborts_on_corrupt_image :
  (exists detail,
     @Main.batch_analyze_thumbnails Demo.opencv_libraries Demo.batch_corrupt_first
        ThumbnailAnalyzer.__init__
     = (Raise (HTTPException 500 detail), ThumbnailAnalyzer.__init__)
     /\ String.prefix "Erro interno: cannot identify image file" detail = true)
  /\ (exists detail,
        @Main.batch_analyze_thumbnails Demo.opencv_libraries Demo.batch_with_corrupt
           ThumbnailAnalyzer.__init__
        = (Raise (HTTPException 500 detail), ThumbnailAnalyzer.__init__)
        /\ String.prefix "Erro interno: OpenCV" detail = true).
Proof.
  split.
  - eexists. split; reflexivity.
  - eexists. split; vm_compute; reflexivity.
Qed.

(** ** The limits on uploads *)

Lemma padded_upload_analyzed (padding : list byte) :
  exists r an',
    @Main.analyze_thumbnail Demo.demo_libraries
       (Demo.upload "big.gif" "image/gif" (Demo.png_2x2 ++ padding)) (Demo.world 75)
       ThumbnailAnalyzer.__init__ = (Ok r, an')
    /\ Main.success r = true
    /\ ThumbnailAnalyzer.total_analyses an' = 1%Z.
Proof.
  destruct (demo_padded_pipeline padding "big.gif" (Demo.world 75)) as [r Hr].
  eexists. eexists. split.
  - apply (analyze_thumbnail_image _ _ _ r); [reflexivity | exact Hr].
  - split; reflexivity.
Qed.

(** C6 at two uploads. A GIF of more than [MAX_IMAGE_SIZE] bytes, whose
    type is not among [ALLOWED_IMAGE_TYPES], is analysed and answered
    with success; a text file is refused, but with the status 500: the
    [HTTPException] of status 400 is raised inside the [try] and caught
    by its own [except Exception]. *)
Theorem upload_limits_not_enforced :
  (Settings.MAX_IMAGE_SIZE settings < Z.of_nat (length Demo.oversized))%Z
  /\ ~ In "image/gif" (Settings.ALLOWED_IMAGE_TYPES settings)
  /\ (exists r an',
        @Main.analyze_thumbnail Demo.demo_libraries
           (Demo.upload "big.gif" "image/gif" Demo.oversized) (Demo.world 75)
           ThumbnailAnalyzer.__init__ = (Ok r, an')
        /\ Main.success r = true
        /\ ThumbnailAnalyzer.total_analyses an' = 1%Z)
  /\ @Main.analyze_thumbnail Demo.demo_libraries
        (Demo.upload "notes.txt" "text/plain" Demo.garbage) (Demo.world 75)
        ThumbnailAnalyzer.__init__
     = (Raise (HTTPException 500 "Erro interno: 400: Arquivo deve ser uma imagem"),
        ThumbnailAnalyzer.__init__).
Proof.
  split.
  { unfold Demo.oversized. rewrite length_app, length_replicate.
    change (length Demo.png_2x2) with 14%nat.
    change (Settings.MAX_IMAGE_SIZE settings) with 5242880%Z. lia. }
  split.
  { cbn. intros [E | [E | [E | []]]]; discriminate E. }
  split; [apply padded_upload_analyzed |].
  vm_compute. reflexivity.
Qed.

(** ** The usage statistics *)

Section Statistics.
Import ThumbnailAnalyzer Rules.
Context `{Libraries}.

Lemma analyze_cases (self : ThumbnailAnalyzer.t) (data : list byte) (name : string)
    (w : World) :
  (exists r, pipeline self data name w = Ok r
             /\ analyze self data name w =
                (Ok r, {| image_processor := image_processor self;
                          total_analyses := total_analyses self + 1;
                          scores_history := scores_history self ++ [score r] |}))
  \/ (exists e, pipeline self data name w = Raise e
                /\ analyze self data name w = (Raise e, self)).
Proof.
  unfold analyze. destruct (pipeline self data name w) as [r | e].
  - left. now exists r.
  - right. now exists e.
Qed.

Lemma get_average_score_rounded_mean (self : ThumbnailAnalyzer.t) :
  get_average_score self = rounded_mean (scores_history self).
Proof. unfold get_average_score, rounded_mean. now destruct (scores_history self). Qed.

Lemma analyze_all_successful (calls : list (list byte * string * World)) :
  forall self : ThumbnailAnalyzer.t,
  Forall returns (analyze_all self calls).1 ->
  total_analyses (analyze_all self calls).2
    = (total_analyses self + Z.of_nat (length calls))%Z
  /\ scores_history (analyze_all self calls).2
     = scores_history self ++ scores_of (analyze_all self calls).1
  /\ length (scores_of (analyze_all self calls).1) = length calls.
Proof.
  induction calls as [| [[data name] w] calls IH]; intros self Hok.
  - cbn. rewrite app_nil_r. repeat split. lia.
  - cbn [analyze_all] in *.
    destruct (analyze_cases self data name w) as [(r & _ & Ea) | (e & _ & Ea)];
      rewrite Ea in *; clear Ea;
      match goal with
      | |- context [analyze_all ?s calls] =>
          specialize (IH s); destruct (analyze_all s calls) as [rs self'] eqn:Erest
      end; cbn [fst snd] in *; apply Forall_cons in Hok as [Hhead Hok].
    + destruct (IH Hok) as (Ht & Hh & Hl). cbn [total_analyses scores_history] in *.
      unfold scores_of in *. cbn [flat_map]. rewrite Ht, Hh, <- app_assoc.
      cbn [app length]. rewrite Hl. repeat split. lia.
    + destruct Hhead as [a Ha]. discriminate Ha.
Qed.

(** The statistics after any sequence of calls. *)
Lemma analyze_all_statistics (calls : list (list byte * string * World)) :
  forall self : ThumbnailAnalyzer.t,
  total_analyses (analyze_all self calls).2
    = (total_analyses self + Z.of_nat (length (scores_of (analyze_all self calls).1)))%Z
  /\ scores_history (analyze_all self calls).2
     = scores_history self ++ scores_of (analyze_all self calls).1
  /\ image_processor (analyze_all self calls).2 = image_processor self
  /\ length (analyze_all self calls).1 = length calls.
Proof.
  induction calls as [| [[data name] w] calls IH]; intros self.
  - cbn. rewrite app_nil_r. repeat split. lia.
  - cbn [analyze_all].
    destruct (analyze_cases self data name w) as [(r & _ & Ea) | (e & _ & Ea)];
      rewrite Ea; clear Ea;
      match goal with
      | |- context [analyze_all ?s calls] =>
          destruct (IH s) as (Ht & Hh & Hp & Hl);
          destruct (analyze_all s calls) as [rs self'] eqn:Erest
      end; cbn [fst snd total_analyses scores_history image_processor] in *;
      unfold scores_of in *; cbn [flat_map app length].
    + rewrite Ht, Hh, <- app_assoc, Hl. repeat split; try assumption. lia.
    + rewrite Ht, Hh, Hl. now repeat split.
Qed.

(** The average that is reported lies within 0.05 of the mean. *)
Lemma average_near_mean (self : ThumbnailAnalyzer.t) :
  scores_history self <> [] ->
  Qabs (get_average_score self - mean (scores_history self)) <= 1 # 20.
Proof.
  intros Hne. rewrite get_average_score_rounded_mean. unfold rounded_mean.
  destruct (scores_history self) as [| s0 h]; [congruence |].
  pose proof (round1_near (mean (s0 :: h))) as [Hlo Hhi].
  apply Qabs_Qle_condition. split; lra.
Qed.

(** C8, as the code has it. After a sequence of analysis calls the
    counter of analyses has grown by one per call that returned, hence
    by the number of calls when all of them returned, and the history
    holds the final scores of these calls in order after the earlier
    ones; the reported average is 0.0 for an empty history and otherwise
    lies within 0.05 of the arithmetic mean of the history: it is the
    mean passed through [round(., 1)]. *)
Theorem running_statistics (calls : list (list byte * string * World))
    (self : ThumbnailAnalyzer.t) :
  total_analyses (analyze_all self calls).2
    = (total_analyses self + Z.of_nat (length (scores_of (analyze_all self calls).1)))%Z
  /\ scores_history (analyze_all self calls).2
     = scores_history self ++ scores_of (analyze_all self calls).1
  /\ (Forall returns (analyze_all self calls).1 ->
      total_analyses (analyze_all self calls).2
        = (total_analyses self + Z.of_nat (length calls))%Z
      /\ length (scores_of (analyze_all self calls).1) = length calls)
  /\ (scores_history (analyze_all self calls).2 = [] ->
      get_average_score (analyze_all self calls).2 = 0.0)
  /\ (scores_history (analyze_all self calls).2 <> [] ->
      Qabs (get_average_score (analyze_all self calls).2
            - mean (scores_history (analyze_all self calls).2)) <= 1 # 20).
Proof.
  destruct (analyze_all_statistics calls self) as (Ht & Hh & _ & _).
  split; [exact Ht |]. split; [exact Hh |]. split; [| split].
  - intros Hok. destruct (analyze_all_successful calls self Hok) as (Ht' & _ & Hl).
    now split.
  - intros Hnil. unfold get_average_score. now rewrite Hnil.
  - apply average_near_mean.
Qed.

(** Successful calls with given final scores leave the statistics in
    one state, whatever the libraries. *)
Lemma analyze_all_scores (calls : list (list byte * string * World)) (l : list Q) :
  scores_of (analyze_all ThumbnailAnalyzer.__init__ calls).1 = l ->
  (analyze_all ThumbnailAnalyzer.__init__ calls).2
  = {| image_processor := ImageProcessor.__init__;
       total_analyses := Z.of_nat (length l);
       scores_history := l |}.
Proof.
  intros Hl.
  destruct (analyze_all_statistics calls ThumbnailAnalyzer.__init__) as (Ht & Hh & Hp & _).
  rewrite Hl in Ht, Hh.
  destruct (analyze_all ThumbnailAnalyzer.__init__ calls).2 as [p t h].
  cbn [total_analyses scores_history image_processor ThumbnailAnalyzer.__init__] in *.
  subst. f_equal.
Qed.

End Statistics.

(** The statistics as OpenCV lets them run: of three calls none returns,
    and nothing is recorded; on an analyzer that has recorded three
    scores the average stays within 0.05 of their mean. *)
Lemma running_statistics_witness :
  ThumbnailAnalyzer.total_analyses
    (@Rules.analyze_all Demo.opencv_libraries ThumbnailAnalyzer.__init__
       Demo.three_calls).2 = 0%Z
  /\ ThumbnailAnalyzer.get_average_score
       (@Rules.analyze_all Demo.opencv_libraries ThumbnailAnalyzer.__init__
          Demo.three_calls).2 = 0.0
  /\ Qabs (ThumbnailAnalyzer.get_average_score
             (@Rules.analyze_all Demo.opencv_libraries Demo.after_three_calls []).2
           - Rules.mean [53.9; 53.9; 54.6]) <= 1 # 20.
Proof.
  assert (Hfail : @Rules.analyze_all Demo.opencv_libraries ThumbnailAnalyzer.__init__
                    Demo.three_calls
                  = ([Raise Demo.opencv_refusal;
                      Raise (Exception "cannot identify image file");
                      Raise Demo.opencv_refusal], ThumbnailAnalyzer.__init__))
    by (vm_compute; reflexivity).
  destruct (@running_statistics Demo.opencv_libraries Demo.three_calls
              ThumbnailAnalyzer.__init__) as (Ht & Hh & _ & Hzero & _).
  rewrite Hfail in Ht, Hh, Hzero. cbn [fst snd] in Ht, Hh, Hzero.
  split; [rewrite Hfail; exact Ht |].
  split; [rewrite Hfail; apply Hzero; exact Hh |].
  exact (proj2 (proj2 (proj2 (proj2
           (@running_statistics Demo.opencv_libraries [] Demo.after_three_calls))))
           ltac:(discriminate)).
Defined.

(** C8 as it is worded fails: once the final scores 53.9, 53.9 and 54.6
    are recorded, the arithmetic mean is 162.4 / 3, while the reported
    average is 54.1.  Three calls that return with these scores leave
    the analyzer in this state, whatever the libraries. *)
Lemma average_is_rounded :
  ThumbnailAnalyzer.get_average_score Demo.after_three_calls = 54.1
  /\ Rules.mean (ThumbnailAnalyzer.scores_history Demo.after_three_calls) == 162.4 / 3
  /\ ~ ThumbnailAnalyzer.get_average_score Demo.after_three_calls
       == Rules.mean (ThumbnailAnalyzer.scores_history Demo.after_three_calls)
  /\ (forall (L : Libraries) (calls : list (list byte * string * ThumbnailAnalyzer.World)),
        Rules.scores_of (@Rules.analyze_all L ThumbnailAnalyzer.__init__ calls).1
        = [53.9; 53.9; 54.6] ->
        (@Rules.analyze_all L ThumbnailAnalyzer.__init__ calls).2 = Demo.after_three_calls).
Proof.
  split; [vm_compute; reflexivity |].
  split; [vm_compute; reflexivity |].
  split; [vm_compute; discriminate |].
  intros L calls Hscores.
  exact (@analyze_all_scores L calls [53.9; 53.9; 54.6] Hscores).
Qed.

(** ** The invariant of the usage statistics *)

Section Invariant.
Import ThumbnailAnalyzer Rules.
Context `{Libraries}.

Lemma len_snoc {A} (l : list A) (x : A) : Py.len (l ++ [x]) == Py.len l + 1.
Proof.
  unfold Py.len. rewrite length_app. cbn [length].
  rewrite Nat2Z.inj_add, inject_Z_plus. reflexivity.
Qed.

Lemma sum_snoc (l : list Q) (x : Q) : Py.sum (l ++ [x]) = Py.sum l + x.
Proof. unfold Py.sum. now rewrite fold_left_app. Qed.

Lemma len_nonneg {A} (l : list A) : 0 <= Py.len l.
Proof. unfold Py.len. change 0 with (inject_Z 0). rewrite <- Zle_Qle. lia. Qed.

Lemma len_pos {A} (l : list A) : l <> [] -> 0 < Py.len l.
Proof.
  intros Hne. unfold Py.len. change 0 with (inject_Z 0). rewrite <- Zlt_Qlt.
  destruct l; [congruence | cbn [length]; lia].
Qed.

Lemma sum_bounds (a b : Q) (l : list Q) :
  Forall (fun x => a <= x <= b) l ->
  a * Py.len l <= Py.sum l <= b * Py.len l.
Proof.
  induction l as [| x l IH] using rev_ind; intros Hl.
  - change (Py.len (@nil Q)) with 0. change (Py.sum []) with 0. lra.
  - apply Forall_app in Hl as [Hl Hx]. apply Forall_inv in Hx.
    specialize (IH Hl). rewrite sum_snoc, len_snoc. lra.
Qed.

Lemma mean_bounds (a b : Q) (l : list Q) :
  l <> [] -> Forall (fun x => a <= x <= b) l -> a <= mean l <= b.
Proof.
  intros Hne Hl. pose proof (len_pos l Hne) as Hpos.
  pose proof (sum_bounds a b l Hl) as [Hlo Hhi]. unfold mean. split.
  - apply Qle_shift_div_l; assumption.
  - apply Qle_shift_div_r; assumption.
Qed.

Lemma div_const_nonneg (x c : Q) : 0 < c -> 0 <= x -> 0 <= x / c.
Proof. intros Hc Hx. apply Qle_shift_div_l; [exact Hc | lra]. Qed.

(** The fractions of the cluster populations lie in [0, 1]. *)
Lemma color_distribution_unit (labels : list nat) :
  Forall (fun p => 0 <= p <= 1)
    (map (fun c => inject_Z (Z.of_nat c) / Py.len labels) (unique_counts labels)).
Proof.
  apply Forall_map, Forall_forall. intros c Hc. cbn beta.
  unfold unique_counts in Hc. apply list_elem_of_filter in Hc as [Hnz Hc].
  apply list_elem_of_In, in_map_iff in Hc as (k & <- & _).
  set (n := length (filter (fun l => l = k) labels)) in *.
  assert (Hle : (n <= length labels)%nat) by apply length_filter.
  assert (Hpos : 0 < Py.len labels).
  { apply len_pos. intros ->. now apply Hnz. }
  assert (Hn : 0 <= inject_Z (Z.of_nat n) <= Py.len labels).
  { unfold Py.len. change 0 with (inject_Z 0). rewrite <- !Zle_Qle. lia. }
  split.
  - apply Qle_shift_div_l; [exact Hpos | lra].
  - apply Qle_shift_div_r; [exact Hpos | lra].
Qed.

Lemma color_harmony_nonneg (image : Array) (state : nat) (h : Q) :
  std_of_fractions_at_most_one ->
  _calculate_color_harmony image state = Ok h -> 0 <= h.
Proof.
  intros Hstd. unfold _calculate_color_harmony.
  destruct (cv2_kmeans state (concat image)) as [labels | e]; [| discriminate].
  cbn [mbind exc_bind]. intros [= <-].
  pose proof (Hstd _ (color_distribution_unit labels)) as Hs. lra.
Qed.

Lemma pipeline_inv (self : ThumbnailAnalyzer.t) (data : list byte) (name : string)
    (w : World) (r : AnalysisResult) :
  pipeline self data name w = Ok r ->
  exists processed b,
    _analyze_basic_features processed (kmeans_state w) = Ok b
    /\ score r = _calculate_final_score b (ml_score w) (_analyze_contextual_features w).
Proof.
  unfold pipeline.
  destruct (Image_open data) as [image | e]; [| discriminate]. cbn [mbind exc_bind].
  destruct (ImageProcessor.preprocess _ image) as [processed | e]; [| discriminate].
  cbn [mbind exc_bind].
  destruct (_analyze_basic_features processed (kmeans_state w)) as [b | e] eqn:Eb;
    [| discriminate].
  cbn [mbind exc_bind]. intros [= <-]. now exists processed, b.
Qed.

(** Within the ranges of the code a final score is at least 16. *)
Lemma final_score_at_least_16 (self : ThumbnailAnalyzer.t) (data : list byte)
    (name : string) (w : World) (r : AnalysisResult) :
  measurements_nonnegative -> std_of_fractions_at_most_one -> admissible w ->
  pipeline self data name w = Ok r -> 16 <= score r.
Proof.
  intros Hmeas Hstd (Hml & Hc & Ht & He & _) Hr.
  destruct (pipeline_inv _ _ _ _ _ Hr) as (processed & b & Hb & ->).
  destruct (analyze_basic_features_inv _ _ _ Hb) as (m & h & Hm & Hh & ->).
  destruct (Hmeas _ _ Hm) as (Hsg & Hms & Hvl).
  pose proof (color_harmony_nonneg _ _ _ Hstd Hh) as Hh0.
  rewrite final_score_fused.
  unfold fused, basic_aggregate, contextual_aggregate, _analyze_contextual_features.
  cbn [visual_impact clarity contrast color_harmony composition text_readability
       emotional_appeal].
  pose proof (div_const_nonneg (std_gray m) 255.0 ltac:(lra) Hsg) as H1.
  pose proof (div_const_nonneg (mean_hsv_s m) 255.0 ltac:(lra) Hms) as H2.
  pose proof (div_const_nonneg (var_laplacian m) 10000.0 ltac:(lra) Hvl) as H3.
  set (cs := std_gray m / 255.0) in *. set (ss := mean_hsv_s m / 255.0) in *.
  set (ks := var_laplacian m / 10000.0) in *.
  assert (Hvi : 0 <= Py.min ((cs * 0.3 + ss * 0.3 + ks * 0.4) * 100) 100)
    by (apply min_glb; lra).
  assert (Hk : 0 <= Py.min (ks * 100) 100) by (apply min_glb; lra).
  assert (Hcn : 0 <= Py.min (cs * 100) 100) by (apply min_glb; lra).
  set (vi := Py.min ((cs * 0.3 + ss * 0.3 + ks * 0.4) * 100) 100) in *.
  set (k := Py.min (ks * 100) 100) in *. set (c := Py.min (cs * 100) 100) in *.
  set (F := 0.4 * (0.3 * vi + 0.25 * k + 0.25 * c + 0.2 * h) + 0.35 * ml_score w
            + 0.25 * (0.4 * uniform_60_95 w + 0.3 * uniform_70_90 w
                      + 0.3 * uniform_65_85 w)).
  assert (HF : 16.125 <= Py.min F 100) by (apply min_glb; subst F; lra).
  pose proof (round1_near (Py.min F 100)) as [_ Hnear]. lra.
Qed.

Lemma reachable_invariant (self : ThumbnailAnalyzer.t) :
  measurements_nonnegative -> std_of_fractions_at_most_one ->
  reachable self ->
  total_analyses self = Z.of_nat (length (scores_history self))
  /\ Forall (fun s => 16 <= s <= 100) (scores_history self).
Proof.
  intros Hmeas Hstd Hreach. induction Hreach as [| self data name w _ [IHt IHs] Hw].
  - split; [reflexivity | constructor].
  - destruct (analyze_cases self data name w) as [(r & Hr & ->) | (e & _ & ->)];
      cbn [snd]; [| now split].
    cbn [total_analyses scores_history]. split.
    + rewrite IHt, length_app. cbn [length]. lia.
    + apply Forall_app. split; [exact IHs |]. apply Forall_singleton. split.
      * eapply final_score_at_least_16; eassumption.
      * destruct (pipeline_inv _ _ _ _ _ Hr) as (? & b & _ & ->).
        apply final_score_le_100.
Qed.

(** C10. Between analysis calls [total_analyses] is the length of
    [scores_history]; a call that fails leaves both unchanged and a call
    that succeeds adds one to the counter and one score to the history;
    and, the libraries and the random draws staying within their ranges,
    [get_average_score] returns 0.0 exactly when [total_analyses] is 0. *)
Theorem statistics_invariant (self : ThumbnailAnalyzer.t) :
  measurements_nonnegative -> std_of_fractions_at_most_one ->
  reachable self ->
  total_analyses self = Z.of_nat (length (scores_history self))
  /\ (forall data name w,
        match analyze self data name w with
        | (Raise _, self') => self' = self
        | (Ok r, self') =>
            total_analyses self' = (total_analyses self + 1)%Z
            /\ scores_history self' = scores_history self ++ [score r]
        end)
  /\ (get_average_score self == 0.0 <-> total_analyses self = 0%Z).
Proof.
  intros Hmeas Hstd Hreach.
  destruct (reachable_invariant self Hmeas Hstd Hreach) as [Htotal Hscores].
  split; [exact Htotal |]. split.
  - intros data name w.
    destruct (analyze_cases self data name w) as [(r & _ & ->) | (e & _ & ->)];
      [now split | reflexivity].
  - rewrite Htotal, get_average_score_rounded_mean. unfold rounded_mean.
    destruct (scores_history self) as [| s0 history] eqn:Eh.
    + split; reflexivity.
    + split; [| cbn [length]; lia]. intros Hzero. exfalso.
      assert (Hmean : 16 <= mean (s0 :: history) <= 100)
        by (apply mean_bounds; [discriminate | exact Hscores]).
      pose proof (round1_near (mean (s0 :: history))) as [_ Hnear]. lra.
Qed.

End Invariant.

(** ** The stand-in libraries meet the assumptions *)

Section DemoLibraries.
Import Rules.

Lemma demo_measurements_nonnegative : @measurements_nonnegative Demo.demo_libraries.
Proof. intros image m [= <-]. unfold Demo.flat_gray. cbn [std_gray mean_hsv_s var_laplacian]. lra. Qed.

Lemma sqrt6_le_one (q : Q) : q <= 1 -> Demo.sqrt6 q <= 1.
Proof.
  intros Hq. unfold Demo.sqrt6.
  assert (Hfloor : (Qfloor (q * 1000000000000) <= 1000000000000)%Z).
  { pose proof (Qfloor_resp_le (q * 1000000000000) (inject_Z 1000000000000)) as Hf.
    rewrite Qfloor_Z in Hf. apply Hf.
    change (inject_Z 1000000000000) with 1000000000000. lra. }
  apply Z.sqrt_le_mono in Hfloor.
  change (Z.sqrt 1000000000000) with 1000000%Z in Hfloor.
  unfold Qle. cbn [Qnum Qden]. lia.
Qed.

Lemma square_nonneg (y m : Q) : 0 <= (y - m) * (y - m).
Proof.
  destruct (Qlt_le_dec (y - m) 0) as [Hn | Hp].
  - assert (E : (y - m) * (y - m) == (m - y) * (m - y)) by ring.
    rewrite E. apply Qmult_le_0_compat; lra.
  - apply Qmult_le_0_compat; lra.
Qed.

Lemma demo_var_le_one (l : list Q) :
  Forall (fun p => 0 <= p <= 1) l -> Demo.var l <= 1.
Proof.
  intros Hl. destruct l as [| x l]; [vm_compute; discriminate |].
  assert (Hm : 0 <= mean (x :: l) <= 1) by (apply mean_bounds; [discriminate | exact Hl]).
  change (Demo.var (x :: l))
    with (mean (map (fun y => (y - mean (x :: l)) * (y - mean (x :: l))) (x :: l))).
  set (m := mean (x :: l)) in *. clearbody m.
  apply (mean_bounds 0 1); [discriminate |].
  apply Forall_map. eapply Forall_impl; [exact Hl |].
  intros y Hy. cbn beta in *. split; [apply square_nonneg | nra].
Qed.

Lemma demo_std_of_fractions : @std_of_fractions_at_most_one Demo.demo_libraries.
Proof. intros l Hl. apply sqrt6_le_one, demo_var_le_one, Hl. Qed.

Lemma demo_kmeans_order_insensitive : @kmeans_order_insensitive Demo.demo_libraries.
Proof.
  intros state data data' Hperm. cbn [cv2_kmeans Demo.demo_libraries Demo.libraries].
  unfold Demo.kmeans. rewrite <- (Permutation_length Hperm).
  destruct (length data <? 5)%nat; [reflexivity |].
  now apply Permutation_map.
Qed.

End DemoLibraries.

(** The invariant after one call on the stand-in libraries. *)
Lemma statistics_invariant_witness :
  @Rules.measurements_nonnegative Demo.demo_libraries
  /\ @Rules.std_of_fractions_at_most_one Demo.demo_libraries
  /\ @Rules.reachable Demo.demo_libraries
       (@ThumbnailAnalyzer.analyze Demo.demo_libraries ThumbnailAnalyzer.__init__
          Demo.png_2x2 "a.png" (Demo.world 75)).2
  /\ ThumbnailAnalyzer.total_analyses
       (@ThumbnailAnalyzer.analyze Demo.demo_libraries ThumbnailAnalyzer.__init__
          Demo.png_2x2 "a.png" (Demo.world 75)).2
     = Z.of_nat (length (ThumbnailAnalyzer.scores_history
          (@ThumbnailAnalyzer.analyze Demo.demo_libraries ThumbnailAnalyzer.__init__
             Demo.png_2x2 "a.png" (Demo.world 75)).2)).
Proof.
  assert (Hreach : @Rules.reachable Demo.demo_libraries
            (@ThumbnailAnalyzer.analyze Demo.demo_libraries ThumbnailAnalyzer.__init__
               Demo.png_2x2 "a.png" (Demo.world 75)).2).
  { apply Rules.reachable_analyze; [apply Rules.reachable_init |].
    unfold Rules.admissible. cbn. lra. }
  split; [exact demo_measurements_nonnegative |].
  split; [exact demo_std_of_fractions |].
  split; [exact Hreach |].
  exact (proj1 (@statistics_invariant Demo.demo_libraries _
                  demo_measurements_nonnegative demo_std_of_fractions Hreach)).
Defined.

(** ** The final score of a request *)

Section RequestScore.
Import ThumbnailAnalyzer Rules.
Context `{Libraries}.

(** What a request that returns has gone through. *)
Lemma pipeline_ok_inv (self : ThumbnailAnalyzer.t) (data : list byte) (name : string)
    (w : World) (r : AnalysisResult) :
  pipeline self data name w = Ok r ->
  exists image processed b,
    Image_open data = Ok image
    /\ ImageProcessor.preprocess (image_processor self) image = Ok processed
    /\ _analyze_basic_features processed (kmeans_state w) = Ok b
    /\ r = result_of b name w.
Proof.
  unfold pipeline.
  destruct (Image_open data) as [image | e] eqn:Ho; [| discriminate].
  cbn [mbind exc_bind].
  destruct (ImageProcessor.preprocess _ image) as [processed | e] eqn:Hp;
    [| discriminate].
  cbn [mbind exc_bind].
  destruct (_analyze_basic_features processed (kmeans_state w)) as [b | e] eqn:Eb;
    [| discriminate].
  cbn [mbind exc_bind]. intros [= <-]. exists image, processed, b. now repeat split.
Qed.

(** On an array with values in [0, 1] none of the three caps of
    [_analyze_basic_features] is active, and visual impact is the
    weighted sum of the entries. *)
Lemma caps_inactive_on_unit_array (image : Array) (state : nat) (b : BasicAnalysis) :
  unit_measurements_bounded -> all_in_unit image ->
  _analyze_basic_features image state = Ok b ->
  visual_impact b == nested_visual_impact b
  /\ visual_impact b < 100 /\ clarity b < 100 /\ contrast b < 100.
Proof.
  intros Hunit Himage Hb.
  destruct (analyze_basic_features_inv image state b Hb) as (m & h & Hm & _ & ->).
  destruct (Hunit image m Himage Hm) as (Hsg & Hms & Hvl).
  unfold nested_visual_impact. cbn [visual_impact clarity contrast saturation].
  assert (H1 : std_gray m / 255.0 == std_gray m * (1 # 255)) by field.
  assert (H2 : mean_hsv_s m / 255.0 == mean_hsv_s m * (1 # 255)) by field.
  assert (H3 : var_laplacian m / 10000.0 == var_laplacian m * (1 # 10000)) by field.
  set (cs := std_gray m / 255.0) in *. set (ss := mean_hsv_s m / 255.0) in *.
  set (ks := var_laplacian m / 10000.0) in *.
  assert (Ev : Py.min ((cs * 0.3 + ss * 0.3 + ks * 0.4) * 100) 100
               == (cs * 0.3 + ss * 0.3 + ks * 0.4) * 100)
    by (rewrite min_id by lra; reflexivity).
  assert (Ek : Py.min (ks * 100) 100 == ks * 100) by (rewrite min_id by lra; reflexivity).
  assert (Ec : Py.min (cs * 100) 100 == cs * 100) by (rewrite min_id by lra; reflexivity).
  rewrite Ev, Ek, Ec. repeat split; lra.
Qed.

(** C1, as the code has it. For every analysis request that returns,
    with the measurements of the libraries in their ranges, the score of
    the predictor in [0, 100] and the draws in their intervals: the
    final score lies within 0.05 of the fused score capped at 100 (it is
    this value passed through [round(., 1)]), where the fused score has
    the weights 0.4 / 0.35 / 0.25 and the nested basic aggregate; visual
    impact is 0.3 contrast + 0.3 saturation + 0.4 clarity over the
    entries of the dictionary, no cap being active on the array in
    [0, 1] that [preprocess] hands over; the score never exceeds 100
    and, without any lower clamp, is at least 16: it is never
    negative. *)
Theorem final_score_formula (self : ThumbnailAnalyzer.t) (data : list byte)
    (name : string) (w : World) (r : AnalysisResult) :
  measurements_nonnegative -> unit_measurements_bounded ->
  std_of_fractions_at_most_one -> admissible w ->
  pipeline self data name w = Ok r ->
  exists b : BasicAnalysis,
    basic_stage (image_processor self) data (kmeans_state w) = Ok b
    /\ r = result_of b name w
    /\ Qabs (score r
             - Py.min (fused b (ml_score w) (_analyze_contextual_features w)) 100)
       <= 1 # 20
    /\ visual_impact b == nested_visual_impact b
    /\ fused b (ml_score w) (_analyze_contextual_features w)
       == fused_nested b (ml_score w) (_analyze_contextual_features w)
    /\ score r <= 100
    /\ 16 <= score r.
Proof.
  intros Hmeas Hunit Hstd Hw Hr.
  pose proof (final_score_at_least_16 self data name w r Hmeas Hstd Hw Hr) as H16.
  destruct (pipeline_ok_inv self data name w r Hr)
    as (image & processed & b & Ho & Hp & Hb & ->).
  destruct (preprocess_shape_range _ _ _ Hp) as [_ Hin].
  destruct (caps_inactive_on_unit_array processed (kmeans_state w) b Hunit Hin Hb)
    as (Hnested & _).
  exists b. split.
  { unfold basic_stage. rewrite Ho. cbn [mbind exc_bind]. rewrite Hp. exact Hb. }
  split; [reflexivity |]. cbn [score result_of] in *.
  split.
  { rewrite final_score_fused.
    pose proof (round1_near
                  (Py.min (fused b (ml_score w) (_analyze_contextual_features w)) 100))
      as [Hlo Hhi].
    apply Qabs_Qle_condition. split; lra. }
  split; [exact Hnested |].
  split.
  { unfold fused, fused_nested, basic_aggregate. rewrite Hnested. ring. }
  split; [apply final_score_le_100 | exact H16].
Qed.

End RequestScore.

Lemma demo_unit_measurements_bounded : @Rules.unit_measurements_bounded Demo.demo_libraries.
Proof.
  intros image m _ [= <-]. unfold Demo.flat_gray.
  cbn [std_gray mean_hsv_s var_laplacian]. lra.
Qed.

Lemma demo_admissible (ml : Q) : 0 <= ml <= 100 -> Rules.admissible (Demo.world ml).
Proof. intros Hml. unfold Rules.admissible. cbn. lra. Qed.

(** The formula at the request for the 2 x 2 image, on the stand-in
    measurements. *)
Lemma final_score_formula_witness :
  exists b,
    @Rules.basic_stage Demo.demo_libraries ImageProcessor.__init__ Demo.png_2x2 0 = Ok b
    /\ Qabs (ThumbnailAnalyzer.score (Rules.result_of b "a.png" (Demo.world 75))
             - Py.min (Rules.fused b 75 Demo.contextual) 100) <= 1 # 20
    /\ ThumbnailAnalyzer.visual_impact b == Rules.nested_visual_impact b
    /\ 16 <= ThumbnailAnalyzer.score (Rules.result_of b "a.png" (Demo.world 75)).
Proof.
  destruct (@final_score_formula Demo.demo_libraries ThumbnailAnalyzer.__init__
              Demo.png_2x2 "a.png" (Demo.world 75) _
              demo_measurements_nonnegative demo_unit_measurements_bounded
              demo_std_of_fractions (demo_admissible 75 ltac:(lra))
              (demo_pipeline ThumbnailAnalyzer.__init__ "a.png" 75 eq_refl))
    as (b & Hb & Hr & Hnear & Hnested & _ & _ & H16).
  exists b. split; [exact Hb |]. rewrite Hr in Hnear, H16.
  split; [exact Hnear |]. split; [exact Hnested | exact H16].
Defined.

(** C1 as it is worded fails in its last part: no analysis request has a
    negative final score.  Whatever the libraries, with measurements and
    fractions in their ranges, a predictor score in [0, 100] and the
    draws in their intervals, no image makes the score negative. *)
Lemma final_score_never_negative :
  ~ exists (L : Libraries) (self : ThumbnailAnalyzer.t) (data : list byte)
      (name : string) (w : ThumbnailAnalyzer.World) (r : ThumbnailAnalyzer.AnalysisResult),
      @Rules.measurements_nonnegative L
      /\ @Rules.std_of_fractions_at_most_one L
      /\ Rules.admissible w
      /\ @ThumbnailAnalyzer.pipeline L self data name w = Ok r
      /\ ThumbnailAnalyzer.score r < 0.
Proof.
  intros (L & self & data & name & w & r & Hmeas & Hstd & Hw & Hr & Hneg).
  pose proof (@final_score_at_least_16 L self data name w r Hmeas Hstd Hw Hr) as H16.
  lra.
Qed.

(** ** Colour harmony and the order of the pixels *)

Section Harmony.
Import ThumbnailAnalyzer Rules.
Context `{Libraries}.

Lemma count_label_permutation (labels labels' : list nat) (k : nat) :
  labels ≡ₚ labels' ->
  length (filter (fun l => l = k) labels) = length (filter (fun l => l = k) labels').
Proof.
  induction 1 as [| x l l' _ IH | x y l | l l' l'' _ IH1 _ IH2].
  - reflexivity.
  - rewrite !filter_cons. destruct (decide (x = k)); cbn [length]; now rewrite IH.
  - rewrite !filter_cons. destruct (decide (x = k)), (decide (y = k)); reflexivity.
  - now rewrite IH1.
Qed.

(** The cluster populations depend on the multiset of the labels only. *)
Lemma unique_counts_permutation (labels labels' : list nat) :
  labels ≡ₚ labels' -> unique_counts labels = unique_counts labels'.
Proof.
  intros Hperm. unfold unique_counts.
  rewrite (Permutation_list_max Hperm). f_equal.
  apply map_ext. intros k. now apply count_label_permutation.
Qed.

(** C9. With the state of the random generator of the clustering fixed,
    and the clustering insensitive to the order of its samples, the
    colour-harmony score of an image whose pixels are a permutation of
    the pixels of another is the score of the other: the score depends
    on the labels through the cluster populations and their number
    only. *)
Theorem harmony_permutation_invariant (image image' : Array) (state : nat) :
  kmeans_order_insensitive ->
  concat image ≡ₚ concat image' ->
  _calculate_color_harmony image state = _calculate_color_harmony image' state.
Proof.
  intros Hkmeans Hperm. unfold _calculate_color_harmony.
  specialize (Hkmeans state _ _ Hperm).
  destruct (cv2_kmeans state (concat image)) as [labels | e],
    (cv2_kmeans state (concat image')) as [labels' | e'];
    try contradiction; cbn [mbind exc_bind]; [| now subst].
  rewrite (unique_counts_permutation _ _ Hkmeans).
  unfold Py.len. now rewrite (Permutation_length Hkmeans).
Qed.

End Harmony.

(** The checkerboard and the checkerboard with two pixels exchanged. *)
Lemma harmony_permutation_invariant_witness :
  @Rules.kmeans_order_insensitive Demo.demo_libraries
  /\ concat Demo.checkerboard_array ≡ₚ concat Demo.checkerboard_shuffled
  /\ @ThumbnailAnalyzer._calculate_color_harmony Demo.demo_libraries
       Demo.checkerboard_array 0
     = @ThumbnailAnalyzer._calculate_color_harmony Demo.demo_libraries
         Demo.checkerboard_shuffled 0.
Proof.
  assert (Hperm : concat Demo.checkerboard_array ≡ₚ concat Demo.checkerboard_shuffled).
  { cbn. apply perm_swap. }
  split; [exact demo_kmeans_order_insensitive |].
  split; [exact Hperm |].
  exact (@harmony_permutation_invariant Demo.demo_libraries _ _ 0
           demo_kmeans_order_insensitive Hperm).
Defined.
(* ===================================================================== *)
(** * Further properties *)
(* ===================================================================== *)

(** ** More facts about the built-ins *)

Lemma round_half_even_mono (q q' : Q) :
  q <= q' -> (Py.round_half_even q <= Py.round_half_even q')%Z.
Proof.
  intros Hle.
  destruct (Z_le_gt_dec (Py.round_half_even q) (Py.round_half_even q')) as [H | H];
    [exact H | exfalso].
  pose proof (round_half_even_near q) as [Hlo _].
  pose proof (round_half_even_near q') as [_ Hhi].
  assert (Hz : (Py.round_half_even q' + 1 <= Py.round_half_even q)%Z) by lia.
  rewrite Zle_Qle, inject_Z_plus in Hz. change (inject_Z 1) with 1 in Hz.
  assert (E : q == q') by lra.
  rewrite (round_half_even_comp q q' E) in H. lia.
Qed.

Lemma round1_mono (q q' : Q) : q <= q' -> Py.round1 q <= Py.round1 q'.
Proof.
  intros Hle. unfold Py.round1.
  assert (Hz : (Py.round_half_even (q * 10) <= Py.round_half_even (q' * 10))%Z)
    by (apply round_half_even_mono; lra).
  unfold Qle. cbn [Qnum Qden]. lia.
Qed.

Lemma min_mono (a a' b : Q) : a <= a' -> Py.min a b <= Py.min a' b.
Proof.
  intros Hle.
  destruct (min_spec a b) as [[? ->] | [? ->]], (min_spec a' b) as [[? ->] | [? ->]]; lra.
Qed.

Lemma int_nonneg (q : Q) : 0 <= q -> Py.int q = Qfloor q.
Proof. intros Hq. unfold Py.int. apply ltb_ge in Hq. now rewrite Hq. Qed.

(** ** The fused score as a weighted average *)

Section Fusion.
Import ThumbnailAnalyzer Rules.

Lemma fused_mono (b b' : BasicAnalysis) (ml ml' : Q) (c c' : Contextual) :
  visual_impact b <= visual_impact b' -> clarity b <= clarity b' ->
  contrast b <= contrast b' -> color_harmony b <= color_harmony b' ->
  ml <= ml' ->
  composition c <= composition c' -> text_readability c <= text_readability c' ->
  emotional_appeal c <= emotional_appeal c' ->
  fused b ml c <= fused b' ml' c'.
Proof. intros. unfold fused, basic_aggregate, contextual_aggregate. lra. Qed.

(** X1. The final score never decreases when a component increases:
    visual impact, clarity, contrast, colour harmony, the predictor
    score, composition, text readability and emotional appeal.  The
    entries brightness, saturation and brand_consistency do not enter
    it: they are not constrained. *)
Theorem final_score_monotone (b b' : BasicAnalysis) (ml ml' : Q) (c c' : Contextual) :
  visual_impact b <= visual_impact b' -> clarity b <= clarity b' ->
  contrast b <= contrast b' -> color_harmony b <= color_harmony b' ->
  ml <= ml' ->
  composition c <= composition c' -> text_readability c <= text_readability c' ->
  emotional_appeal c <= emotional_appeal c' ->
  _calculate_final_score b ml c <= _calculate_final_score b' ml' c'.
Proof.
  intros. rewrite !final_score_fused.
  apply round1_mono, min_mono, fused_mono; assumption.
Qed.

End Fusion.

Section FusionRanges.
Import ThumbnailAnalyzer Rules.

Lemma fused_between (b : BasicAnalysis) (ml : Q) (c : Contextual) (lo hi : Q) :
  lo <= visual_impact b <= hi -> lo <= clarity b <= hi ->
  lo <= contrast b <= hi -> lo <= color_harmony b <= hi ->
  lo <= ml <= hi ->
  lo <= composition c <= hi -> lo <= text_readability c <= hi ->
  lo <= emotional_appeal c <= hi ->
  lo <= fused b ml c <= hi.
Proof. intros. unfold fused, basic_aggregate, contextual_aggregate. lra. Qed.

(** X2. The weights are normalised at every level: when the eight
    components that enter the score lie between [lo] and [hi], the final
    score lies between [min(lo, 100)] and [min(hi, 100)] up to the 0.05
    of the rounding; a thumbnail whose components all equal [lo] is
    scored within 0.05 of [min(lo, 100)]. *)
Theorem final_score_weighted_average (b : BasicAnalysis) (ml : Q) (c : Contextual)
    (lo hi : Q) :
  lo <= visual_impact b <= hi -> lo <= clarity b <= hi ->
  lo <= contrast b <= hi -> lo <= color_harmony b <= hi ->
  lo <= ml <= hi ->
  lo <= composition c <= hi -> lo <= text_readability c <= hi ->
  lo <= emotional_appeal c <= hi ->
  Py.min lo 100 - (1 # 20) <= _calculate_final_score b ml c <= Py.min hi 100 + (1 # 20)
  /\ (hi <= lo -> Qabs (_calculate_final_score b ml c - Py.min lo 100) <= 1 # 20).
Proof.
  intros Hv Hk Hc Hh Hm Hp Ht He.
  pose proof (fused_between b ml c lo hi Hv Hk Hc Hh Hm Hp Ht He) as [Hlo Hhi].
  rewrite final_score_fused.
  pose proof (round1_near (Py.min (fused b ml c) 100)) as [Hn1 Hn2].
  pose proof (min_mono _ _ 100 Hlo) as Hm1. pose proof (min_mono _ _ 100 Hhi) as Hm2.
  split; [split; lra |].
  intros Heq. pose proof (min_mono hi lo 100 Heq) as Hm3.
  apply Qabs_Qle_condition. split; lra.
Qed.

Lemma min_lipschitz (a a' b d : Q) :
  a - a' <= d -> a' - a <= d -> 0 <= d ->
  Py.min a b - Py.min a' b <= d /\ Py.min a' b - Py.min a b <= d.
Proof.
  intros H1 H2 Hd.
  destruct (min_spec a b) as [[? ->] | [? ->]], (min_spec a' b) as [[? ->] | [? ->]];
    split; lra.
Qed.

(** X3. The simulated contextual analysis moves the final score of a
    thumbnail by at most 6.6 points: for the same basic analysis and the
    same predictor score, two sets of draws within their intervals give
    final scores that differ by no more than 6.6. *)
Theorem contextual_draws_move_score (b : BasicAnalysis) (ml : Q) (w w' : World) :
  draws_in_range w -> draws_in_range w' ->
  Qabs (_calculate_final_score b ml (_analyze_contextual_features w)
        - _calculate_final_score b ml (_analyze_contextual_features w')) <= 6.6.
Proof.
  intros (Hc & Ht & He & _) (Hc' & Ht' & He' & _).
  rewrite !final_score_fused.
  set (F := fused b ml (_analyze_contextual_features w)).
  set (F' := fused b ml (_analyze_contextual_features w')).
  assert (HF : F - F' <= 6.5 /\ F' - F <= 6.5).
  { subst F F'. unfold fused, contextual_aggregate, _analyze_contextual_features.
    cbn [composition text_readability emotional_appeal]. split; lra. }
  destruct HF as [HF1 HF2].
  destruct (min_lipschitz F F' 100 6.5 HF1 HF2 ltac:(lra)) as [Hm1 Hm2].
  pose proof (round1_near (Py.min F 100)) as [Ha1 Ha2].
  pose proof (round1_near (Py.min F' 100)) as [Hb1 Hb2].
  apply Qabs_Qle_condition. split; lra.
Qed.

End FusionRanges.

(** ** The distribution of the clusters *)

Section Distribution.
Import ThumbnailAnalyzer Rules.

Lemma sum_list_snoc (l : list nat) (x : nat) : sum_list (l ++ [x]) = (sum_list l + x)%nat.
Proof. induction l as [| y l IH]; simpl; lia. Qed.

Lemma sum_list_indicator (x n : nat) :
  (x < n)%nat ->
  sum_list (map (fun k => if decide (x = k) then 1%nat else 0%nat) (seq 0 n)) = 1%nat.
Proof.
  induction n as [| n IH]; intros Hx; [lia |].
  rewrite seq_S, map_app. cbn [map]. rewrite sum_list_snoc, Nat.add_0_l.
  destruct (decide (x = n)) as [-> | Hne].
  - clear IH Hx. enough (E : sum_list (map (fun k => if decide (n = k) then 1%nat else 0%nat)
                                (seq 0 n)) = 0%nat) by lia.
    assert (G : forall m, (m <= n)%nat ->
              sum_list (map (fun k => if decide (n = k) then 1%nat else 0%nat) (seq 0 m))
              = 0%nat).
    { induction m as [| m IHm]; intros Hm; [reflexivity |].
      rewrite seq_S, map_app. cbn [map]. rewrite sum_list_snoc, Nat.add_0_l.
      destruct (decide (n = m)); [lia |]. rewrite IHm; lia. }
    apply G. lia.
  - rewrite IH; lia.
Qed.

Lemma sum_list_plus {A} (f g : A -> nat) (l : list A) :
  sum_list (map (fun k => (f k + g k)%nat) l) = (sum_list (map f l) + sum_list (map g l))%nat.
Proof. induction l as [| x l IH]; simpl; lia. Qed.

(** Every label below [n] is counted once. *)
Lemma sum_list_counts (labels : list nat) (n : nat) :
  Forall (fun l => (l < n)%nat) labels ->
  sum_list (map (fun k => length (filter (fun l => l = k) labels)) (seq 0 n))
  = length labels.
Proof.
  induction labels as [| x labels IH]; intros Hl.
  - cbn [filter list_filter length]. clear Hl.
    induction (seq 0 n) as [| k s IHs]; [reflexivity | exact IHs].
  - apply Forall_cons in Hl as [Hx Hl]. specialize (IH Hl).
    erewrite map_ext; [rewrite (sum_list_plus
      (fun k => if decide (x = k) then 1%nat else 0%nat)
      (fun k => length (filter (fun l => l = k) labels))) |].
    + rewrite (sum_list_indicator x n Hx), IH. reflexivity.
    + intros k. cbn beta. rewrite filter_cons. now destruct (decide (x = k)).
Qed.

Lemma sum_list_filter_nonzero (l : list nat) :
  sum_list (filter (fun c => c ≠ 0%nat) l) = sum_list l.
Proof.
  induction l as [| c l IH]; [reflexivity |].
  rewrite filter_cons. destruct (decide (c ≠ 0%nat)) as [Hc | Hc]; simpl; lia.
Qed.

Lemma labels_below_max (labels : list nat) :
  Forall (fun l => (l < S (list_max labels))%nat) labels.
Proof.
  assert (H : Forall (fun k => (k <= list_max labels)%nat) labels)
    by (now apply list_max_le).
  eapply Forall_impl; [exact H |]. intros k Hk. cbn beta in *. lia.
Qed.

(** The populations of the clusters add up to the number of samples. *)
Lemma unique_counts_total (labels : list nat) :
  sum_list (unique_counts labels) = length labels.
Proof.
  unfold unique_counts. rewrite sum_list_filter_nonzero.
  apply sum_list_counts, labels_below_max.
Qed.

Lemma sum_fractions (l : list nat) (d : Q) :
  Py.sum (map (fun c => inject_Z (Z.of_nat c) / d) l)
  == inject_Z (Z.of_nat (sum_list l)) / d.
Proof.
  induction l as [| c l IH] using rev_ind.
  - cbn. unfold Qdiv. ring.
  - rewrite map_app. cbn [map].
    rewrite sum_snoc, IH, sum_list_snoc, Nat2Z.inj_add, inject_Z_plus.
    unfold Qdiv. ring.
Qed.

Lemma count_nonzero (labels : list nat) (k : nat) :
  length (filter (fun l => l = k) labels) ≠ 0%nat <-> k ∈ labels.
Proof.
  split.
  - intros Hn. destruct (filter (fun l => l = k) labels) as [| y ys] eqn:E;
      [now cbn in Hn |].
    assert (Hy : y ∈ filter (fun l => l = k) labels) by (rewrite E; left).
    apply list_elem_of_filter in Hy as [-> Hy]. exact Hy.
  - intros Hk Hz. apply length_zero_iff_nil in Hz.
    assert (Hin : k ∈ filter (fun l => l = k) labels)
      by (apply list_elem_of_filter; split; [reflexivity | exact Hk]).
    rewrite Hz in Hin. now apply not_elem_of_nil in Hin.
Qed.

Lemma length_filter_map {A B} (P : B -> Prop) `{!forall x, Decision (P x)}
    (f : A -> B) (l : list A) :
  length (filter P (map f l)) = length (filter (fun x => P (f x)) l).
Proof.
  induction l as [| x l IH]; [reflexivity |].
  cbn [map]. rewrite !filter_cons. destruct (decide (P (f x))); cbn [length]; now rewrite IH.
Qed.

(** One population per label that occurs. *)
Lemma unique_counts_length (labels : list nat) :
  length (unique_counts labels) = length (remove_dups labels).
Proof.
  unfold unique_counts. rewrite length_filter_map.
  apply Permutation_length, list.NoDup_Permutation.
  - apply list.NoDup_filter, NoDup_seq.
  - apply NoDup_remove_dups.
  - intros k. rewrite list_elem_of_filter, elem_of_remove_dups, count_nonzero.
    split; [now intros [? _] | intros Hk; split; [exact Hk |]].
    apply list_elem_of_In, in_seq.
    pose proof (labels_below_max labels) as Hb.
    rewrite Forall_forall in Hb. specialize (Hb k Hk). cbn beta in Hb. lia.
Qed.

Lemma color_distribution_is_distribution (labels : list nat) :
  labels <> [] -> is_distribution (color_distribution labels).
Proof.
  intros Hne. pose proof (len_pos labels Hne) as Hpos. split.
  - pose proof (color_distribution_unit labels) as Hunit.
    unfold color_distribution, unique_counts in *.
    apply Forall_map. apply Forall_map in Hunit.
    apply Forall_forall. intros c Hc. cbn beta.
    rewrite Forall_forall in Hunit. specialize (Hunit c Hc). cbn beta in Hunit.
    split; [| apply Hunit].
    apply list_elem_of_filter in Hc as [Hnz _].
    apply Qlt_shift_div_l; [exact Hpos |].
    assert (Hz : (0 < Z.of_nat c)%Z) by lia.
    rewrite Zlt_Qlt in Hz. change (inject_Z 0) with 0 in Hz. lra.
  - unfold color_distribution. rewrite sum_fractions, unique_counts_total.
    unfold Py.len in *. field. lra.
Qed.

Context `{Libraries}.

Lemma color_harmony_inv (image : Array) (state : nat) (h : Q) :
  _calculate_color_harmony image state = Ok h ->
  exists labels,
    cv2_kmeans state (concat image) = Ok labels
    /\ h = (1 - np_std (color_distribution labels)) * 100.
Proof.
  unfold _calculate_color_harmony.
  destruct (cv2_kmeans state (concat image)) as [labels | e]; [| discriminate].
  cbn [mbind exc_bind]. intros [= <-]. now exists labels.
Qed.

Lemma color_harmony_le_100 (image : Array) (state : nat) (h : Q) :
  std_nonnegative -> _calculate_color_harmony image state = Ok h -> h <= 100.
Proof.
  intros Hstd Hh. destruct (color_harmony_inv _ _ _ Hh) as (labels & _ & ->).
  specialize (Hstd (color_distribution labels)). lra.
Qed.

(** X4. When the clustering returns labels, the colour harmony is
    100 (1 - std) of the vector of the cluster populations divided by
    the number of samples: one positive fraction per label that occurs,
    the fractions adding up to one; the harmony lies between 0 and 100
    for a standard deviation between 0 and 1. *)
Theorem color_harmony_of_distribution (image : Array) (state : nat) (h : Q) :
  _calculate_color_harmony image state = Ok h ->
  exists labels,
    cv2_kmeans state (concat image) = Ok labels
    /\ h = (1 - np_std (color_distribution labels)) * 100
    /\ length (color_distribution labels) = length (remove_dups labels)
    /\ (labels <> [] -> is_distribution (color_distribution labels))
    /\ (std_nonnegative -> h <= 100)
    /\ (std_of_fractions_at_most_one -> 0 <= h).
Proof.
  intros Hh. destruct (color_harmony_inv _ _ _ Hh) as (labels & Hk & Eh).
  exists labels. split; [exact Hk |]. split; [exact Eh |].
  split; [unfold color_distribution; rewrite length_map; apply unique_counts_length |].
  split; [apply color_distribution_is_distribution |].
  split.
  - intros Hstd. eapply color_harmony_le_100; eassumption.
  - intros Hstd. eapply color_harmony_nonneg; eassumption.
Qed.

End Distribution.

(** ** The range of the scores *)

Section ScoreRange.
Import ThumbnailAnalyzer Rules.
Context `{Libraries}.

Lemma basic_entries_in_range (image : Array) (state : nat) (b : BasicAnalysis) :
  measurements_nonnegative -> std_nonnegative -> std_of_fractions_at_most_one ->
  _analyze_basic_features image state = Ok b ->
  0 <= visual_impact b <= 100 /\ 0 <= clarity b <= 100 /\
  0 <= contrast b <= 100 /\ 0 <= color_harmony b <= 100.
Proof.
  intros Hmeas Hstd0 Hstd1 Hb.
  destruct (analyze_basic_features_inv _ _ _ Hb) as (m & h & Hm & Hh & ->).
  destruct (Hmeas _ _ Hm) as (Hsg & Hms & Hvl).
  pose proof (color_harmony_nonneg _ _ _ Hstd1 Hh) as Hh0.
  pose proof (color_harmony_le_100 _ _ _ Hstd0 Hh) as Hh1.
  cbn [visual_impact clarity contrast color_harmony].
  pose proof (div_const_nonneg (std_gray m) 255.0 ltac:(lra) Hsg) as H1.
  pose proof (div_const_nonneg (mean_hsv_s m) 255.0 ltac:(lra) Hms) as H2.
  pose proof (div_const_nonneg (var_laplacian m) 10000.0 ltac:(lra) Hvl) as H3.
  set (cs := std_gray m / 255.0) in *. set (ss := mean_hsv_s m / 255.0) in *.
  set (ks := var_laplacian m / 10000.0) in *.
  repeat split; try (apply min_le_r); try (apply min_glb; lra); lra.
Qed.

(** What [analyze] returns, from the dictionary of the basic features. *)
Lemma pipeline_result (self : ThumbnailAnalyzer.t) (data : list byte) (name : string)
    (w : World) (r : AnalysisResult) :
  pipeline self data name w = Ok r ->
  exists processed b,
    _analyze_basic_features processed (kmeans_state w) = Ok b
    /\ r = result_of b name w.
Proof.
  unfold pipeline.
  destruct (Image_open data) as [image | e]; [| discriminate]. cbn [mbind exc_bind].
  destruct (ImageProcessor.preprocess _ image) as [processed | e]; [| discriminate].
  cbn [mbind exc_bind].
  destruct (_analyze_basic_features processed (kmeans_state w)) as [b | e] eqn:Eb;
    [| discriminate].
  cbn [mbind exc_bind]. intros [= <-]. now exists processed, b.
Qed.

(** X5. With the measurements and the standard deviation of the
    libraries in their ranges and the draws in their intervals, every
    entry of the breakdown of a response lies in its range: visual
    impact, clarity, contrast and colour harmony between 0 and 100,
    composition between 60 and 95, text readability between 70 and 90. *)
Theorem breakdown_in_range (self : ThumbnailAnalyzer.t) (data : list byte)
    (name : string) (w : World) (r : AnalysisResult) :
  measurements_nonnegative -> std_nonnegative -> std_of_fractions_at_most_one ->
  draws_in_range w ->
  pipeline self data name w = Ok r ->
  0 <= b_visual_impact (breakdown r) <= 100
  /\ 0 <= b_clarity (breakdown r) <= 100
  /\ 0 <= b_contrast (breakdown r) <= 100
  /\ 0 <= b_color_harmony (breakdown r) <= 100
  /\ 60 <= b_composition (breakdown r) <= 95
  /\ 70 <= b_text_readability (breakdown r) <= 90.
Proof.
  intros Hmeas Hstd0 Hstd1 (Hc & Ht & _) Hr.
  destruct (pipeline_result _ _ _ _ _ Hr) as (processed & b & Hb & ->).
  destruct (basic_entries_in_range _ _ _ Hmeas Hstd0 Hstd1 Hb) as (Hv & Hk & Hcn & Hh).
  cbn [breakdown result_of b_visual_impact b_clarity b_contrast b_color_harmony
       b_composition b_text_readability _analyze_contextual_features composition
       text_readability].
  repeat split; lra.
Qed.

(** X6. With the libraries in their ranges, the draws in their
    intervals and a predictor score between 50 and 95, every final score
    that [analyze] returns lies between 33.6 and 95.9; the cap at 100 is
    never reached: the fused score stays below 100 and the final score
    within 0.05 of it. *)
Theorem final_score_in_range (self : ThumbnailAnalyzer.t) (data : list byte)
    (name : string) (w : World) (r : AnalysisResult) :
  measurements_nonnegative -> std_nonnegative -> std_of_fractions_at_most_one ->
  draws_in_range w -> 50 <= ml_score w <= 95 ->
  pipeline self data name w = Ok r ->
  33.6 <= score r <= 95.9
  /\ exists processed b,
       _analyze_basic_features processed (kmeans_state w) = Ok b
       /\ fused b (ml_score w) (_analyze_contextual_features w) < 100
       /\ Qabs (score r - fused b (ml_score w) (_analyze_contextual_features w))
          <= 1 # 20.
Proof.
  intros Hmeas Hstd0 Hstd1 (Hc & Ht & He & _) Hml Hr.
  destruct (pipeline_result _ _ _ _ _ Hr) as (processed & b & Hb & ->).
  destruct (basic_entries_in_range _ _ _ Hmeas Hstd0 Hstd1 Hb) as (Hv & Hk & Hcn & Hh).
  cbn [score result_of]. rewrite final_score_fused.
  set (F := fused b (ml_score w) (_analyze_contextual_features w)).
  assert (HF : 33.625 <= F <= 95.875).
  { subst F. unfold fused, basic_aggregate, contextual_aggregate,
      _analyze_contextual_features.
    cbn [composition text_readability emotional_appeal]. split; lra. }
  assert (Hlt : F < 100) by lra.
  assert (Hmin : Py.min F 100 = F) by (apply min_id; lra).
  rewrite Hmin. split.
  - split.
    + change 33.6 with (Py.round1 33.625). apply round1_mono, HF.
    + change 95.9 with (Py.round1 95.875). apply round1_mono, HF.
  - exists processed, b. split; [exact Hb |]. split; [exact Hlt |].
    pose proof (round1_near F) as [Hn1 Hn2]. fold F.
    apply Qabs_Qle_condition. split; lra.
Qed.

(** X7. The suggestions of a response can be recomputed from the
    numbers of the same response: they are the messages of the rules
    that fire on its breakdown, in order, followed by the closing remark
    of its score. *)
Theorem suggestions_match_breakdown (self : ThumbnailAnalyzer.t) (data : list byte)
    (name : string) (w : World) (r : AnalysisResult) :
  pipeline self data name w = Ok r ->
  suggestions r
  = map snd (List.filter fires (breakdown_rules (breakdown r))) ++ [closing_remark (score r)].
Proof.
  intros Hr. destruct (pipeline_result _ _ _ _ _ Hr) as (processed & b & _ & ->).
  cbn [suggestions result_of breakdown score]. apply generate_suggestions_rules.
Qed.

(** X8. [analyze] fails exactly when one of four calls into the
    libraries fails: decoding the bytes, preprocessing the image,
    measuring the array or clustering its pixels.  Once these have
    returned, the fusion of the scores and the suggestions cannot fail,
    the result carries the name of the file and the statistics are
    updated. *)
Theorem analyze_fails_exactly_when (self : ThumbnailAnalyzer.t) (data : list byte)
    (name : string) (w : World) :
  (returns (analyze self data name w).1 <->
   exists image processed m labels,
     Image_open data = Ok image
     /\ ImageProcessor.preprocess (image_processor self) image = Ok processed
     /\ cv2_measurements processed = Ok m
     /\ cv2_kmeans (kmeans_state w) (concat processed) = Ok labels)
  /\ (forall r, (analyze self data name w).1 = Ok r ->
      filename r = name
      /\ analysis_timestamp r = now_isoformat w
      /\ total_analyses (analyze self data name w).2 = (total_analyses self + 1)%Z).
Proof.
  split.
  - destruct (analyze_cases self data name w) as [(r & Hr & ->) | (e & He & ->)];
      cbn [fst]; unfold pipeline in *.
    + split; [intros _ | intros _; now exists r].
      destruct (Image_open data) as [image | ?] eqn:Ho; [| discriminate].
      cbn [mbind exc_bind] in Hr.
      destruct (ImageProcessor.preprocess _ image) as [processed | ?] eqn:Hp;
        [| discriminate].
      cbn [mbind exc_bind] in Hr. unfold _analyze_basic_features in Hr.
      destruct (cv2_measurements processed) as [m | ?] eqn:Hm; [| discriminate].
      cbn [mbind exc_bind] in Hr. unfold _calculate_color_harmony in Hr.
      destruct (cv2_kmeans _ _) as [labels | ?] eqn:Hk; [| discriminate].
      now exists image, processed, m, labels.
    + split; [intros [r Hr]; discriminate |].
      intros (image & processed & m & labels & Ho & Hp & Hm & Hk).
      rewrite Ho in He. cbn [mbind exc_bind] in He. rewrite Hp in He.
      cbn [mbind exc_bind] in He. unfold _analyze_basic_features in He.
      rewrite Hm in He. cbn [mbind exc_bind] in He.
      unfold _calculate_color_harmony in He. rewrite Hk in He. discriminate.
  - intros r Hr.
    destruct (analyze_cases self data name w) as [(r' & Hp & Ha) | (e & _ & Ha)];
      rewrite Ha in *; cbn [fst snd total_analyses] in *; [| discriminate].
    injection Hr as <-. destruct (pipeline_result _ _ _ _ _ Hp) as (? & b & _ & ->).
    now repeat split.
Qed.

End ScoreRange.

(** ** The requests, one by one and in batches *)

Section Requests.
Import ThumbnailAnalyzer Main Rules.
Context `{Libraries}.

Lemma analyze_thumbnail_unfold (file : UploadFile) (w : World)
    (an : ThumbnailAnalyzer.t) :
  analyze_thumbnail file w an =
  match content_type file with
  | None =>
      (Raise (HTTPException 500
                ("Erro interno: "
                 +:+ str (Exception "'NoneType' object has no attribute 'startswith'"))),
       an)
  | Some type =>
      if String.prefix "image/" type
      then match pipeline an (contents file) (upload_filename file) w with
           | Ok r =>
               (Ok {| success := true; response_filename := upload_filename file;
                      analysis := r |},
                {| image_processor := image_processor an;
                   total_analyses := total_analyses an + 1;
                   scores_history := scores_history an ++ [score r] |})
           | Raise e => (Raise (HTTPException 500 ("Erro interno: " +:+ str e)), an)
           end
      else (Raise (HTTPException 500
                     ("Erro interno: "
                      +:+ str (HTTPException 400 "Arquivo deve ser uma imagem"))),
            an)
  end.
Proof.
  unfold analyze_thumbnail, try_except_h.
  destruct (content_type file) as [type |]; [| reflexivity].
  unfold mbind at 1, handler_bind, startswith. cbn [mret handler_ret].
  destruct (String.prefix "image/" type); cbn [negb]; [| reflexivity].
  unfold mbind, handler_bind, analyze.
  now destruct (pipeline an (contents file) (upload_filename file) w).
Qed.

(** X9. A request to [/analyze] ends in one of two ways.  Either the
    file is declared as an image and its analysis returns: the answer is
    a success carrying the name of the file and the analysis, and the
    statistics count one more analysis.  Or the request fails, always
    with the status 500 and never with a client error, whatever the
    cause (no content type, a content type that is no image, a failure
    of the analysis), and the statistics are as before. *)
Theorem analyze_thumbnail_outcomes (file : UploadFile) (w : World)
    (an : ThumbnailAnalyzer.t) :
  match analyze_thumbnail file w an with
  | (Ok response, an') =>
      is_image file = true
      /\ pipeline an (contents file) (upload_filename file) w = Ok (analysis response)
      /\ success response = true
      /\ response_filename response = upload_filename file
      /\ total_analyses an' = (total_analyses an + 1)%Z
      /\ scores_history an' = scores_history an ++ [score (analysis response)]
  | (Raise e, an') =>
      an' = an
      /\ exists cause,
           e = HTTPException 500 ("Erro interno: " +:+ str cause)
           /\ match content_type file with
              | None => cause = Exception "'NoneType' object has no attribute 'startswith'"
              | Some type =>
                  if String.prefix "image/" type
                  then pipeline an (contents file) (upload_filename file) w = Raise cause
                  else cause = HTTPException 400 "Arquivo deve ser uma imagem"
              end
  end.
Proof.
  rewrite analyze_thumbnail_unfold. unfold is_image.
  destruct (content_type file) as [type |].
  - destruct (String.prefix "image/" type).
    + destruct (pipeline an (contents file) (upload_filename file) w) as [r | e].
      * now repeat split.
      * split; [reflexivity |]. now exists e.
    + split; [reflexivity |]. now eexists.
  - split; [reflexivity |]. now eexists.
Qed.

Lemma batch_loop_app (pre rest : list (UploadFile * World)) :
  forall (acc : list BatchItem) (an : ThumbnailAnalyzer.t),
  batch_loop (pre ++ rest) acc an =
  match batch_loop pre acc an with
  | (Ok acc', an') => batch_loop rest acc' an'
  | (Raise e, an') => (Raise e, an')
  end.
Proof.
  induction pre as [| [file w] pre IH]; intros acc an; [reflexivity |].
  cbn [app batch_loop].
  destruct (content_type file) as [type |].
  - unfold mbind at 1 3, handler_bind, startswith. cbn [mret handler_ret].
    destruct (String.prefix "image/" type); cbn [negb]; [| apply IH].
    unfold mbind at 1 2, handler_bind.
    destruct (analyze an (contents file) (upload_filename file) w) as [[r | e] an1];
      [apply IH | reflexivity].
  - reflexivity.
Qed.

(** A loop that ends normally has called [analyze] on the image files,
    one after the other. *)
Lemma batch_loop_sequence (files : list (UploadFile * World)) :
  forall (acc rs : list BatchItem) (an an' : ThumbnailAnalyzer.t),
  batch_loop files acc an = (Ok rs, an') ->
  exists new,
    rs = acc ++ new
    /\ analyze_all an (calls_of (images files))
       = (map (fun item => Ok (item_analysis item)) new, an')
    /\ map item_filename new = map (fun fw => upload_filename fw.1) (images files).
Proof.
  induction files as [| [file w] files IH]; intros acc rs an an' Hloop.
  - cbn in Hloop. injection Hloop as <- <-. exists []. now rewrite app_nil_r.
  - cbn [batch_loop] in Hloop. unfold images, is_image in *. cbn [List.filter fst].
    destruct (content_type file) as [type |]; [| discriminate Hloop].
    unfold mbind at 1, handler_bind, startswith in Hloop. cbn [mret handler_ret] in Hloop.
    destruct (String.prefix "image/" type); cbn [negb] in Hloop;
      [| exact (IH _ _ _ _ Hloop)].
    unfold mbind at 1, handler_bind in Hloop. cbn [calls_of map fst snd analyze_all].
    destruct (analyze an (contents file) (upload_filename file) w) as [[r | e] an1];
      [| discriminate Hloop].
    destruct (IH _ _ _ _ Hloop) as (new & -> & Hall & Hnames).
    exists ({| item_filename := upload_filename file; item_analysis := r |} :: new).
    rewrite <- app_assoc. split; [reflexivity |].
    unfold calls_of in Hall. rewrite Hall. cbn [map item_analysis item_filename].
    now rewrite Hnames.
Qed.

Lemma batch_loop_total (files : list (UploadFile * World)) (acc rs : list BatchItem)
    (an an' : ThumbnailAnalyzer.t) :
  batch_loop files acc an = (Ok rs, an') ->
  (total_analyses an' + Z.of_nat (length acc) = total_analyses an + Z.of_nat (length rs))%Z.
Proof.
  intros Hloop. destruct (batch_loop_sequence _ _ _ _ _ Hloop) as (new & -> & Hall & Hnames).
  assert (Hok : Forall returns (analyze_all an (calls_of (images files))).1).
  { rewrite Hall. cbn [fst]. apply Forall_map, Forall_forall. intros item _.
    now eexists. }
  destruct (analyze_all_successful _ an Hok) as (Ht & _ & _).
  rewrite Hall in Ht. cbn [snd] in Ht. rewrite Ht, length_app.
  unfold calls_of. rewrite length_map.
  rewrite <- (length_map (fun fw => upload_filename fw.1)), <- Hnames, length_map. lia.
Qed.

(** X10. A batch that is answered with success has done what the same
    image files sent one by one to [analyze] do: the analyses of the
    response are the results of these calls, in order, and the
    statistics end in the same state; files that are no images leave no
    trace. *)
Theorem batch_is_sequence_of_analyses (files : list (UploadFile * World))
    (an an' : ThumbnailAnalyzer.t) (r : BatchResponse) :
  batch_analyze_thumbnails files an = (Ok r, an') ->
  analyze_all an (calls_of (images files))
  = (map (fun item => Ok (item_analysis item)) (results r), an')
  /\ map item_filename (results r) = map (fun fw => upload_filename fw.1) (images files)
  /\ total_analyzed r = length (images files)
  /\ batch_success r = true.
Proof.
  rewrite batch_analyze_unfold.
  destruct (batch_loop files [] an) as [[rs | e] an1] eqn:Hloop; [| discriminate].
  intros [= <- <-]. cbn [results total_analyzed batch_success].
  destruct (batch_loop_sequence _ _ _ _ _ Hloop) as (new & -> & Hall & Hnames).
  cbn [app]. split; [exact Hall |]. split; [exact Hnames |]. split; [| reflexivity].
  rewrite <- (length_map item_filename), Hnames. apply length_map.
Qed.

(** X11. A batch is not undone when it fails.  When the image files
    before a failing one are analysed, the request ends with the error
    500 carrying the message of the failure, the files after the failing
    one are not looked at, and the statistics keep the analyses made
    before the failure. *)
Theorem batch_failure_keeps_earlier_analyses (pre post : list (UploadFile * World))
    (file : UploadFile) (w : World) (an : ThumbnailAnalyzer.t) (e : exception) :
  Forall (fun fw => is_Some (content_type fw.1)) pre ->
  Forall (fun fw => returns (pipeline an (contents fw.1) (upload_filename fw.1) fw.2))
         (images pre) ->
  is_image file = true ->
  pipeline an (contents file) (upload_filename file) w = Raise e ->
  exists an',
    batch_analyze_thumbnails (pre ++ (file, w) :: post) an
    = (Raise (HTTPException 500 ("Erro interno: " +:+ str e)), an')
    /\ an' = (analyze_all an (calls_of (images pre))).2
    /\ total_analyses an' = (total_analyses an + Z.of_nat (length (images pre)))%Z.
Proof.
  intros Htyped Hok Hi He.
  destruct (batch_loop_all_ok pre [] an Htyped Hok) as (rs & an' & Hloop & _ & Hip & Htotal).
  exists an'. rewrite batch_analyze_unfold, batch_loop_app, Hloop.
  rewrite batch_loop_image by exact Hi.
  rewrite (analyze_raise an' _ _ _ e)
    by (rewrite <- He; apply pipeline_processor, Hip).
  split; [reflexivity |]. split; [| exact Htotal].
  destruct (batch_loop_sequence _ _ _ _ _ Hloop) as (new & _ & Hall & _).
  now rewrite Hall.
Qed.

(** X12. [/metrics] follows the answers of the other requests: it
    never fails and changes nothing, and reports the counter and the
    average of the analyzer, 0.0 without a recorded score and within
    0.05 of the mean of the recorded scores otherwise; after a request
    to [/analyze] its counter is one more than before if the request
    succeeded and the whole answer is the same as before if it failed;
    after a batch answered with success its counter has grown by
    [total_analyzed]. *)
Theorem metrics_track_responses (an : ThumbnailAnalyzer.t) :
  (exists m, get_metrics an = (Ok m, an)
             /\ metrics_total_analyses m = total_analyses an
             /\ metrics_average_score m = get_average_score an
             /\ (scores_history an = [] -> metrics_average_score m = 0.0)
             /\ (scores_history an <> [] ->
                 Qabs (metrics_average_score m - mean (scores_history an)) <= 1 # 20))
  /\ (forall file w,
        match analyze_thumbnail file w an with
        | (Ok _, an') =>
            exists m m', reported an = Ok m /\ reported an' = Ok m'
              /\ metrics_total_analyses m' = (metrics_total_analyses m + 1)%Z
        | (Raise _, an') => reported an' = reported an
        end)
  /\ (forall files r an',
        batch_analyze_thumbnails files an = (Ok r, an') ->
        exists m m', reported an = Ok m /\ reported an' = Ok m'
          /\ metrics_total_analyses m'
             = (metrics_total_analyses m + Z.of_nat (total_analyzed r))%Z).
Proof.
  split; [| split].
  - eexists. split; [reflexivity |]. split; [reflexivity |].
    split; [reflexivity |]. cbn [metrics_average_score]. split.
    + intros Hnil. unfold get_average_score. now rewrite Hnil.
    + apply average_near_mean.
  - intros file w. rewrite analyze_thumbnail_unfold.
    destruct (content_type file) as [type |]; [| reflexivity].
    destruct (String.prefix "image/" type); [| reflexivity].
    destruct (pipeline an (contents file) (upload_filename file) w) as [r | e];
      [| reflexivity].
    do 2 eexists. split; [reflexivity |]. split; reflexivity.
  - intros files r an' Hbatch. do 2 eexists.
    split; [reflexivity |]. split; [reflexivity |].
    cbn [metrics_total_analyses]. unfold get_total_analyses.
    rewrite batch_analyze_unfold in Hbatch.
    destruct (batch_loop files [] an) as [[rs | e] an1] eqn:Hloop; [| discriminate].
    injection Hbatch as <- <-. cbn [total_analyzed].
    apply batch_loop_total in Hloop. cbn [length] in Hloop. lia.
Qed.

End Requests.

(** ** The geometry of the letterbox *)

Section Letterbox.
Import ImageProcessor Rules.
Context `{Libraries}.

Lemma Qfloor_nonneg (q : Q) : 0 <= q -> (0 <= Qfloor q)%Z.
Proof. intros Hq. apply (Qfloor_resp_le 0 q) in Hq. exact Hq. Qed.

Lemma inject_Z_pos (z : Z) : (0 < z)%Z -> 0 < inject_Z z.
Proof. intros Hz. rewrite Zlt_Qlt in Hz. exact Hz. Qed.

(** The scale and the two scaled sides before truncation. *)
Lemma scale_bounds (w h tw th : Z) :
  (0 < w)%Z -> (0 < h)%Z -> (0 < tw)%Z -> (0 < th)%Z ->
  let scale := Py.min (inject_Z tw / inject_Z w) (inject_Z th / inject_Z h) in
  0 < scale
  /\ inject_Z w * scale <= inject_Z tw
  /\ inject_Z h * scale <= inject_Z th
  /\ scale <= inject_Z tw / inject_Z w
  /\ scale <= inject_Z th / inject_Z h.
Proof.
  intros Hw Hh Htw Hth. apply inject_Z_pos in Hw, Hh, Htw, Hth.
  set (W := inject_Z w) in *. set (Hq := inject_Z h) in *.
  set (TW := inject_Z tw) in *. set (TH := inject_Z th) in *.
  assert (Ha : 0 < TW / W) by (apply Qlt_shift_div_l; lra).
  assert (Hb : 0 < TH / Hq) by (apply Qlt_shift_div_l; lra).
  assert (Ea : W * (TW / W) == TW) by (apply Qmult_div_r; lra).
  assert (Eb : Hq * (TH / Hq) == TH) by (apply Qmult_div_r; lra).
  cbn zeta. set (scale := Py.min _ _).
  assert (Hsa : scale <= TW / W) by apply min_le_l.
  assert (Hsb : scale <= TH / Hq) by apply min_le_r.
  assert (Hs : 0 < scale).
  { subst scale. destruct (min_spec (TW / W) (TH / Hq)) as [[_ ->] | [_ ->]]; assumption. }
  repeat split; try assumption.
  - rewrite <- Ea. apply Qmult_le_l; assumption.
  - rewrite <- Eb. apply Qmult_le_l; assumption.
Qed.

Lemma scaled_size_eq (self : ImageProcessor.t) (w h : Z) :
  (0 < w)%Z -> (0 < h)%Z ->
  (0 < (target_size self).1)%Z -> (0 < (target_size self).2)%Z ->
  scaled_size self (w, h)
  = (Qfloor (inject_Z w * Py.min (inject_Z (target_size self).1 / inject_Z w)
                                 (inject_Z (target_size self).2 / inject_Z h)),
     Qfloor (inject_Z h * Py.min (inject_Z (target_size self).1 / inject_Z w)
                                 (inject_Z (target_size self).2 / inject_Z h))).
Proof.
  intros Hw Hh Htw Hth. unfold scaled_size.
  destruct (target_size self) as [tw th]. cbn [fst snd] in *.
  destruct (scale_bounds w h tw th Hw Hh Htw Hth) as (Hs & _).
  apply inject_Z_pos in Hw, Hh.
  rewrite !int_nonneg; [reflexivity | |]; apply Qmult_le_0_compat; lra.
Qed.

(** The scaled size fits in the target. *)
Lemma scaled_size_fits (self : ImageProcessor.t) (w h : Z) :
  (0 < w)%Z -> (0 < h)%Z ->
  (0 < (target_size self).1)%Z -> (0 < (target_size self).2)%Z ->
  (0 <= (scaled_size self (w, h)).1 <= (target_size self).1)%Z
  /\ (0 <= (scaled_size self (w, h)).2 <= (target_size self).2)%Z.
Proof.
  intros Hw Hh Htw Hth. rewrite scaled_size_eq by assumption. cbn [fst snd].
  destruct (target_size self) as [tw th]. cbn [fst snd] in *.
  destruct (scale_bounds w h tw th Hw Hh Htw Hth) as (Hs & Hfw & Hfh & _).
  cbn zeta in *. apply inject_Z_pos in Hw, Hh.
  set (scale := Py.min _ _) in *.
  repeat split.
  - apply Qfloor_nonneg, Qmult_le_0_compat; lra.
  - rewrite <- (Qfloor_Z tw). apply Qfloor_resp_le, Hfw.
  - apply Qfloor_nonneg, Qmult_le_0_compat; lra.
  - rewrite <- (Qfloor_Z th). apply Qfloor_resp_le, Hfh.
Qed.

(** An image that fits in the target is not scaled down. *)
Lemma scaled_size_no_shrink (self : ImageProcessor.t) (w h : Z) :
  (0 < w <= (target_size self).1)%Z -> (0 < h <= (target_size self).2)%Z ->
  (w <= (scaled_size self (w, h)).1)%Z /\ (h <= (scaled_size self (w, h)).2)%Z.
Proof.
  intros [Hw Hwt] [Hh Hht]. rewrite scaled_size_eq by lia. cbn [fst snd].
  destruct (target_size self) as [tw th]. cbn [fst snd] in *.
  assert (H1 : 1 <= Py.min (inject_Z tw / inject_Z w) (inject_Z th / inject_Z h)).
  { rewrite Zle_Qle in Hwt, Hht. apply inject_Z_pos in Hw, Hh.
    apply min_glb; apply Qle_shift_div_l; lra. }
  apply inject_Z_pos in Hw, Hh. set (scale := Py.min _ _) in *.
  split.
  - rewrite <- (Qfloor_Z w) at 1. apply Qfloor_resp_le. nra.
  - rewrite <- (Qfloor_Z h) at 1. apply Qfloor_resp_le. nra.
Qed.

(** A side that scales below one pixel is truncated to zero. *)
Lemma scaled_size_thin (self : ImageProcessor.t) (w h : Z) :
  (0 < w)%Z -> (0 < h)%Z ->
  (0 < (target_size self).1)%Z -> (0 < (target_size self).2)%Z ->
  ((h * (target_size self).1 < w)%Z -> (scaled_size self (w, h)).2 = 0%Z)
  /\ ((w * (target_size self).2 < h)%Z -> (scaled_size self (w, h)).1 = 0%Z).
Proof.
  intros Hw Hh Htw Hth. rewrite scaled_size_eq by assumption. cbn [fst snd].
  destruct (target_size self) as [tw th]. cbn [fst snd] in *.
  destruct (scale_bounds w h tw th Hw Hh Htw Hth) as (Hs & _ & _ & Hsa & Hsb).
  cbn zeta in *. set (scale := Py.min _ _) in *.
  assert (Hzero : forall q, 0 <= q -> q < 1 -> Qfloor q = 0%Z).
  { intros q Hq0 Hq1. pose proof (Qfloor_nonneg q Hq0) as Hlo.
    pose proof (Qfloor_le q) as Hle.
    assert (Hlt : inject_Z (Qfloor q) < inject_Z 1) by (change (inject_Z 1) with 1; lra).
    rewrite <- Zlt_Qlt in Hlt. lia. }
  split; intros Hthin; rewrite Zlt_Qlt, inject_Z_mult in Hthin;
    apply inject_Z_pos in Hw, Hh, Htw, Hth.
  - apply Hzero; [apply Qmult_le_0_compat; lra |].
    assert (Hb : inject_Z h * scale <= inject_Z h * (inject_Z tw / inject_Z w))
      by (apply Qmult_le_l; assumption).
    assert (Hc : inject_Z h * (inject_Z tw / inject_Z w) < 1).
    { assert (E : inject_Z h * (inject_Z tw / inject_Z w)
                  == (inject_Z h * inject_Z tw) / inject_Z w) by (field; lra).
      rewrite E. apply Qlt_shift_div_r; lra. }
    lra.
  - apply Hzero; [apply Qmult_le_0_compat; lra |].
    assert (Hb : inject_Z w * scale <= inject_Z w * (inject_Z th / inject_Z h))
      by (apply Qmult_le_l; assumption).
    assert (Hc : inject_Z w * (inject_Z th / inject_Z h) < 1).
    { assert (E : inject_Z w * (inject_Z th / inject_Z h)
                  == (inject_Z w * inject_Z th) / inject_Z h) by (field; lra).
      rewrite E. apply Qlt_shift_div_r; lra. }
    lra.
Qed.

(** What [_resize_with_padding] returns. *)
Lemma resize_with_padding_inv (self : ImageProcessor.t) (image : PILImage)
    (canvas : RGBImage) :
  _resize_with_padding self image = Ok canvas ->
  (size image).1 <> 0%Z /\ (size image).2 <> 0%Z
  /\ (1 <= (scaled_size self (size image)).1)%Z
  /\ (1 <= (scaled_size self (size image)).2)%Z
  /\ canvas = paste (Image_new (target_size self) black)
                    {| mode := mode image;
                       size := scaled_size self (size image);
                       load := LANCZOS image (scaled_size self (size image)) |}
                    (paste_corner self (scaled_size self (size image))).
Proof.
  unfold _resize_with_padding, scaled_size, paste_corner.
  destruct (size image) as [width height], (target_size self) as [tw th].
  cbn [fst snd].
  destruct (width =? 0)%Z eqn:Ew; [discriminate |].
  destruct (height =? 0)%Z eqn:Eh; [discriminate |]. cbn [orb].
  apply Z.eqb_neq in Ew, Eh.
  set (nw := Py.int _). set (nh := Py.int _). unfold Image_resize.
  destruct (nw <? 1)%Z eqn:Enw; [discriminate |].
  destruct (nh <? 1)%Z eqn:Enh; [discriminate |]. cbn [orb mbind exc_bind].
  apply Z.ltb_ge in Enw, Enh. intros [= <-]. now repeat split.
Qed.

(** X13. The resized image is pasted inside the canvas.  For an image
    and a target with positive sides, when [_resize_with_padding]
    returns, the canvas has the target size, the resized image has
    sides of at least one pixel and at most the sides of the target, and
    the box it is pasted into lies within the canvas, centred up to one
    pixel in each direction: nothing of the image is cropped. *)
Theorem resized_image_inside_canvas (self : ImageProcessor.t) (image : PILImage)
    (canvas : RGBImage) :
  (0 < (size image).1)%Z -> (0 < (size image).2)%Z ->
  (0 < (target_size self).1)%Z -> (0 < (target_size self).2)%Z ->
  _resize_with_padding self image = Ok canvas ->
  rgb_size canvas = target_size self
  /\ exists resized : PILImage,
       Image_resize image (scaled_size self (size image)) = Ok resized
       /\ canvas = paste (Image_new (target_size self) black) resized
                         (paste_corner self (size resized))
       /\ (1 <= (size resized).1 <= (target_size self).1)%Z
       /\ (1 <= (size resized).2 <= (target_size self).2)%Z
       /\ (0 <= (paste_corner self (size resized)).1)%Z
       /\ ((paste_corner self (size resized)).1 + (size resized).1
           <= (target_size self).1)%Z
       /\ (0 <= (paste_corner self (size resized)).2)%Z
       /\ ((paste_corner self (size resized)).2 + (size resized).2
           <= (target_size self).2)%Z
       /\ ((target_size self).1 - (size resized).1 - 1
           <= 2 * (paste_corner self (size resized)).1
           <= (target_size self).1 - (size resized).1)%Z
       /\ ((target_size self).2 - (size resized).2 - 1
           <= 2 * (paste_corner self (size resized)).2
           <= (target_size self).2 - (size resized).2)%Z.
Proof.
  intros Hw Hh Htw Hth Hc.
  split; [eapply resize_with_padding_size; exact Hc |].
  destruct (resize_with_padding_inv _ _ _ Hc) as (_ & _ & Hnw & Hnh & ->).
  destruct (size image) as [w h] eqn:Es. cbn [fst snd] in Hw, Hh.
  destruct (scaled_size_fits self w h Hw Hh Htw Hth) as [[_ Hfw] [_ Hfh]].
  exists {| mode := mode image; size := scaled_size self (w, h);
            load := LANCZOS image (scaled_size self (w, h)) |}.
  split.
  { unfold Image_resize. destruct (scaled_size self (w, h)) as [nw nh].
    cbn [fst snd] in *.
    destruct (nw <? 1)%Z eqn:Enw; [apply Z.ltb_lt in Enw; lia |].
    destruct (nh <? 1)%Z eqn:Enh; [apply Z.ltb_lt in Enh; lia |].
    reflexivity. }
  cbn [size]. split; [reflexivity |].
  unfold paste_corner. cbn [fst snd].
  destruct (scaled_size self (w, h)) as [nw nh]. cbn [fst snd] in *.
  destruct (target_size self) as [tw th]. cbn [fst snd] in *.
  repeat split; try assumption; Z.div_mod_to_equations; lia.
Qed.

(** X14. An RGB image that already fits in the target is always
    preprocessed: with sides between one pixel and the sides of the
    target no side is scaled down, the resize is accepted and
    [preprocess] returns; an image of exactly the target size keeps its
    size and is pasted at the corner of the canvas, without padding. *)
Theorem preprocess_accepts_fitting_image (self : ImageProcessor.t) (w h : Z)
    (pixels : Z -> Z -> list byte) :
  (0 < w <= (target_size self).1)%Z -> (0 < h <= (target_size self).2)%Z ->
  returns (preprocess self (rgb_image (w, h) pixels))
  /\ (w <= (scaled_size self (w, h)).1 <= (target_size self).1)%Z
  /\ (h <= (scaled_size self (w, h)).2 <= (target_size self).2)%Z
  /\ ((w, h) = target_size self ->
      scaled_size self (w, h) = (w, h)
      /\ paste_corner self (scaled_size self (w, h)) = (0, 0)%Z).
Proof.
  intros Hw Hh.
  destruct (scaled_size_no_shrink self w h Hw Hh) as [Hsw Hsh].
  destruct (scaled_size_fits self w h) as [[_ Hfw] [_ Hfh]]; try lia.
  split; [| split; [| split]].
  - apply preprocess_returns_iff; cbn [fst snd]; lia.
  - lia.
  - lia.
  - intros Et. unfold paste_corner.
    destruct (scaled_size self (w, h)) as [nw nh]. cbn [fst snd] in *.
    rewrite <- Et in *. cbn [fst snd] in *.
    assert (nw = w) as -> by lia. assert (nh = h) as -> by lia.
    split; [reflexivity |]. now rewrite !Z.sub_diag.
Qed.

(** X15. An RGB image more than [target width] times wider than high,
    or more than [target height] times higher than wide, is never
    preprocessed: its short side scales to less than one pixel, the
    resize is refused and [preprocess] raises. *)
Theorem preprocess_rejects_thin_image (self : ImageProcessor.t) (w h : Z)
    (pixels : Z -> Z -> list byte) :
  (0 < w)%Z -> (0 < h)%Z ->
  (0 < (target_size self).1)%Z -> (0 < (target_size self).2)%Z ->
  (h * (target_size self).1 < w)%Z \/ (w * (target_size self).2 < h)%Z ->
  preprocess self (rgb_image (w, h) pixels)
  = Raise (Exception "height and width must be > 0").
Proof.
  intros Hw Hh Htw Hth Hthin.
  destruct (scaled_size_thin self w h Hw Hh Htw Hth) as [Hzh Hzw].
  unfold preprocess, rgb_image. cbn [mode String.eqb Ascii.eqb Bool.eqb negb].
  unfold _resize_with_padding. cbn [size].
  unfold scaled_size in Hzh, Hzw.
  destruct (target_size self) as [tw th]. cbn [fst snd] in *.
  assert (Ew : (w =? 0)%Z = false) by (apply Z.eqb_neq; lia).
  assert (Eh : (h =? 0)%Z = false) by (apply Z.eqb_neq; lia).
  rewrite Ew, Eh. cbn [orb].
  set (nw := Py.int _) in *. set (nh := Py.int _) in *.
  unfold Image_resize.
  destruct Hthin as [Hthin | Hthin].
  - rewrite (Hzh Hthin). cbn [Z.ltb Z.compare]. rewrite orb_true_r. reflexivity.
  - rewrite (Hzw Hthin). reflexivity.
Qed.

Lemma lookup_map {A B} (f : A -> B) (l : list A) (i : nat) :
  map f l !! i = f <$> (l !! i).
Proof.
  revert i. induction l as [| x l IH]; intros [| i]; try reflexivity. apply IH.
Qed.

Lemma pixel_of_np_array (image : RGBImage) (X Y : Z) :
  (0 <= X < (rgb_size image).1)%Z -> (0 <= Y < (rgb_size image).2)%Z ->
  pixel (map (map (map normalize)) (np_array image)) X Y
  = Some (map normalize (let '(r, g, b) := rgb_load image X Y in [r; g; b])).
Proof.
  intros HX HY. unfold pixel, np_array.
  destruct (rgb_size image) as [w h]. cbn [fst snd] in *. cbn beta iota. unfold Array.
  rewrite !lookup_map, lookup_seqZ_lt by lia. cbn [fmap option_fmap option_map mbind option_bind].
  rewrite !lookup_map, lookup_seqZ_lt by lia. cbn [fmap option_fmap option_map].
  rewrite !Z.add_0_l, !Z2Nat.id by lia. reflexivity.
Qed.

Lemma normalize_black : normalize x00 == 0.
Proof. reflexivity. Qed.

(** X16. The array of an RGB image is its letterbox.  When
    [preprocess] returns, there is a box of at least one pixel in each
    direction, the size of the resized image, placed by the centring
    rule and lying within the target when the sides are positive: at
    every pixel of the box the samples are the first three bands of the
    image resampled to the size of the box, divided by 255, and at every
    other pixel of the target they are zero, the black of the
    padding. *)
Theorem preprocess_letterbox (self : ImageProcessor.t) (image_size : Z * Z)
    (pixels : Z -> Z -> list byte) (a : Array) :
  preprocess self (rgb_image image_size pixels) = Ok a ->
  exists nw nh : Z,
    (1 <= nw)%Z /\ (1 <= nh)%Z
    /\ ((0 < image_size.1)%Z -> (0 < image_size.2)%Z ->
        (0 < (target_size self).1)%Z -> (0 < (target_size self).2)%Z ->
        (nw <= (target_size self).1)%Z /\ (nh <= (target_size self).2)%Z)
    /\ forall X Y : Z,
       (0 <= X < (target_size self).1)%Z -> (0 <= Y < (target_size self).2)%Z ->
       (((paste_corner self (nw, nh)).1 <= X < (paste_corner self (nw, nh)).1 + nw)%Z ->
        ((paste_corner self (nw, nh)).2 <= Y < (paste_corner self (nw, nh)).2 + nh)%Z ->
        pixel a X Y
        = Some (map normalize
                  (let '(r, g, b) :=
                     to_rgb (LANCZOS (rgb_image image_size pixels) (nw, nh)
                               (X - (paste_corner self (nw, nh)).1)
                               (Y - (paste_corner self (nw, nh)).2))
                   in [r; g; b])))
       /\ (~ (((paste_corner self (nw, nh)).1 <= X
               < (paste_corner self (nw, nh)).1 + nw)%Z
              /\ ((paste_corner self (nw, nh)).2 <= Y
                  < (paste_corner self (nw, nh)).2 + nh)%Z) ->
           pixel a X Y = Some [normalize x00; normalize x00; normalize x00]
           /\ normalize x00 == 0).
Proof.
  intros Ha. unfold preprocess in Ha.
  cbn [rgb_image mode String.eqb Ascii.eqb Bool.eqb negb] in Ha.
  destruct (_resize_with_padding self _) as [canvas | e] eqn:Ec; [| discriminate].
  cbn [mbind exc_bind try_except] in Ha. injection Ha as <-.
  pose proof (resize_with_padding_size _ _ _ Ec) as Es.
  destruct (resize_with_padding_inv _ _ _ Ec) as (_ & _ & Hnw & Hnh & Ecanvas).
  change (size (rgb_image image_size pixels)) with image_size in *.
  assert (Hfit : (0 < image_size.1)%Z -> (0 < image_size.2)%Z ->
                 (0 < (target_size self).1)%Z -> (0 < (target_size self).2)%Z ->
                 ((scaled_size self image_size).1 <= (target_size self).1)%Z
                 /\ ((scaled_size self image_size).2 <= (target_size self).2)%Z).
  { intros Hw Hh Htw Hth. destruct image_size as [w h]. cbn [fst snd] in Hw, Hh.
    destruct (scaled_size_fits self w h Hw Hh Htw Hth) as [[_ Hfw] [_ Hfh]]. now split. }
  destruct (scaled_size self image_size) as [nw nh] eqn:Escaled. cbn [fst snd] in *.
  exists nw, nh. split; [exact Hnw |]. split; [exact Hnh |]. split; [exact Hfit |].
  intros X Y HX HY.
  rewrite pixel_of_np_array by (rewrite Es; assumption).
  rewrite Ecanvas. unfold paste. cbn [size].
  destruct (paste_corner self (nw, nh)) as [x y].
  cbn [fst snd rgb_load Image_new load].
  split.
  - intros Hx Hy.
    assert (E : ((x <=? X) && (X <? x + nw) && (y <=? Y) && (Y <? y + nh))%Z = true).
    { rewrite !andb_true_iff, !Z.leb_le, !Z.ltb_lt. lia. }
    rewrite E. reflexivity.
  - intros Hout.
    assert (E : ((x <=? X) && (X <? x + nw) && (y <=? Y) && (Y <? y + nh))%Z = false).
    { apply not_true_is_false. rewrite !andb_true_iff, !Z.leb_le, !Z.ltb_lt. lia. }
    rewrite E. split; reflexivity.
Qed.

End Letterbox.

(** ** The composition of a thumbnail *)

Section Composition.
Import ImageProcessor Rules.
Context `{Libraries}.

Lemma fold_max_ge (xs : list Q) :
  forall x, x <= fold_left Py.max xs x /\ Forall (fun y => y <= fold_left Py.max xs x) xs.
Proof.
  induction xs as [| y ys IH]; intros x; cbn [fold_left].
  - split; [lra | constructor].
  - destruct (IH (Py.max x y)) as [Hm Hall].
    assert (Hxy : x <= Py.max x y /\ y <= Py.max x y).
    { destruct (max_spec x y) as [[? ->] | [? ->]]; lra. }
    split; [lra |]. constructor; [lra | exact Hall].
Qed.

Lemma fold_max_in (xs : list Q) :
  forall x, fold_left Py.max xs x = x \/ In (fold_left Py.max xs x) xs.
Proof.
  induction xs as [| y ys IH]; intros x; cbn [fold_left]; [now left |].
  destruct (IH (Py.max x y)) as [E | Hin].
  - rewrite E. unfold Py.max. destruct (Py.ltb x y); [right; now left | now left].
  - right. now right.
Qed.

(** [max(l)] is an element of [l] that no element exceeds. *)
Lemma max_list_spec (l : list Q) (m : Q) :
  Py.max_list l = Some m -> In m l /\ Forall (fun y => y <= m) l.
Proof.
  destruct l as [| x xs]; [discriminate |]. cbn [Py.max_list]. intros [= <-].
  destruct (fold_max_ge xs x) as [Hx Hall]. split.
  - destruct (fold_max_in xs x) as [-> | Hin]; [now left | now right].
  - now constructor.
Qed.

Lemma np_min_fin (a b : Q) : Np.min (Fin a) (Fin b) = Fin (Py.min a b).
Proof. unfold Np.min, Py.min. cbn [Np.ltb]. now destruct (Py.ltb b a). Qed.

Lemma true_divide_nonzero (x y : Q) : ~ y == 0 -> Np.true_divide x y = Fin (x / y).
Proof.
  intros Hy. unfold Np.true_divide.
  destruct (Qeq_bool y 0) eqn:E; [| reflexivity].
  apply Qeq_bool_iff in E. contradiction.
Qed.

Lemma true_divide_zero_zero (x y : Q) : x == 0 -> y == 0 -> Np.true_divide x y = NaN.
Proof.
  intros Hx Hy. unfold Np.true_divide.
  assert (E : Qeq_bool y 0 = true) by (apply Qeq_bool_iff, Hy). rewrite E.
  apply Qeq_alt in Hx. now rewrite Hx.
Qed.

(** X17. On nine cells with non-negative variances
    [analyze_composition] returns the variances, the variance of the
    centre cell, and a composition score between 0 and 2.  The adherence
    to the rule of thirds lies between 0 and 1 as soon as one cell has a
    positive variance, and is not a number when every cell is flat. *)
Theorem analyze_composition_ranges (image : Array) (sections : list Q) :
  cv2_grid_variance image = Ok sections ->
  length sections = 9%nat ->
  Forall (fun v => 0 <= v) sections ->
  exists c,
    analyze_composition image = Ok c
    /\ sections_variance c = Some sections
    /\ Some (center_interest c) = sections !! 4%nat
    /\ within 0 2 (composition_score c)
    /\ (Exists (fun v => 0 < v) sections -> within 0 1 (rule_of_thirds_adherence c))
    /\ (Forall (fun v => v == 0) sections -> rule_of_thirds_adherence c = NaN).
Proof.
  intros Hgrid Hlen Hpos.
  destruct sections as [| s0 [| s1 [| s2 [| s3 [| s4 [| s5 [| s6 [| s7 [| s8 [| ]]]]]]]]]];
    try discriminate Hlen. clear Hlen.
  set (sections := [s0; s1; s2; s3; s4; s5; s6; s7; s8]) in *.
  destruct (Py.max_list sections) as [mx |] eqn:Emax; [| discriminate Emax].
  destruct (max_list_spec sections mx Emax) as [Hin Hle].
  assert (Hmx : 0 <= mx).
  { rewrite Forall_forall in Hpos. apply Hpos, list_elem_of_In, Hin. }
  unfold analyze_composition, max_. rewrite Hgrid.
  cbn [mbind exc_bind]. rewrite Emax. subst sections.
  cbn [mbind exc_bind try_except getitem lookup list_lookup].
  rewrite !Forall_cons in Hpos, Hle. cbn beta in Hpos, Hle.
  destruct Hpos as (P0 & P1 & P2 & P3 & P4 & P5 & P6 & P7 & P8 & _).
  destruct Hle as (L0 & L1 & L2 & L3 & L4 & L5 & L6 & L7 & L8 & _).
  set (thirds := (s1 + s3 + s5 + s7) / 4).
  assert (E : thirds == (s1 + s3 + s5 + s7) * (1 # 4)) by (subst thirds; field).
  clearbody thirds.
  assert (Hthirds : 0 <= thirds <= mx).
  { rewrite E. split; lra. }
  assert (Heps : 0 < 1e-6) by reflexivity.
  set (eps := 1e-6) in *. clearbody eps.
  rewrite (true_divide_nonzero thirds (s4 + eps)) by lra.
  rewrite np_min_fin.
  eexists. split; [reflexivity |]. cbn [sections_variance center_interest
    composition_score rule_of_thirds_adherence].
  split; [reflexivity |]. split; [reflexivity |]. split; [| split].
  - exists (Py.min (thirds / (s4 + eps)) 2.0). split; [reflexivity |]. split.
    + apply min_glb; [apply Qle_shift_div_l; lra | lra].
    + pose proof (min_le_r (thirds / (s4 + eps)) 2.0). lra.
  - intros Hex.
    assert (Hmxpos : 0 < mx).
    { rewrite !Exists_cons in Hex.
      destruct Hex as [? | [? | [? | [? | [? | [? | [? | [? | [? | Hex]]]]]]]]];
        [lra .. | now apply Exists_nil in Hex]. }
    rewrite true_divide_nonzero by lra.
    exists (thirds / mx). split; [reflexivity |]. split.
    + apply Qle_shift_div_l; lra.
    + apply Qle_shift_div_r; lra.
  - intros Hzero. rewrite !Forall_cons in Hzero.
    destruct Hzero as (Z0 & Z1 & Z2 & Z3 & Z4 & Z5 & Z6 & Z7 & Z8 & _).
    apply true_divide_zero_zero; [rewrite E; lra |].
    cbn [In] in Hin.
    destruct Hin as [<- | [<- | [<- | [<- | [<- | [<- | [<- | [<- | [<- | []]]]]]]]]];
      assumption.
Qed.

End Composition.

(** ** The dictionary of the features *)

Section Features.
Import ImageProcessor Rules.
Context `{Libraries}.

Lemma features_dict_lookup (s : Statistics) :
  map (fun key => features_dict s !! key) feature_keys = map Some (feature_values s).
Proof.
  unfold features_dict, feature_keys, feature_values. cbn [map].
  repeat (f_equal; [now rewrite ?lookup_insert_ne, lookup_insert_eq by discriminate |]).
  reflexivity.
Qed.

Lemma features_dict_size (s : Statistics) : base.size (features_dict s) = 11%nat.
Proof.
  unfold features_dict.
  rewrite !map_size_insert_None, map_size_empty; [reflexivity | ..];
    now rewrite ?lookup_insert_ne, lookup_empty by discriminate.
Qed.

(** X18. The dictionary of [extract_features] is all or nothing: it
    is empty when the statistics fail, and otherwise it has exactly the
    eleven keys of the features, each bound to its statistic; any other
    key is absent. *)
Theorem extract_features_keys (image : Array) (features : gmap string Q) :
  extract_features image = Ok features ->
  match cv2_statistics image with
  | Raise _ => features = ∅
  | Ok s =>
      base.size features = 11%nat
      /\ map (fun key => features !! key) feature_keys = map Some (feature_values s)
      /\ (forall key, key ∉ feature_keys -> features !! key = None)
  end.
Proof.
  rewrite extract_features_caught.
  destruct (cv2_statistics image) as [s | e]; intros [= <-]; [| reflexivity].
  split; [apply features_dict_size |]. split; [apply features_dict_lookup |].
  intros key Hkey. unfold features_dict.
  rewrite !lookup_insert_ne; [apply lookup_empty | ..];
    intros <-; apply Hkey; unfold feature_keys; set_solver.
Qed.

End Features.

(** ** The life cycle of the predictor *)

Section PredictorLifeCycle.
Import ScorePredictor Rules.
Context {model ndarray : Type} `{Keras model ndarray} `{Numerics ndarray}.

Lemma initialize_model_inv (self self' : object model) :
  _initialize_model self = Ok self' ->
  self_model_path self' = self_model_path self
  /\ (exists m, self_model self' = Some m)
  /\ (self_is_trained self' = self_is_trained self
      \/ exists path m,
           self_model_path self = Some path /\ path <> ""
           /\ os_path_exists path = true /\ load_model path = Ok m
           /\ self_model self' = Some m /\ self_is_trained self' = true).
Proof.
  unfold _initialize_model.
  assert (Hfallback :
    (m ← _create_simple_model;
     Ok {| self_model_path := self_model_path self; self_model := Some m;
           self_is_trained := self_is_trained self |}) = Ok self' ->
    self_model_path self' = self_model_path self
    /\ (exists m, self_model self' = Some m)
    /\ self_is_trained self' = self_is_trained self).
  { destruct _create_simple_model as [m | e]; [| discriminate].
    cbn [mbind exc_bind]. intros [= <-]. cbn. eauto. }
  assert (Hbase : forall r,
    try_except
      (m ← _create_base_model;
       Ok {| self_model_path := self_model_path self; self_model := Some m;
             self_is_trained := self_is_trained self |})
      (fun _ => r) = Ok self' ->
    r = Ok self' \/
    (self_model_path self' = self_model_path self
     /\ (exists m, self_model self' = Some m)
     /\ self_is_trained self' = self_is_trained self)).
  { intros r. destruct _create_base_model as [m | e]; cbn [mbind exc_bind try_except].
    - intros [= <-]. right. cbn. eauto.
    - now left. }
  destruct (self_model_path self) as [path |] eqn:Epath.
  - destruct (negb (String.eqb path "") && os_path_exists path) eqn:Econd.
    + apply andb_true_iff in Econd as [Hne Hex].
      apply negb_true_iff, String.eqb_neq in Hne.
      destruct (load_model path) as [m | e] eqn:El; cbn [mbind exc_bind try_except].
      * intros [= <-]. cbn. split; [reflexivity |]. split; [eauto |]. right.
        exists path, m. now repeat split.
      * intros Hf. destruct (Hfallback Hf) as (? & ? & ?). auto.
    + intros Hi. destruct (Hbase _ Hi) as [Hf | (? & ? & ?)]; [| auto].
      destruct (Hfallback Hf) as (? & ? & ?). auto.
  - intros Hi. destruct (Hbase _ Hi) as [Hf | (? & ? & ?)]; [| auto].
    destruct (Hfallback Hf) as (? & ? & ?). auto.
Qed.

Lemma initialize_model_raises (self : object model) (e : exception) :
  _initialize_model self = Raise e -> _create_simple_model = Raise e.
Proof.
  unfold _initialize_model.
  assert (Hfallback :
    (m ← _create_simple_model;
     Ok {| self_model_path := self_model_path self; self_model := Some m;
           self_is_trained := self_is_trained self |}) = Raise e ->
    _create_simple_model = Raise e).
  { destruct _create_simple_model as [m | e']; [discriminate | now intros [= ->]]. }
  destruct (self_model_path self) as [path |].
  - destruct (negb (String.eqb path "") && os_path_exists path).
    + destruct (load_model path); cbn [mbind exc_bind try_except];
        [discriminate | exact Hfallback].
    + destruct _create_base_model; cbn [mbind exc_bind try_except];
        [discriminate | exact Hfallback].
  - destruct _create_base_model; cbn [mbind exc_bind try_except];
      [discriminate | exact Hfallback].
Qed.

(** X19. A predictor that has been constructed has a model.  When
    [ScorePredictor(model_path)] returns, [self.model] is set, and
    [self.is_trained] is true exactly when the path is given, not empty,
    exists, and the model was loaded from it; without a path the
    predictor is never trained.  The construction raises only when the
    simple fallback model cannot be built either. *)
Theorem constructed_predictor_has_model (model_path : option string) :
  match __init__ model_path with
  | Ok self =>
      self_model_path self = model_path
      /\ (exists m, self_model self = Some m)
      /\ (self_is_trained self = true <->
          exists path m,
            model_path = Some path /\ path <> "" /\ os_path_exists path = true
            /\ load_model path = Ok m /\ self_model self = Some m)
      /\ (model_path = None -> self_is_trained self = false)
  | Raise e => _create_simple_model = Raise e
  end.
Proof.
  unfold __init__.
  destruct (_initialize_model _) as [self | e] eqn:Ei;
    [| eapply initialize_model_raises; exact Ei].
  destruct (initialize_model_inv _ _ Ei) as (Hpath & Hm & Ht). cbn in Hpath, Ht.
  split; [exact Hpath |]. split; [exact Hm |]. split; [split |].
  - intros Htrue. destruct Ht as [Ht | (path & m & ? & ? & ? & ? & ? & _)].
    + congruence.
    + exists path, m. now repeat split.
  - intros (path & m & -> & Hne & Hex & Hl & _).
    unfold _initialize_model in Ei. cbn [self_model_path] in Ei.
    apply String.eqb_neq in Hne. rewrite Hne, Hex, Hl in Ei.
    cbn [negb andb mbind exc_bind try_except] in Ei. now injection Ei as <-.
  - intros ->. destruct Ht as [Ht | (path & m & ? & _)]; [exact Ht | discriminate].
Qed.

Lemma clamp_id (lo hi q : Q) : lo < q -> q < hi -> clamp lo hi (Fin q) = Fin q.
Proof.
  intros Hlo Hhi. unfold clamp, Np.max, Np.min. cbn [Np.ltb].
  apply ltb_lt in Hhi. rewrite Hhi. cbn [Np.ltb].
  apply ltb_lt in Hlo. now rewrite Hlo.
Qed.

Lemma predict_score_untrained (self : t) (image : ndarray) (rnd : Draws) :
  model_is_None self = false -> is_trained self = false ->
  exists q,
    _calculate_heuristic_score image (uniform_m5_5 rnd) = Ok (Fin q)
    /\ 50 <= q <= 95
    /\ predict_score self image rnd = Ok (Fin (Py.round1 q))
    /\ 50 <= Py.round1 q <= 95.
Proof.
  intros Hm Ht. unfold predict_score. rewrite Hm, Ht.
  destruct (heuristic_score_bounds image (uniform_m5_5 rnd)) as (q & Hq & Hrange).
  exists q. rewrite Hq. cbn [mbind exc_bind try_except].
  fold (clamp 0 100 (Fin q)). rewrite clamp_id by lra. cbn [Np.round1].
  repeat split; try apply Hrange.
  - apply (round1_ge q 50), Hrange.
  - apply (round1_le q 95), Hrange.
Qed.

Lemma predict_score_trained (self : t) (image : ndarray) (rnd : Draws) :
  model_is_None self = false -> is_trained self = true ->
  predict_score self image rnd =
  match model_predict image with
  | Ok prediction => Ok (Np.round1 (clamp 0 100 (Np.mul prediction (Fin 100))))
  | Raise _ => _calculate_heuristic_score image (uniform_m5_5 rnd)
  end.
Proof.
  intros Hm Ht. unfold predict_score. rewrite Hm, Ht.
  now destruct (model_predict image).
Qed.

Lemma round1_within (lo hi : Z) (x : npfloat) :
  within (inject_Z lo) (inject_Z hi) x -> within (inject_Z lo) (inject_Z hi) (Np.round1 x).
Proof.
  intros (q & -> & Hq). exists (Py.round1 q). split; [reflexivity |].
  split; [apply round1_ge | apply round1_le]; apply Hq.
Qed.

(** X20. [predict_score] never raises, and what it returns depends on
    the state of the predictor.  Without a model: the draw of
    [uniform(60, 90)] as it is.  With an untrained model: the heuristic
    score rounded to one decimal, between 50 and 95.  With a trained
    model: a hundred times the prediction, clamped to [0, 100] and
    rounded, and 100 when the prediction is not a number; if the model
    fails, the heuristic score unrounded. *)
Theorem predict_score_outcomes (self : t) (image : ndarray) (rnd : Draws) :
  returns (predict_score self image rnd)
  /\ (model_is_None self = true ->
      predict_score self image rnd = Ok (Fin (uniform_60_90 rnd)))
  /\ (model_is_None self = false -> is_trained self = false ->
      exists q,
        _calculate_heuristic_score image (uniform_m5_5 rnd) = Ok (Fin q)
        /\ predict_score self image rnd = Ok (Fin (Py.round1 q))
        /\ 50 <= Py.round1 q <= 95)
  /\ (model_is_None self = false -> is_trained self = true ->
      match model_predict image with
      | Ok prediction =>
          predict_score self image rnd
          = Ok (Np.round1 (clamp 0 100 (Np.mul prediction (Fin 100))))
          /\ within 0 100 (Np.round1 (clamp 0 100 (Np.mul prediction (Fin 100))))
          /\ (prediction = NaN -> predict_score self image rnd = Ok (Fin (Py.round1 100)))
      | Raise _ =>
          predict_score self image rnd
          = _calculate_heuristic_score image (uniform_m5_5 rnd)
          /\ exists q, predict_score self image rnd = Ok (Fin q) /\ 50 <= q <= 95
      end).
Proof.
  assert (Huntrained := predict_score_untrained self image rnd).
  assert (Htrained := predict_score_trained self image rnd).
  split; [| split; [| split]].
  - destruct (model_is_None self) eqn:Em.
    { unfold predict_score. rewrite Em. now eexists. }
    destruct (is_trained self) eqn:Et.
    + rewrite Htrained by reflexivity.
      destruct (model_predict image); [now eexists |].
      destruct (heuristic_score_bounds image (uniform_m5_5 rnd)) as (q & -> & _).
      now eexists.
    + destruct Huntrained as (q & _ & _ & -> & _); [reflexivity .. | now eexists].
  - intros Em. unfold predict_score. now rewrite Em.
  - intros Em Et. destruct (Huntrained Em Et) as (q & Hh & _ & Hp & Hr). now exists q.
  - intros Em Et. rewrite (Htrained Em Et).
    destruct (model_predict image) as [prediction | e].
    + split; [reflexivity |]. split.
      * apply (round1_within 0 100), clamp_within. lra.
      * intros ->. reflexivity.
    + split; [reflexivity |]. apply heuristic_score_bounds.
Qed.

(** X21. The score of a constructed predictor needs no assumption on
    the random draws: for a predictor that [ScorePredictor(model_path)]
    returned, [predict_score] returns a finite score between 0 and 100,
    and between 50 and 95 whenever the predictor is not trained, as is
    every predictor constructed without a path. *)
Theorem constructed_predictor_score (model_path : option string) (self : object model)
    (image : ndarray) (rnd : Draws) :
  __init__ model_path = Ok self ->
  exists q,
    predict_score (attributes self) image rnd = Ok (Fin q)
    /\ 0 <= q <= 100
    /\ (self_is_trained self = false -> 50 <= q <= 95)
    /\ (model_path = None -> self_is_trained self = false).
Proof.
  unfold __init__. intros Hi.
  destruct (initialize_model_inv _ _ Hi) as (_ & (m & Hm) & Ht). cbn in Ht.
  assert (Enone : model_is_None (attributes self) = false)
    by (unfold attributes; now rewrite Hm).
  assert (Hpath : model_path = None -> self_is_trained self = false).
  { intros ->. destruct Ht as [Ht | (path & ? & ? & _)]; [exact Ht | discriminate]. }
  destruct (self_is_trained self) eqn:Et.
  - rewrite (predict_score_trained _ image rnd Enone) by exact Et.
    destruct (model_predict image) as [prediction | e].
    + destruct (round1_within 0 100 (clamp 0 100 (Np.mul prediction (Fin 100))))
        as (q & Hq & Hrange); [apply clamp_within; lra |].
      exists q. rewrite Hq. split; [reflexivity |]. split; [exact Hrange |].
      split; [discriminate | exact Hpath].
    + destruct (heuristic_score_bounds image (uniform_m5_5 rnd)) as (q & -> & Hq).
      exists q. split; [reflexivity |]. split; [lra |].
      split; [discriminate | exact Hpath].
  - destruct (predict_score_untrained _ image rnd Enone) as (q & _ & _ & -> & Hr);
      [exact Et |].
    exists (Py.round1 q). split; [reflexivity |]. split; [lra |].
    split; [intros _; exact Hr | exact Hpath].
Qed.

(** What [train_model] hands to [fit]. *)
Lemma train_model_unfold (self : object model) (training_data : TrainingData ndarray) :
  train_model self training_data =
  match ScorePredictor.images training_data, ScorePredictor.scores training_data with
  | Some images, Some scores =>
      match np_array images, self_model self with
      | Ok images, Some m =>
          let split_idx := Z.to_nat (Py.int (Py.len images * 0.8)) in
          let args :=
            {| fit_x := take split_idx images;
               fit_y := take split_idx (map (fun s => s / 100.0) scores);
               validation_data :=
                 (drop split_idx images, drop split_idx (map (fun s => s / 100.0) scores));
               epochs := 50; batch_size := 32; verbose := 1;
               callbacks := [EarlyStopping 5 true; ReduceLROnPlateau 3] |} in
          match fit m args with
          | (Ok _, m') =>
              (true, {| self_model_path := self_model_path self;
                        self_model := Some m';
                        self_is_trained := true |})
          | (Raise _, m') =>
              (false, {| self_model_path := self_model_path self;
                         self_model := Some m';
                         self_is_trained := self_is_trained self |})
          end
      | _, _ => (false, self)
      end
  | _, _ => (false, self)
  end.
Proof.
  unfold train_model.
  destruct (ScorePredictor.images training_data) as [images |]; [| reflexivity].
  destruct (ScorePredictor.scores training_data) as [scores |]; [| reflexivity].
  destruct (np_array images) as [batch | e]; [| reflexivity].
  destruct (self_model self) as [m |]; [| reflexivity].
  cbn zeta. now destruct (fit m _) as [[[] | e] m'].
Qed.

(** X22. [train_model] never raises and answers [True] only after
    [model.fit] has returned.  The path of the model is never changed;
    [is_trained] becomes true when the answer is [True] and is otherwise
    left as it was; a predictor with a model keeps a model.  When the
    key ['images'] or the key ['scores'] is missing, or the predictor has
    no model, the answer is [False] and the predictor is unchanged. *)
Theorem train_model_outcome (self : object model) (training_data : TrainingData ndarray) :
  self_model_path (train_model self training_data).2 = self_model_path self
  /\ self_is_trained (train_model self training_data).2
     = self_is_trained self || (train_model self training_data).1
  /\ (is_Some (self_model (train_model self training_data).2)
      <-> is_Some (self_model self))
  /\ ((train_model self training_data).1 = true ->
      exists images scores m args m',
        ScorePredictor.images training_data = Some images
        /\ ScorePredictor.scores training_data = Some scores
        /\ self_model self = Some m
        /\ fit m args = (Ok tt, m')
        /\ self_model (train_model self training_data).2 = Some m')
  /\ (ScorePredictor.images training_data = None
      \/ ScorePredictor.scores training_data = None
      \/ self_model self = None ->
      train_model self training_data = (false, self)).
Proof.
  rewrite train_model_unfold.
  assert (Huntouched :
    self_model_path (false, self).2 = self_model_path self
    /\ self_is_trained (false, self).2 = self_is_trained self || (false, self).1
    /\ (is_Some (self_model (false, self).2) <-> is_Some (self_model self))
    /\ ((false, self).1 = true ->
        exists images scores m args m',
          ScorePredictor.images training_data = Some images
          /\ ScorePredictor.scores training_data = Some scores
          /\ self_model self = Some m
          /\ fit m args = (Ok tt, m')
          /\ self_model (false, self).2 = Some m')).
  { cbn [fst snd]. rewrite orb_false_r. repeat split; try tauto. discriminate. }
  destruct (ScorePredictor.images training_data) as [images |];
    [| split_and!; try apply Huntouched; reflexivity].
  destruct (ScorePredictor.scores training_data) as [scores |];
    [| split_and!; try apply Huntouched; reflexivity].
  destruct (np_array images) as [batch | e0];
    [| split_and!; try apply Huntouched;
       intros [? | [? | Hnone]]; [discriminate | discriminate | reflexivity]].
  destruct (self_model self) as [m |] eqn:Em;
    [| split_and!; try apply Huntouched; reflexivity].
  clear Huntouched.
  cbn zeta. destruct (fit m _) as [[[] | e] m'] eqn:Efit; cbn [fst snd self_model_path
    self_is_trained self_model].
  - split; [reflexivity |]. split; [now rewrite orb_true_r |].
    split; [split; intros _; eauto |]. split.
    + intros _. do 5 eexists. repeat split. exact Efit.
    + intros [? | [? | ?]]; discriminate.
  - split; [reflexivity |]. split; [now rewrite orb_false_r |].
    split; [split; intros _; eauto |]. split; [discriminate |].
    intros [? | [? | ?]]; discriminate.
Qed.

Lemma split_index (n : nat) :
  (5 * Z.to_nat (Py.int (inject_Z (Z.of_nat n) * 0.8)) <= 4 * n
   < 5 * Z.to_nat (Py.int (inject_Z (Z.of_nat n) * 0.8)) + 5)%nat.
Proof.
  assert (Hn : 0 <= inject_Z (Z.of_nat n)).
  { change 0 with (inject_Z 0). rewrite <- Zle_Qle. lia. }
  rewrite int_nonneg by lra.
  assert (E : inject_Z (Z.of_nat n) * 0.8 == inject_Z (4 * Z.of_nat n) / inject_Z 5).
  { rewrite inject_Z_mult. change (inject_Z 4) with 4. change (inject_Z 5) with 5.
    field. }
  rewrite (Qfloor_comp _ _ E), <- Zdiv_Qdiv.
  assert (Hdiv : (0 <= 4 * Z.of_nat n / 5)%Z) by (apply Z.div_pos; lia).
  pose proof (Z.div_mod (4 * Z.of_nat n) 5 ltac:(lia)) as Hdm.
  pose proof (Z.mod_pos_bound (4 * Z.of_nat n) 5 ltac:(lia)) as Hmod.
  lia.
Qed.

(** X23. The training data is split in order, four fifths for the
    training.  With both keys present and a model in the predictor:
    when [np.array] refuses the images, [train_model] answers [False]
    without a call of [model.fit] and leaves the predictor as it was;
    when it returns a batch of [n] rows, [model.fit] is called once, on
    the first [int(0.8 n)] rows with the scores divided by 100 and with
    the remaining rows as validation data; each row is used once, the
    validation set is not empty unless the batch is, a score between 0
    and 100 becomes a target between 0 and 1, and the answer is [True]
    exactly when the call returns. *)
Theorem training_split (self : object model) (training_data : TrainingData ndarray)
    (images : list ndarray) (scores : list Q) (m : model) :
  ScorePredictor.images training_data = Some images ->
  ScorePredictor.scores training_data = Some scores ->
  self_model self = Some m ->
  (raises (np_array images) -> train_model self training_data = (false, self))
  /\ (forall batch, np_array images = Ok batch ->
      exists args,
        ((train_model self training_data).1 = true <-> returns (fit m args).1)
        /\ self_model (train_model self training_data).2 = Some (fit m args).2
        /\ fit_x args ++ (validation_data args).1 = batch
        /\ fit_y args ++ (validation_data args).2 = map (fun s => s / 100.0) scores
        /\ (5 * length (fit_x args) <= 4 * length batch < 5 * length (fit_x args) + 5)%nat
        /\ (length scores = length batch ->
            length (fit_y args) = length (fit_x args)
            /\ length (validation_data args).2 = length (validation_data args).1)
        /\ (batch <> [] -> (validation_data args).1 <> [])
        /\ (Forall (fun s => 0 <= s <= 100) scores ->
            Forall (fun s => 0 <= s <= 1) (fit_y args ++ (validation_data args).2))).
Proof.
  intros Hi Hs Hm. rewrite train_model_unfold, Hi, Hs, Hm. split.
  { intros [e ->]. reflexivity. }
  intros batch ->. cbn zeta.
  set (k := Z.to_nat (Py.int (Py.len batch * 0.8))).
  pose proof (split_index (length batch)) as Hk. fold (Py.len batch) in Hk. fold k in Hk.
  match goal with |- context [fit m ?a] => set (args := a) end.
  exists args. split; [| split; [| split; [| split; [| split; [| split; [| split]]]]]].
  - destruct (fit m args) as [[[] | e] m']; cbn [fst snd]; split;
      [now eexists | reflexivity | discriminate | intros [? ?]; discriminate].
  - now destruct (fit m args) as [[[] | e] m'].
  - apply take_drop.
  - apply take_drop.
  - cbn [args fit_x]. rewrite length_take. lia.
  - intros Hlen. cbn [args fit_x fit_y validation_data fst snd].
    rewrite !length_take, !length_drop, length_map. lia.
  - intros Hne Hnil. cbn [args validation_data fst] in Hnil.
    apply (f_equal length) in Hnil. rewrite length_drop in Hnil. cbn [length] in Hnil.
    destruct batch; [congruence | cbn [length] in *; lia].
  - intros Hrange. cbn [args fit_y validation_data snd]. rewrite take_drop.
    apply Forall_map. eapply Forall_impl; [exact Hrange |].
    intros s0 [Hlo Hhi]. cbn beta.
    assert (E : s0 / 100.0 == s0 * (1 # 100)) by field. rewrite E. split; lra.
Qed.

(** X24. The status that [get_model_info] reports follows the life of
    the predictor.  The dictionary has the single key ["status"] with
    ["not_initialized"] when there is no model, and otherwise five keys
    with the status ["trained"] or ["not_trained"] according to
    [is_trained]; for a predictor that has been constructed the status
    is never ["not_initialized"], and after [train_model] has answered
    [True] it is ["trained"]. *)
Theorem model_info_status (self : object model) (info : gmap string value) :
  get_model_info self = Ok info ->
  info !! "status"
  = Some (VStr (match self_model self with
                | None => "not_initialized"
                | Some _ => if self_is_trained self then "trained" else "not_trained"
                end))
  /\ base.size info = (match self_model self with None => 1 | Some _ => 5 end)%nat
  /\ (forall model_path, __init__ model_path = Ok self ->
      info !! "status" <> Some (VStr "not_initialized"))
  /\ (forall before training_data, train_model before training_data = (true, self) ->
      info !! "status" = Some (VStr "trained")).
Proof.
  intros Hinfo.
  assert (Hstatus : info !! "status"
    = Some (VStr (match self_model self with
                  | None => "not_initialized"
                  | Some _ => if self_is_trained self then "trained" else "not_trained"
                  end))
    /\ base.size info = (match self_model self with None => 1 | Some _ => 5 end)%nat).
  { unfold get_model_info in Hinfo. destruct (self_model self) as [m |].
    - destruct (count_params m); [| discriminate].
      destruct (model_input_shape m); [| discriminate].
      destruct (model_output_shape m); [| discriminate].
      cbn [mbind exc_bind] in Hinfo. injection Hinfo as <-. split.
      + now rewrite !lookup_insert_ne, lookup_singleton_eq by discriminate.
      + rewrite !map_size_insert_None, map_size_singleton; [reflexivity | ..];
          now rewrite ?lookup_insert_ne, lookup_singleton_ne by discriminate.
    - injection Hinfo as <-. split; [apply lookup_singleton_eq | apply map_size_singleton]. }
  destruct Hstatus as [Hstatus Hsize]. split; [exact Hstatus |]. split; [exact Hsize |].
  split.
  - intros model_path Hi. unfold __init__ in Hi.
    destruct (initialize_model_inv _ _ Hi) as (_ & (m & Hm) & _).
    rewrite Hstatus, Hm. now destruct (self_is_trained self).
  - intros before training_data Ht.
    pose proof (train_model_unfold before training_data) as Hu. rewrite Ht in Hu.
    destruct (ScorePredictor.images training_data) as [images |]; [| discriminate].
    destruct (ScorePredictor.scores training_data); [| discriminate].
    destruct (np_array images); [| discriminate].
    destruct (self_model before); [| discriminate]. cbn zeta in Hu.
    destruct (fit _ _) as [[[] | e] m']; [| discriminate].
    injection Hu as ->. rewrite Hstatus. reflexivity.
Qed.

End PredictorLifeCycle.

(** ** The jitter of the heuristic and the average of the scores *)

Section Variation.
Import ScorePredictor ThumbnailAnalyzer Rules.

Lemma np_max_fin (a b : Q) : Np.max (Fin a) (Fin b) = Fin (Py.max a b).
Proof. unfold Np.max, Py.max. cbn [Np.ltb]. now destruct (Py.ltb a b). Qed.

Lemma clamp_fin (lo hi x : Q) : clamp lo hi (Fin x) = Fin (Py.max lo (Py.min hi x)).
Proof. unfold clamp. now rewrite np_min_fin, np_max_fin. Qed.

Lemma min_cases (a b : Q) : (b < a /\ Py.min a b == b) \/ (a <= b /\ Py.min a b == a).
Proof. destruct (min_spec a b) as [[? ->] | [? ->]]; [left | right]; now split. Qed.

Lemma max_cases (a b : Q) : (a < b /\ Py.max a b == b) \/ (b <= a /\ Py.max a b == a).
Proof. destruct (max_spec a b) as [[? ->] | [? ->]]; [left | right]; now split. Qed.

Lemma clamp_lipschitz (lo hi x x' : Q) :
  Qabs (Py.max lo (Py.min hi x) - Py.max lo (Py.min hi x')) <= Qabs (x - x').
Proof.
  apply Qabs_Qle_condition.
  assert (Habs : x - x' <= Qabs (x - x') /\ x' - x <= Qabs (x - x')).
  { split; [apply Qle_Qabs |].
    assert (E : x' - x == - (x - x')) by ring. rewrite E, <- Qabs_opp. apply Qle_Qabs. }
  destruct Habs as [Ha Hb]. set (d := Qabs (x - x')) in *. clearbody d.
  pose proof (min_cases hi x) as Hm. pose proof (min_cases hi x') as Hm'.
  set (m := Py.min hi x) in *. set (m' := Py.min hi x') in *. clearbody m m'.
  pose proof (max_cases lo m) as HM. pose proof (max_cases lo m') as HM'.
  set (M := Py.max lo m) in *. set (M' := Py.max lo m') in *. clearbody M M'.
  destruct Hm as [[? ?] | [? ?]], Hm' as [[? ?] | [? ?]],
    HM as [[? ?] | [? ?]], HM' as [[? ?] | [? ?]]; split; lra.
Qed.

Context {ndarray : Type} `{Numerics ndarray}.

(** X25. The jitter moves the heuristic score by no more than itself:
    on the same image, the scores of two calls differ by at most the
    difference of their jitters, hence by at most 10 for jitters drawn
    from [uniform(-5, 5)]. *)
Theorem heuristic_jitter_bounded (image : ndarray) (jitter jitter' : Q) :
  exists q q',
    _calculate_heuristic_score image jitter = Ok (Fin q)
    /\ _calculate_heuristic_score image jitter' = Ok (Fin q')
    /\ Qabs (q - q') <= Qabs (jitter - jitter')
    /\ (-5 <= jitter <= 5 -> -5 <= jitter' <= 5 -> Qabs (q - q') <= 10).
Proof.
  rewrite !heuristic_score_clamped.
  assert (Hzero : forall q : Q, Qabs (q - q) <= Qabs (jitter - jitter')).
  { intros q. assert (E : q - q == 0) by ring. rewrite E. apply Qabs_nonneg. }
  assert (Hten : forall d, d <= Qabs (jitter - jitter') ->
            -5 <= jitter <= 5 -> -5 <= jitter' <= 5 -> d <= 10).
  { intros d Hd Hj Hj'.
    assert (Qabs (jitter - jitter') <= 10) by (apply Qabs_Qle_condition; split; lra).
    lra. }
  destruct (heuristic_statistics image) as [s | e].
  - destruct (heuristic_sum s) as [x | | |]; cbn [Np.add].
    + rewrite !clamp_fin. do 2 eexists. split; [reflexivity |]. split; [reflexivity |].
      assert (Hl : Qabs (Py.max 50 (Py.min 95 (x + jitter))
                         - Py.max 50 (Py.min 95 (x + jitter')))
                   <= Qabs (jitter - jitter')).
      { assert (E : jitter - jitter' == (x + jitter) - (x + jitter')) by ring.
        rewrite E. apply clamp_lipschitz. }
      split; [exact Hl | now apply Hten].
    + do 2 eexists. split; [reflexivity |]. split; [reflexivity |].
      split; [apply Hzero | apply Hten, Hzero].
    + do 2 eexists. split; [reflexivity |]. split; [reflexivity |].
      split; [apply Hzero | apply Hten, Hzero].
    + do 2 eexists. split; [reflexivity |]. split; [reflexivity |].
      split; [apply Hzero | apply Hten, Hzero].
  - do 2 eexists. split; [reflexivity |]. split; [reflexivity |].
    split; [apply Hzero | apply Hten, Hzero].
Qed.

(** X26. The reported average stays within the recorded scores: when
    every score of a history that is not empty lies between [lo] and
    [hi], the average lies between [lo] and [hi] rounded to one
    decimal. *)
Theorem average_between_scores (self : ThumbnailAnalyzer.t) (lo hi : Q) :
  scores_history self <> [] ->
  Forall (fun s => lo <= s <= hi) (scores_history self) ->
  Py.round1 lo <= get_average_score self <= Py.round1 hi.
Proof.
  intros Hne Hall. rewrite get_average_score_rounded_mean. unfold rounded_mean.
  destruct (scores_history self) as [| s0 history] eqn:Eh; [congruence |].
  destruct (mean_bounds lo hi (s0 :: history) Hne Hall) as [Hlo Hhi].
  split; apply round1_mono; assumption.
Qed.

End Variation.

(** ** The further properties on the stand-in libraries *)

Lemma demo_std_nonnegative : @Rules.std_nonnegative Demo.demo_libraries.
Proof.
  intros l. cbn [np_std Demo.demo_libraries Demo.libraries]. unfold Demo.std, Demo.sqrt6.
  pose proof (Z.sqrt_nonneg (Qfloor (Demo.var l * 1000000000000))) as Hs.
  unfold Qle. cbn [Qnum Qden]. lia.
Qed.

Lemma demo_draws_in_range (ml : Q) : Rules.draws_in_range (Demo.world ml).
Proof. unfold Rules.draws_in_range. cbn. lra. Qed.

(** A flat thumbnail at level 0 against the gray one, and a predictor
    score of 70 against 75. *)
Lemma final_score_monotone_witness :
  ThumbnailAnalyzer._calculate_final_score (Demo.level_basic 0) 70 Demo.contextual
  <= ThumbnailAnalyzer._calculate_final_score Demo.gray_basic 75 Demo.contextual.
Proof. apply final_score_monotone; vm_compute; discriminate. Defined.

(** Every component at 80. *)
Lemma final_score_weighted_average_witness :
  Qabs (ThumbnailAnalyzer._calculate_final_score (Demo.level_basic 80) 80
          (Demo.level_contextual 80) - Py.min 80 100) <= 1 # 20.
Proof.
  refine (proj2 (final_score_weighted_average (Demo.level_basic 80) 80
                   (Demo.level_contextual 80) 80 80 _ _ _ _ _ _ _ _) _);
    vm_compute; try split; discriminate.
Defined.

(** The draws at the middle and at the lower end of their intervals. *)
Lemma contextual_draws_move_score_witness :
  Rules.draws_in_range (Demo.world 75) /\ Rules.draws_in_range (Demo.world_low 75)
  /\ Qabs (ThumbnailAnalyzer._calculate_final_score Demo.gray_basic 75
             (ThumbnailAnalyzer._analyze_contextual_features (Demo.world 75))
           - ThumbnailAnalyzer._calculate_final_score Demo.gray_basic 75
               (ThumbnailAnalyzer._analyze_contextual_features (Demo.world_low 75)))
     <= 6.6.
Proof.
  assert (H1 : Rules.draws_in_range (Demo.world 75)) by apply demo_draws_in_range.
  assert (H2 : Rules.draws_in_range (Demo.world_low 75))
    by (unfold Rules.draws_in_range; cbn; lra).
  split; [exact H1 |]. split; [exact H2 |].
  exact (contextual_draws_move_score Demo.gray_basic 75 _ _ H1 H2).
Defined.

(** The harmony of the checkerboard. *)
Lemma color_harmony_of_distribution_witness :
  exists h labels,
    @ThumbnailAnalyzer._calculate_color_harmony Demo.demo_libraries
       Demo.checkerboard_array 0 = Ok h
    /\ @cv2_kmeans Demo.demo_libraries 0 (concat Demo.checkerboard_array) = Ok labels
    /\ h = (1 - @np_std Demo.demo_libraries (Rules.color_distribution labels)) * 100
    /\ length (Rules.color_distribution labels) = length (remove_dups labels).
Proof.
  destruct (@color_harmony_of_distribution Demo.demo_libraries Demo.checkerboard_array 0
              _ eq_refl) as (labels & Hk & Hh & Hl & _).
  eexists. exists labels. split; [reflexivity |]. split; [exact Hk |].
  split; [exact Hh | exact Hl].
Defined.

(** The breakdown of the analysis of the 2 x 2 image. *)
Lemma breakdown_in_range_witness :
  @ThumbnailAnalyzer.pipeline Demo.demo_libraries ThumbnailAnalyzer.__init__
     Demo.png_2x2 "a.png" (Demo.world 75)
  = Ok (Rules.result_of Demo.basic_224 "a.png" (Demo.world 75))
  /\ 0 <= ThumbnailAnalyzer.b_color_harmony
            (ThumbnailAnalyzer.breakdown
               (Rules.result_of Demo.basic_224 "a.png" (Demo.world 75))) <= 100.
Proof.
  assert (Hr := demo_pipeline ThumbnailAnalyzer.__init__ "a.png" 75 eq_refl).
  split; [exact Hr |].
  exact (proj1 (proj2 (proj2 (proj2
           (@breakdown_in_range Demo.demo_libraries _ _ _ _ _
              demo_measurements_nonnegative demo_std_nonnegative demo_std_of_fractions
              (demo_draws_in_range 75) Hr))))).
Defined.

(** The score of the analysis of the 2 x 2 image. *)
Lemma final_score_in_range_witness :
  33.6 <= ThumbnailAnalyzer.score (Rules.result_of Demo.basic_224 "a.png" (Demo.world 75))
       <= 95.9.
Proof.
  assert (Hr := demo_pipeline ThumbnailAnalyzer.__init__ "a.png" 75 eq_refl).
  assert (Hml : 50 <= ThumbnailAnalyzer.ml_score (Demo.world 75) <= 95) by (cbn; lra).
  exact (proj1 (@final_score_in_range Demo.demo_libraries _ _ _ _ _
                  demo_measurements_nonnegative demo_std_nonnegative demo_std_of_fractions
                  (demo_draws_in_range 75) Hml Hr)).
Defined.

(** The suggestions of the analysis of the 2 x 2 image. *)
Lemma suggestions_match_breakdown_witness :
  ThumbnailAnalyzer.suggestions (Rules.result_of Demo.basic_224 "a.png" (Demo.world 75))
  = map snd (List.filter Rules.fires
               (Rules.breakdown_rules
                  (ThumbnailAnalyzer.breakdown
                     (Rules.result_of Demo.basic_224 "a.png" (Demo.world 75)))))
    ++ [Rules.closing_remark
          (ThumbnailAnalyzer.score (Rules.result_of Demo.basic_224 "a.png" (Demo.world 75)))].
Proof.
  exact (@suggestions_match_breakdown Demo.demo_libraries _ _ _ _ _
           (demo_pipeline ThumbnailAnalyzer.__init__ "a.png" 75 eq_refl)).
Defined.

Lemma demo_batch_with_text :
  exists r an',
    @Main.batch_analyze_thumbnails Demo.demo_libraries Demo.batch_with_text
       ThumbnailAnalyzer.__init__ = (Ok r, an').
Proof.
  assert (Htyped : Forall (fun fw => is_Some (Main.content_type fw.1)) Demo.batch_with_text)
    by (repeat constructor; eexists; reflexivity).
  destruct (@batch_loop_all_ok Demo.demo_libraries Demo.batch_with_text []
              ThumbnailAnalyzer.__init__ Htyped) as (rs & an' & Hloop & _).
  { repeat constructor; eexists; apply demo_pipeline; reflexivity. }
  do 2 eexists. rewrite batch_analyze_unfold, Hloop. reflexivity.
Qed.

(** The batch of three files of which the second is declared as text. *)
Lemma batch_is_sequence_of_analyses_witness :
  exists r an',
    @Main.batch_analyze_thumbnails Demo.demo_libraries Demo.batch_with_text
       ThumbnailAnalyzer.__init__ = (Ok r, an')
    /\ @Rules.analyze_all Demo.demo_libraries ThumbnailAnalyzer.__init__
         (Rules.calls_of (Rules.images Demo.batch_with_text))
       = (map (fun item => Ok (Main.item_analysis item)) (Main.results r), an')
    /\ Main.total_analyzed r = 2%nat.
Proof.
  destruct demo_batch_with_text as (r & an' & Hb).
  exists r, an'. split; [exact Hb |].
  destruct (@batch_is_sequence_of_analyses Demo.demo_libraries _ _ _ _ Hb)
    as (Hall & _ & Hn & _).
  split; [exact Hall | exact Hn].
Defined.

(** The batch of three image files of which the second cannot be
    decoded. *)
Lemma batch_failure_keeps_earlier_analyses_witness :
  exists an',
    @Main.batch_analyze_thumbnails Demo.demo_libraries Demo.batch_with_corrupt
       ThumbnailAnalyzer.__init__
    = (Raise (HTTPException 500 "Erro interno: cannot identify image file"), an')
    /\ ThumbnailAnalyzer.total_analyses an' = 1%Z.
Proof.
  destruct (@batch_failure_keeps_earlier_analyses Demo.demo_libraries
              [(Demo.upload "a.png" "image/png" Demo.png_2x2, Demo.world 75)]
              [(Demo.upload "c.png" "image/png" Demo.png_2x2, Demo.world 75)]
              (Demo.upload "b.png" "image/png" Demo.garbage) (Demo.world 75)
              ThumbnailAnalyzer.__init__ (Exception "cannot identify image file"))
    as (an' & Hb & _ & Ht).
  - repeat constructor. eexists. reflexivity.
  - repeat constructor. eexists. apply demo_pipeline. reflexivity.
  - reflexivity.
  - reflexivity.
  - exists an'. split; [exact Hb | exact Ht].
Defined.

(** An image of 2 x 1 pixels in a target of 4 x 4: resized to 4 x 2 and
    pasted one row below the top. *)
Lemma resized_image_inside_canvas_witness :
  exists canvas,
    @ImageProcessor._resize_with_padding Demo.demo_libraries Demo.small_processor
       Demo.wide_image = Ok canvas
    /\ ImageProcessor.rgb_size canvas = (4, 4)%Z
    /\ Rules.scaled_size Demo.small_processor (2, 1)%Z = (4, 2)%Z
    /\ Rules.paste_corner Demo.small_processor (4, 2)%Z = (0, 1)%Z.
Proof.
  eexists. split; [reflexivity |].
  split; [| split; reflexivity].
  refine (proj1 (@resized_image_inside_canvas Demo.demo_libraries Demo.small_processor
                   Demo.wide_image _ _ _ _ _ eq_refl)); reflexivity.
Defined.

Lemma preprocess_accepts_fitting_image_witness :
  returns (@ImageProcessor.preprocess Demo.demo_libraries Demo.small_processor
             (Rules.rgb_image (2, 1)%Z Demo.orange)).
Proof.
  refine (proj1 (@preprocess_accepts_fitting_image Demo.demo_libraries Demo.small_processor
                   2 1 Demo.orange _ _)); cbn; lia.
Defined.

(** An image of 1 x 500 pixels with the default target. *)
Lemma preprocess_rejects_thin_image_witness :
  @ImageProcessor.preprocess Demo.demo_libraries ImageProcessor.__init__
     (Rules.rgb_image (1, 500)%Z Demo.orange)
  = Raise (Exception "height and width must be > 0").
Proof.
  apply (@preprocess_rejects_thin_image Demo.demo_libraries ImageProcessor.__init__ 1 500);
    cbn; lia.
Defined.

(** The letterbox of the image of 2 x 1 pixels in a target of 4 x 4. *)
Lemma preprocess_letterbox_witness :
  exists (a : Array) (nw nh : Z),
    @ImageProcessor.preprocess Demo.demo_libraries Demo.small_processor Demo.wide_image
    = Ok a
    /\ (1 <= nw <= 4)%Z /\ (1 <= nh <= 4)%Z.
Proof.
  eexists.
  destruct (@preprocess_letterbox Demo.demo_libraries Demo.small_processor
              (2, 1)%Z Demo.orange _ eq_refl) as (nw & nh & Hnw & Hnh & Hfit & _).
  exists nw, nh. split; [reflexivity |].
  destruct Hfit as [Hw Hh]; cbn in *; lia.
Defined.

(** The composition of the ramp. *)
Lemma analyze_composition_ranges_witness :
  @cv2_grid_variance Demo.feature_libraries Demo.ramp = Ok Demo.ramp_sections
  /\ length Demo.ramp_sections = 9%nat
  /\ exists c,
       @ImageProcessor.analyze_composition Demo.feature_libraries Demo.ramp = Ok c
       /\ Rules.within 0 2 (ImageProcessor.composition_score c).
Proof.
  assert (Hg : @cv2_grid_variance Demo.feature_libraries Demo.ramp
               = Ok Demo.ramp_sections) by (vm_compute; reflexivity).
  assert (Hp : Forall (fun v => 0 <= v) Demo.ramp_sections)
    by (repeat constructor; vm_compute; discriminate).
  split; [exact Hg |]. split; [reflexivity |].
  destruct (@analyze_composition_ranges Demo.feature_libraries Demo.ramp
              Demo.ramp_sections Hg eq_refl Hp) as (c & Hc & _ & _ & Hs & _).
  exists c. split; [exact Hc | exact Hs].
Defined.

(** The predictor as the analyzer constructs it. *)
Lemma constructed_predictor_score_witness :
  @ScorePredictor.__init__ nat Array Demo.keras None = Ok Demo.untrained
  /\ exists q,
       @ScorePredictor.predict_score Array Demo.numerics
          (ScorePredictor.attributes Demo.untrained) Demo.ramp Demo.draws = Ok (Fin q)
       /\ 0 <= q <= 100.
Proof.
  split; [reflexivity |].
  destruct (@constructed_predictor_score nat Array Demo.keras Demo.numerics None
              Demo.untrained Demo.ramp Demo.draws eq_refl) as (q & Hq & Hr & _).
  exists q. split; [exact Hq | exact Hr].
Defined.

(** Five images of one shape: four for the training, one for the
    validation; two images of different shapes: no training. *)
Lemma training_split_witness :
  (exists args : ScorePredictor.FitArguments Array,
     length (ScorePredictor.fit_x args) = 4%nat
     /\ length (ScorePredictor.validation_data args).1 = 1%nat
     /\ ScorePredictor.fit_y args ++ (ScorePredictor.validation_data args).2
        = map (fun s => s / 100.0) [55; 80; 60; 90; 50])
  /\ @ScorePredictor.train_model nat Array Demo.keras Demo.untrained Demo.ragged_data
     = (false, Demo.untrained).
Proof.
  split.
  - destruct (proj2 (@training_split nat Array Demo.keras Demo.untrained Demo.training_data
                       _ _ _ eq_refl eq_refl eq_refl) _ eq_refl)
      as (args & _ & _ & Hx & Hy & Hk & _).
    exists args.
    assert (Hlen : (length (ScorePredictor.fit_x args)
                    + length (ScorePredictor.validation_data args).1 = 5)%nat).
    { rewrite <- length_app, Hx. reflexivity. }
    cbn [length] in Hk. split; [lia |]. split; [lia | exact Hy].
  - apply (proj1 (@training_split nat Array Demo.keras Demo.untrained Demo.ragged_data
                    _ _ _ eq_refl eq_refl eq_refl)).
    eexists. reflexivity.
Defined.

(** The predictor before any training. *)
Lemma model_info_status_witness :
  exists info,
    @ScorePredictor.get_model_info nat Array Demo.keras Demo.untrained = Ok info
    /\ info !! "status" = Some (ScorePredictor.VStr "not_trained")
    /\ base.size info = 5%nat.
Proof.
  eexists. split; [reflexivity |].
  destruct (@model_info_status nat Array Demo.keras Demo.untrained _ eq_refl)
    as (Hs & Hn & _).
  split; [exact Hs | exact Hn].
Defined.

(** The features of the ramp. *)
Lemma extract_features_keys_witness :
  exists features,
    @ImageProcessor.extract_features Demo.feature_libraries Demo.ramp = Ok features
    /\ base.size features = 11%nat
    /\ features !! "sharpness" = Some 0
    /\ features !! "faces" = None.
Proof.
  eexists. split; [reflexivity |].
  pose proof (@extract_features_keys Demo.feature_libraries Demo.ramp _ eq_refl) as Hk.
  change (@cv2_statistics Demo.feature_libraries Demo.ramp) with (Demo.statistics Demo.ramp)
    in Hk.
  destruct (Demo.statistics Demo.ramp) as [s | e] eqn:Es; [| discriminate Es].
  destruct Hk as (Hsize & Hvalues & Hother).
  split; [exact Hsize |]. split.
  - injection Es as <-. reflexivity.
  - injection Es as <-. reflexivity.
Defined.

(** The average after the scores 53.9, 53.9 and 54.6. *)
Lemma average_between_scores_witness :
  53.9 <= ThumbnailAnalyzer.get_average_score Demo.after_three_calls <= 54.6.
Proof.
  refine (average_between_scores Demo.after_three_calls 53.9 54.6 _ _).
  - discriminate.
  - repeat constructor; vm_compute; discriminate.
Defined.
